(** * Open Design SDK, octopus-reader: the document model

  A shallow embedding of the in-memory document model of
  [octopus-reader/src/nodes] (Page, Artboard, Layer) and of
  [octopus-reader/src/utils/memoize-utils.ts].

  Objects that the TypeScript code shares and mutates (artboards, designs,
  layer collections returned from memoized accessors) live in an explicit
  store, the [World]; a reference is an index into the store.  Methods are
  state transformers over the [World] that either return a value or throw. *)

From stdpp Require Import base option list strings gmap.
From Stdlib Require Import ZArith Lia.

Open Scope string_scope.
Open Scope Z_scope.
Open Scope list_scope.

(** ** JavaScript values used by the model *)

Module Js.

(** A [number] as the model needs it: an integral double, [Infinity] or
    [NaN].  Negative infinity and fractions are not represented. *)
Inductive number := Num (z : Z) | Infinity | NaN.

#[global] Instance number_eq_dec : EqDecision number.
Proof. solve_decision. Defined.

(** [a === b] on numbers: [NaN] is strictly equal to nothing, itself
    included. *)
Definition number_strict_eq (a b : number) : bool :=
  match a, b with
  | NaN, _ => false
  | _, NaN => false
  | _, _ => bool_decide (a = b)
  end.

(** [n - 1]. *)
Definition dec (n : number) : number :=
  match n with
  | Num z => Num (z - 1)
  | Infinity => Infinity
  | NaN => NaN
  end.

(** Truthiness of a number: [0] and [NaN] are falsy. *)
Definition number_truthy (n : number) : bool :=
  match n with
  | Num 0 => false
  | NaN => false
  | _ => true
  end.

(** Truthiness of a string: only the empty string is falsy. *)
Definition string_truthy (s : string) : bool := negb (String.eqb s EmptyString).

(** [s || null] for [s : string | null | undefined]. *)
Definition str_or_null (s : option string) : option string :=
  match s with
  | Some x => if string_truthy x then Some x else None
  | None => None
  end.

(** [a || b] for nullable strings. *)
Definition str_or (a b : option string) : option string :=
  match str_or_null a with
  | Some x => Some x
  | None => b
  end.

(** [n || d] for [n : number | undefined]. *)
Definition num_or (n : option number) (d : number) : number :=
  match n with
  | Some x => if number_truthy x then x else d
  | None => d
  end.

(** Primitive values found in option objects. *)
Inductive prim := PUndefined | PNumber (n : number) | PBoolean (b : bool).

#[global] Instance prim_eq_dec : EqDecision prim.
Proof. solve_decision. Defined.

(** [a === b] on primitives. *)
Definition prim_strict_eq (a b : prim) : bool :=
  match a, b with
  | PNumber x, PNumber y => number_strict_eq x y
  | _, _ => bool_decide (a = b)
  end.

(** A plain key/value record such as [{ depth: 2 }]. *)
Abbreviation object := (gmap string prim).

(** [Object.keys(o)] (the order is irrelevant to the code modelled). *)
Definition keys (o : object) : list string := (map_to_list o).*1.

(** [key in o]. *)
Definition has_key (key : string) (o : object) : bool :=
  bool_decide (is_Some (o !! key)).

(** [o[key]]: a missing key reads as [undefined]. *)
Definition get (o : object) (key : string) : prim :=
  default PUndefined (o !! key).

(** [options.depth] at type [number | undefined]. *)
Definition depth_of (options : object) : option number :=
  match get options "depth" with
  | PNumber n => Some n
  | _ => None
  end.

(** One element of an [arguments] array: an option object, or [undefined]
    (also what an index past the end of the array reads as). *)
Inductive arg := AUndefined | AObject (o : object).

(** [a === b] on arguments.  Objects compare by reference; every call site
    passes a fresh object literal, so two option objects are never the same
    reference. *)
Definition arg_strict_eq (a b : arg) : bool :=
  match a, b with
  | AUndefined, AUndefined => true
  | _, _ => false
  end.

(** [args[i]]. *)
Definition nth_arg (args : list arg) (i : nat) : arg :=
  default AUndefined (args !! i).

(** No value of the object is [NaN]. *)
Definition nan_free (o : object) : Prop :=
  map_Forall (fun _ v => v <> PNumber NaN) o.

#[global] Instance nan_free_dec (o : object) : Decision (nan_free o).
Proof. unfold nan_free. apply _. Defined.

(** No argument is an object with a [NaN] value. *)
Definition arg_nan_free (a : arg) : Prop :=
  match a with
  | AUndefined => True
  | AObject o => nan_free o
  end.

#[global] Instance arg_nan_free_dec (a : arg) : Decision (arg_nan_free a).
Proof. destruct a; simpl; apply _. Defined.

Definition nan_free_args (args : list arg) : Prop := Forall arg_nan_free args.

#[global] Instance nan_free_args_dec (args : list arg)
  : Decision (nan_free_args args).
Proof. unfold nan_free_args. apply _. Defined.

End Js.

Import Js.

(** ** memoize-utils.ts *)

Module MemoizeUtils.

(** [shallowEqual] on the values stored in option objects: neither arrays
    nor objects, so the comparison is [a === b] at any depth. *)
Definition shallowEqual_prim (a b : prim) (depth : Z) : bool :=
  prim_strict_eq a b.

Definition shallowEqualObjects (a b : object) (depth : Z) : bool :=
  forallb
    (fun key =>
       has_key key a && has_key key b &&
       (if depth <=? 1
        then prim_strict_eq (get a key) (get b key)
        else shallowEqual_prim (get a key) (get b key) (depth - 1)))
    (keys a ++ keys b).

Definition shallowEqual (a b : arg) (depth : Z) : bool :=
  match a, b with
  | AObject oa, AObject ob => shallowEqualObjects oa ob depth
  | _, _ => arg_strict_eq a b
  end.

Definition shallowEqualArrays (a b : list arg) (depth : Z) : bool :=
  let length := Nat.max (length a) (length b) in
  forallb
    (fun i =>
       negb (if depth <=? 1
             then negb (arg_strict_eq (nth_arg a i) (nth_arg b i))
             else negb (shallowEqual (nth_arg a i) (nth_arg b i) (depth - 1))))
    (seq 0 length).

(** One element of the [cache] array of a memoizer. *)
Record entry (R : Type) := Entry { args : list arg; result : R }.
Arguments Entry {R} _ _.
Arguments args {R} _.
Arguments result {R} _.

(** [cache.find(({ args: cachedResultArgs }) =>
      shallowEqualArrays(args, cachedResultArgs, depth))] *)
Definition find_cached {R} (depth : Z) (cache : list (entry R))
    (a : list arg) : option (entry R) :=
  List.find (fun e => shallowEqualArrays a (args e) depth) cache.

End MemoizeUtils.

Import MemoizeUtils.

(** ** Data model *)

Abbreviation ArtboardId := string.
Abbreviation ComponentId := string.
Abbreviation LayerId := string.
Abbreviation PageId := string.

(** A reference to an object of the store. *)
Abbreviation ref := nat.

(** [LayerOctopusData]: the content snapshot of one layer.  An absent or
    null ['layers'] is read as the empty array at every use in the source,
    so the field is a plain list. *)
#[warnings="-register-all"]
Inductive LayerOctopusData := LayerData {
  o_id : LayerId;
  o_name : option string;
  o_type : string;
  o_layers : list LayerOctopusData;
  o_symbolID : option ComponentId;
  o_documentId : option ArtboardId;
}.

(** [OctopusDocument]: the content of one artboard. *)
Record OctopusDocument := Octopus {
  doc_symbolID : option ComponentId;
  doc_layers : list LayerOctopusData;
}.

(** [ArtboardManifestData], with the fields [_createManifest] writes. *)
Record ArtboardManifestData := Manifest {
  failed : bool;
  url : option string;
  preview_url : option string;
  artboard_original_id : ArtboardId;
  artboard_name : option string;
  is_symbol : bool;
  symbol_id : option ComponentId;
  page_original_id : option PageId;
  page_name : option string;
}.

(** An optional property of a parameter object: left out (or [undefined]),
    [null], or a value.  A destructuring default applies to the first only. *)
Inductive param (A : Type) := Absent | Null | Val (a : A).
Arguments Absent {A}.
Arguments Null {A}.
Arguments Val {A} _.

(** The last parameter of [_createManifest]. *)
Record ManifestParams := {
  p_id : ArtboardId;
  p_pageId : param PageId;
  p_componentId : param ComponentId;
  p_name : param string;
}.

(** class Layer: the fields set by the constructor. *)
Record Layer := {
  octopus : LayerOctopusData;
  _artboard : option ref;
  _parentLayerId : option LayerId;
}.

(** The layers held by a [LayerCollection] object. *)
Abbreviation LayerCollection := (list Layer).

(** class Artboard: its fields, and the [cache] array that each of its two
    memoized accessors closes over. *)
Record Artboard := {
  _manifest : ArtboardManifestData;
  _octopus : option OctopusDocument;
  _design : option ref;
  getRootLayers_cache : list (entry ref);
  getFlattenedLayers_cache : list (entry ref);
}.

(** class Page. *)
Record Page := {
  page_id : PageId;
  page_design : ref;
  page__name : option string;
}.

(** Modelled from the spec: class Design ([nodes/design.ts]) is not among the
    sources.  A Design "owns a mapping from artboard-id to Artboard
    (insertion order preserved) and from page-id to Page". *)
Record Design := {
  design_artboards : list (ArtboardId * ref);
  design_pages : list Page;
}.

(** The store of shared mutable objects. *)
Record World := {
  artboards : list Artboard;
  designs : list Design;
  collections : list LayerCollection;
}.

(** ** Outcomes and the store monad *)

(** What a call does: return, throw [new Error(msg)], or leave the model
    (a reference to no object of the store, or no fuel left). *)
Inductive outcome (A : Type) :=
  | Ok (a : A)
  | Throw (msg : string)
  | Dangling
  | OutOfFuel.
Arguments Ok {A} _.
Arguments Throw {A} _.
Arguments Dangling {A}.
Arguments OutOfFuel {A}.

Definition M (A : Type) : Type := World -> outcome A * World.

Definition ret {A} (a : A) : M A := fun w => (Ok a, w).

Definition bind {A B} (m : M A) (f : A -> M B) : M B :=
  fun w =>
    match m w with
    | (Ok a, w') => f a w'
    | (Throw msg, w') => (Throw msg, w')
    | (Dangling, w') => (Dangling, w')
    | (OutOfFuel, w') => (OutOfFuel, w')
    end.

Definition throw {A} (msg : string) : M A := fun w => (Throw msg, w).

Notation "'let*' x ':=' m 'in' k" := (bind m (fun x => k))
  (at level 10, x name, m at level 100, k at level 200).
Notation "'do' m 'in' k" := (bind m (fun _ => k))
  (at level 10, m at level 100, k at level 200).

Definition deref {A} (sel : World -> list A) (r : ref) : M A :=
  fun w =>
    match sel w !! r with
    | Some a => (Ok a, w)
    | None => (Dangling, w)
    end.

Definition get_artboard : ref -> M Artboard := deref artboards.
Definition get_design : ref -> M Design := deref designs.
Definition get_collection : ref -> M LayerCollection := deref collections.

Definition put_artboard (r : ref) (a : Artboard) : M unit :=
  fun w =>
    (Ok tt, {| artboards := <[r := a]> (artboards w);
               designs := designs w;
               collections := collections w |}).

(** [new LayerCollection(layers)] *)
Definition new_LayerCollection (layers : list Layer) : M ref :=
  fun w =>
    (Ok (length (collections w)),
     {| artboards := artboards w;
        designs := designs w;
        collections := collections w ++ [layers] |}).

(** ** memoize *)

(** The function [memoizer] that [memoize(fn, depth)] returns, over the
    [cache] array that it closes over. *)
Definition memoizer {R} (fn : list arg -> M R) (depth : Z)
    (get_cache : M (list (entry R)))
    (set_cache : list (entry R) -> M unit)
    (a : list arg) : M R :=
  let* cache := get_cache in
  match find_cached depth cache a with
  | Some cached => ret (result cached)
  | None =>
      let* calculatedResult := fn a in
      let* cache' := get_cache in
      do set_cache (cache' ++ [Entry a calculatedResult]) in
      ret calculatedResult
  end.

(** [memoizer.clear()]: [cache.splice(0, cache.length)] *)
Definition memoizer_clear {R} (set_cache : list (entry R) -> M unit) : M unit :=
  set_cache [].

(** ** class Artboard: accessors of one artboard object *)

(** [get id()] *)
Definition Artboard_id (this : Artboard) : ArtboardId :=
  artboard_original_id (_manifest this).

(** [get componentId()] *)
Definition Artboard_componentId (this : Artboard) : option ComponentId :=
  str_or_null (symbol_id (_manifest this)).

(** [get pageId()] *)
Definition Artboard_pageId (this : Artboard) : option PageId :=
  str_or_null (page_original_id (_manifest this)).

(** [get name()] *)
Definition Artboard_name (this : Artboard) : option string :=
  str_or_null (artboard_name (_manifest this)).

(** ** class Design *)

(** Modelled from the spec: [Design.getArtboardById], "return not-found as
    an empty result rather than erroring". *)
Definition Design_getArtboardById (d : Design) (artboardId : ArtboardId)
    : option ref :=
  snd <$> List.find (fun e => String.eqb (fst e) artboardId) (design_artboards d).

(** Modelled from the spec: [Design.getArtboardByComponentId], the first
    artboard in insertion order whose component id is the given one. *)
Definition Design_getArtboardByComponentId (w : World) (d : Design)
    (componentId : ComponentId) : option ref :=
  snd <$> List.find
    (fun e =>
       match artboards w !! snd e with
       | Some a => bool_decide (Artboard_componentId a = Some componentId)
       | None => false
       end)
    (design_artboards d).

(** Modelled from the spec: [Design.getPageById], not-found as nothing. *)
Definition Design_getPageById (d : Design) (pageId : PageId) : option Page :=
  List.find (fun p => String.eqb (page_id p) pageId) (design_pages d).

(** ** layer-factories-utils, LayerCollection *)

(** [new Layer(layerOctopus, { parentLayerId, artboard })] *)
Definition new_Layer (layerOctopus : LayerOctopusData)
    (parentLayerId : option LayerId) (artboard : option ref) : Layer :=
  {| octopus := layerOctopus;
     _artboard := artboard;
     _parentLayerId := str_or_null parentLayerId |}.

(** Modelled from the spec: [createLayers] of [utils/layer-factories-utils]
    is not among the sources; it makes one Layer per entry of the data list,
    with the given parent layer id and artboard. *)
Definition createLayers (layerDataList : list LayerOctopusData)
    (parentLayerId : option LayerId) (artboard : option ref) : list Layer :=
  map (fun layerData => new_Layer layerData parentLayerId artboard) layerDataList.

(** Modelled from the spec: [createFlattenedLayers] of
    [utils/layer-factories-utils] is not among the sources.  "Flattened
    layers: the depth-first, document-order expansion of a layer tree up to an
    optional depth bound"; depth [1] keeps the given level only, and each
    level of descent takes one off the depth. *)
Fixpoint createFlattenedLayer (artboard : option ref) (depth : number)
    (parentLayerId : option LayerId) (layerData : LayerOctopusData)
    {struct layerData} : list Layer :=
  new_Layer layerData parentLayerId artboard ::
  (if number_strict_eq depth (Num 1) then []
   else flat_map
          (createFlattenedLayer artboard (dec depth) (Some (o_id layerData)))
          (o_layers layerData)).

Definition createFlattenedLayers (layerDataList : list LayerOctopusData)
    (parentLayerId : option LayerId) (artboard : option ref) (depth : number)
    : list Layer :=
  flat_map (createFlattenedLayer artboard depth parentLayerId) layerDataList.

(** [get id()] of class Layer *)
Definition Layer_id (this : Layer) : LayerId := o_id (octopus this).

(** Modelled from the spec: [LayerCollection.getLayerById], the first layer
    of the collection with the given id, or nothing. *)
Definition LayerCollection_getLayerById (layers : LayerCollection)
    (layerId : LayerId) : option Layer :=
  List.find (fun l => String.eqb (Layer_id l) layerId) layers.

(** ** class Artboard: methods *)

Definition set_manifest (m : ArtboardManifestData) (a : Artboard) : Artboard :=
  {| _manifest := m;
     _octopus := _octopus a;
     _design := _design a;
     getRootLayers_cache := getRootLayers_cache a;
     getFlattenedLayers_cache := getFlattenedLayers_cache a |}.

Definition set_octopus (o : option OctopusDocument) (a : Artboard) : Artboard :=
  {| _manifest := _manifest a;
     _octopus := o;
     _design := _design a;
     getRootLayers_cache := getRootLayers_cache a;
     getFlattenedLayers_cache := getFlattenedLayers_cache a |}.

Definition set_getRootLayers_cache (c : list (entry ref)) (a : Artboard)
    : Artboard :=
  {| _manifest := _manifest a;
     _octopus := _octopus a;
     _design := _design a;
     getRootLayers_cache := c;
     getFlattenedLayers_cache := getFlattenedLayers_cache a |}.

Definition set_getFlattenedLayers_cache (c : list (entry ref)) (a : Artboard)
    : Artboard :=
  {| _manifest := _manifest a;
     _octopus := _octopus a;
     _design := _design a;
     getRootLayers_cache := getRootLayers_cache a;
     getFlattenedLayers_cache := c |}.

(** Update the object behind [this] in place. *)
Definition modify_artboard (this : ref) (f : Artboard -> Artboard) : M unit :=
  let* a := get_artboard this in
  put_artboard this (f a).

(** [Artboard._createManifest(prevManifest, octopus, params)] *)
Definition Artboard__createManifest (this : Artboard)
    (prevManifest : option ArtboardManifestData)
    (octopus : option OctopusDocument) (params : ManifestParams)
    : M ArtboardManifestData :=
  let id := p_id params in
  let pageId :=
    match p_pageId params with
    | Absent => prevManifest ≫= page_original_id
    | Null => None
    | Val v => Some v
    end in
  let componentId :=
    match p_componentId params with
    | Absent => str_or (octopus ≫= doc_symbolID) (prevManifest ≫= symbol_id)
    | Null => None
    | Val v => Some v
    end in
  let name :=
    match p_name params with
    | Absent => prevManifest ≫= artboard_name
    | Null => None
    | Val v => Some v
    end in
  let* page :=
    match _design this, str_or_null pageId with
    | Some design, Some pid =>
        let* d := get_design design in
        ret (Design_getPageById d pid)
    | _, _ => ret None
    end in
  ret {| failed := from_option failed false prevManifest;
         url := prevManifest ≫= url;
         preview_url := prevManifest ≫= preview_url;
         artboard_original_id := id;
         artboard_name := str_or_null name;
         is_symbol := bool_decide (is_Some (str_or_null componentId));
         symbol_id := str_or_null componentId;
         page_original_id :=
           match str_or_null pageId with
           | Some pid => Some pid
           | None => prevManifest ≫= page_original_id
           end;
         page_name :=
           match str_or_null pageId with
           | Some pid =>
               str_or
                 (str_or (page ≫= page__name)
                    (if bool_decide (Some pid = (prevManifest ≫= page_original_id))
                     then prevManifest ≫= page_name
                     else None))
                 None
           | None => prevManifest ≫= page_name
           end |}.

(** [new Artboard(id, octopus, params)]: the object the constructor builds.
    [_createManifest] runs before [_design] is assigned, so no page is
    looked up. *)
Definition new_Artboard (id : ArtboardId) (octopus : option OctopusDocument)
    (manifest : option ArtboardManifestData) (pageId : param PageId)
    (componentId : param ComponentId) (name : param string)
    (design : option ref) : M ref :=
  let blank :=
    {| _manifest := Manifest false None None EmptyString None false None None None;
       _octopus := None;
       _design := None;
       getRootLayers_cache := [];
       getFlattenedLayers_cache := [] |} in
  let* m := Artboard__createManifest blank manifest octopus
              {| p_id := id; p_pageId := pageId;
                 p_componentId := componentId; p_name := name |} in
  fun w =>
    (Ok (length (artboards w)),
     {| artboards := artboards w ++
          [ {| _manifest := m;
               _octopus := octopus;
               _design := design;
               getRootLayers_cache := [];
               getFlattenedLayers_cache := [] |} ];
        designs := designs w;
        collections := collections w |}).

Definition only_id (id : ArtboardId) : ManifestParams :=
  {| p_id := id; p_pageId := Absent; p_componentId := Absent; p_name := Absent |}.

(** [getManifest()] *)
Definition Artboard_getManifest (this : ref) : M ArtboardManifestData :=
  let* a := get_artboard this in
  ret (_manifest a).

(** [setManifest(nextManifest)] *)
Definition Artboard_setManifest (this : ref)
    (nextManifest : ArtboardManifestData) : M unit :=
  let* a := get_artboard this in
  if negb (String.eqb (artboard_original_id nextManifest) (Artboard_id a))
  then throw "Cannot replace existing artboard ID"
  else
    let* m := Artboard__createManifest a (Some nextManifest) (_octopus a)
                (only_id (Artboard_id a)) in
    modify_artboard this (set_manifest m).

(** [isLoaded()] *)
Definition Artboard_isLoaded (this : ref) : M bool :=
  let* a := get_artboard this in
  ret (bool_decide (is_Some (_octopus a))).

(** [unload()] *)
Definition Artboard_unload (this : ref) : M unit :=
  modify_artboard this (set_octopus None).

(** [getOctopus()] *)
Definition Artboard_getOctopus (this : ref) : M (option OctopusDocument) :=
  let* a := get_artboard this in
  ret (_octopus a).

(** [setOctopus(nextOctopus)] *)
Definition Artboard_setOctopus (this : ref) (nextOctopus : OctopusDocument)
    : M unit :=
  do modify_artboard this (set_octopus (Some nextOctopus)) in
  let* a := get_artboard this in
  let* m := Artboard__createManifest a (Some (_manifest a)) (Some nextOctopus)
              (only_id (Artboard_id a)) in
  do modify_artboard this (set_manifest m) in
  do memoizer_clear (fun c => modify_artboard this (set_getRootLayers_cache c)) in
  memoizer_clear (fun c => modify_artboard this (set_getFlattenedLayers_cache c)).

(** [getDesign()] *)
Definition Artboard_getDesign (this : ref) : M (option ref) :=
  let* a := get_artboard this in
  ret (_design a).

(** [setPage(nextPageId)] *)
Definition Artboard_setPage (this : ref) (nextPageId : PageId) : M unit :=
  let* a := get_artboard this in
  let* m := Artboard__createManifest a (Some (_manifest a)) (_octopus a)
              {| p_id := Artboard_id a; p_pageId := Val nextPageId;
                 p_componentId := Absent; p_name := Absent |} in
  modify_artboard this (set_manifest m).

(** The layer data list [this._octopus?.['layers'] || []]. *)
Definition layerDataList_of (o : option OctopusDocument)
    : list LayerOctopusData :=
  from_option doc_layers [] o.

(** The function memoized by [getRootLayers]. *)
Definition Artboard_getRootLayers_fn (this : ref) (_ : list arg) : M ref :=
  let* a := get_artboard this in
  let layerDataList := layerDataList_of (_octopus a) in
  let layerList := createLayers layerDataList None (Some this) in
  new_LayerCollection layerList.

(** [getRootLayers = memoize(...)] *)
Definition Artboard_getRootLayers (this : ref) : list arg -> M ref :=
  memoizer (Artboard_getRootLayers_fn this) 1
    (let* a := get_artboard this in ret (getRootLayers_cache a))
    (fun c => modify_artboard this (set_getRootLayers_cache c)).

(** The parameter [options = {}] of a call with arguments [a]. *)
Definition options_of (a : list arg) : object :=
  match nth_arg a 0 with
  | AUndefined => ∅
  | AObject o => o
  end.

(** The function memoized by [getFlattenedLayers]. *)
Definition Artboard_getFlattenedLayers_fn (this : ref) (args : list arg)
    : M ref :=
  let options := options_of args in
  let* a := get_artboard this in
  let layerDataList := layerDataList_of (_octopus a) in
  let depth := num_or (depth_of options) Infinity in
  let layerList := createFlattenedLayers layerDataList None (Some this) depth in
  new_LayerCollection layerList.

(** [getFlattenedLayers = memoize(..., 2)] *)
Definition Artboard_getFlattenedLayers (this : ref) : list arg -> M ref :=
  memoizer (Artboard_getFlattenedLayers_fn this) 2
    (let* a := get_artboard this in ret (getFlattenedLayers_cache a))
    (fun c => modify_artboard this (set_getFlattenedLayers_cache c)).

(** [getLayerById(layerId)] *)
Definition Artboard_getLayerById (this : ref) (layerId : LayerId)
    : M (option Layer) :=
  let* c := Artboard_getFlattenedLayers this [] in
  let* layers := get_collection c in
  ret (LayerCollection_getLayerById layers layerId).

(** ** class Layer *)

(** [isRootLayer()] *)
Definition Layer_isRootLayer (this : Layer) : bool :=
  negb (bool_decide (is_Some (str_or_null (_parentLayerId this)))).

(** [_getDirectlyNestedLayers = memoize(...)].  The memoized closure reads
    the readonly [octopus] and the fixed [_artboard] only, so its value is a
    function of the layer. *)
Definition Layer__getDirectlyNestedLayers (this : Layer) : LayerCollection :=
  createLayers (o_layers (octopus this)) (Some (Layer_id this)) (_artboard this).

(** The layers [getNestedLayers] returns for the layer with content
    [layerData], by recursion on the content tree: the directly nested layers
    at depth [1], and otherwise each of them followed by its own nested
    layers as [LayerCollection.flatten] asks for them. *)
Fixpoint nestedLayers (artboard : option ref) (optionsDepth : option number)
    (layerData : LayerOctopusData) {struct layerData} : list Layer :=
  let depth := num_or optionsDepth (Num 1) in
  if number_strict_eq depth (Num 1)
  then createLayers (o_layers layerData) (Some (o_id layerData)) artboard
  else flat_map
         (fun nested =>
            new_Layer nested (Some (o_id layerData)) artboard ::
            nestedLayers artboard (Some (num_or (Some (dec depth)) Infinity)) nested)
         (o_layers layerData).

(** [getNestedLayers = memoize((options = {}) => ..., 2)].  As for
    [_getDirectlyNestedLayers], the layers returned are a function of the
    layer and of the options. *)
Definition Layer_getNestedLayers (this : Layer) (options : object)
    : LayerCollection :=
  nestedLayers (_artboard this) (depth_of options) (octopus this).

(** Modelled from the spec: [LayerCollection.flatten] is not among the
    sources; it "produces a new collection containing every
    explicitly-included layer and its nested layers down to [depth] levels, in
    document order", with an unset or [0] depth meaning no limit. *)
Definition LayerCollection_flatten (layers : LayerCollection) (options : object)
    : LayerCollection :=
  let depth := num_or (depth_of options) Infinity in
  flat_map
    (fun layer =>
       layer :: Layer_getNestedLayers layer {[ "depth" := PNumber depth ]})
    layers.

(** [getComponentArtboard()] *)
Definition Layer_getComponentArtboard (this : Layer) : M (option ref) :=
  let componentArtboardId := o_documentId (octopus this) in
  let componentId := o_symbolID (octopus this) in
  match str_or_null componentArtboardId, str_or_null componentId with
  | None, None => ret None
  | _, _ =>
      match _artboard this with
      | None => throw "Cannot retrieve detached layer component artboard info"
      | Some artboard =>
          let* design := Artboard_getDesign artboard in
          match design with
          | None =>
              throw "Cannot retrieve detached artboard layer component artboard info"
          | Some design =>
              let* d := get_design design in
              match str_or_null componentArtboardId with
              | Some aid => ret (Design_getArtboardById d aid)
              | None =>
                  match str_or_null componentId with
                  | Some cid =>
                      fun w => (Ok (Design_getArtboardByComponentId w d cid), w)
                  | None => ret None
                  end
              end
          end
      end
  end.

(** [Layer.getDepth()] and [Artboard.getLayerDepth(layerId)] call each other
    along the chain of parent layer ids; [fuel] bounds the number of calls. *)
Fixpoint Layer_getDepth (fuel : nat) (this : Layer) {struct fuel} : M Z :=
  match fuel with
  | O => fun w => (OutOfFuel, w)
  | S fuel' =>
      match str_or_null (_parentLayerId this) with
      | None => ret 1
      | Some parentLayerId =>
          match _artboard this with
          | None => throw "Cannot determine detached layer depth"
          | Some artboard =>
              let* parentLayerDepth :=
                Artboard_getLayerDepth fuel' artboard parentLayerId in
              match parentLayerDepth with
              | None => throw "Cannot determine parent layer depth"
              | Some d => ret (1 + d)
              end
          end
      end
  end
with Artboard_getLayerDepth (fuel : nat) (this : ref) (layerId : LayerId)
    {struct fuel} : M (option Z) :=
  match fuel with
  | O => fun w => (OutOfFuel, w)
  | S fuel' =>
      let* layer := Artboard_getLayerById this layerId in
      match layer with
      | Some l =>
          let* d := Layer_getDepth fuel' l in
          ret (Some d)
      | None => ret None
      end
  end.

(** *** Bitmap assets *)

(** A bitmap asset descriptor of one layer: the asset [name] is the asset's
    identity. *)
Record BitmapAssetDescriptor := {
  bd_layerId : LayerId;
  bd_name : string;
  bd_prerendered : bool;
}.

Record AggregatedBitmapAssetDescriptor := {
  ad_name : string;
  ad_prerendered : bool;
  ad_layerIds : list LayerId;
}.

(** [const { layerId, ...data } = desc; return { ...data, layerIds: [layerId] }] *)
Definition aggregate_one (desc : BitmapAssetDescriptor)
    : AggregatedBitmapAssetDescriptor :=
  {| ad_name := bd_name desc;
     ad_prerendered := bd_prerendered desc;
     ad_layerIds := [bd_layerId desc] |}.

(** Merge one descriptor into the descriptors kept so far. *)
Fixpoint merge_descriptor (desc : AggregatedBitmapAssetDescriptor)
    (kept : list AggregatedBitmapAssetDescriptor)
    : list AggregatedBitmapAssetDescriptor :=
  match kept with
  | [] => [desc]
  | k :: kept' =>
      if String.eqb (ad_name k) (ad_name desc)
      then {| ad_name := ad_name k;
              ad_prerendered := ad_prerendered k;
              ad_layerIds := list_union (ad_layerIds k) (ad_layerIds desc) |}
           :: kept'
      else k :: merge_descriptor desc kept'
  end.

(** Modelled from the spec: [keepUniqueBitmapAssetDescriptors] of
    [utils/assets-utils] is not among the sources; it is "deduplicating by
    asset identity while unioning the set of layer-ids that reference each
    asset". *)
Definition keepUniqueBitmapAssetDescriptors
    (descs : list AggregatedBitmapAssetDescriptor)
    : list AggregatedBitmapAssetDescriptor :=
  fold_left (fun kept desc => merge_descriptor desc kept) descs [].

Section LayerBitmapAssets.

(** [getLayerBitmapAssets(layer, { includePrerendered })] of
    [utils/layer-bitmaps-utils], which is not among the sources: the
    descriptors of the bitmaps the layer itself uses. *)
Variable getLayerBitmapAssets : Layer -> bool -> list BitmapAssetDescriptor.

(** [_createBitmapAssetDescriptors = memoize((params) => ..., 2)] *)
Definition Layer__createBitmapAssetDescriptors (this : Layer)
    (includePrerendered : bool) : list BitmapAssetDescriptor :=
  getLayerBitmapAssets this includePrerendered.

(** [options.includePrerendered !== false] *)
Definition includePrerendered_of (options : object) : bool :=
  negb (prim_strict_eq (get options "includePrerendered") (PBoolean false)).

(** The descriptors [getBitmapAssets] returns for the layer with content
    [layerData], by recursion on the content tree. *)
Fixpoint bitmapAssets (artboard : option ref) (options : object)
    (parentLayerId : option LayerId) (layerData : LayerOctopusData)
    {struct layerData} : list AggregatedBitmapAssetDescriptor :=
  let this :=
    {| octopus := layerData; _artboard := artboard;
       _parentLayerId := parentLayerId |} in
  let layerBitmapAssetDescs :=
    map aggregate_one
      (Layer__createBitmapAssetDescriptors this (includePrerendered_of options)) in
  let depth := num_or (depth_of options) Infinity in
  let nestedLayerBitmapAssetDescs :=
    if number_strict_eq depth (Num 1) then []
    else flat_map
           (fun nested =>
              bitmapAssets artboard
                (<[ "depth" := PNumber (dec depth) ]> options)
                (str_or_null (Some (o_id layerData))) nested)
           (o_layers layerData) in
  keepUniqueBitmapAssetDescriptors
    (layerBitmapAssetDescs ++ nestedLayerBitmapAssetDescs).

(** [getBitmapAssets(options = {})] *)
Definition Layer_getBitmapAssets (this : Layer) (options : object)
    : list AggregatedBitmapAssetDescriptor :=
  bitmapAssets (_artboard this) options (_parentLayerId this) (octopus this).

End LayerBitmapAssets.

(** ** class Page *)

(** [Page.getArtboardById(artboardId)] *)
Definition Page_getArtboardById (this : Page) (artboardId : ArtboardId)
    : M (option ref) :=
  let* d := get_design (page_design this) in
  match Design_getArtboardById d artboardId with
  | None => ret None
  | Some artboard =>
      let* a := get_artboard artboard in
      if negb (bool_decide (Artboard_pageId a = Some (page_id this)))
      then ret None
      else ret (Some artboard)
  end.

(** [Page.addArtboard(artboardId)] *)
Definition Page_addArtboard (this : Page) (artboardId : ArtboardId) : M unit :=
  let* artboard := Page_getArtboardById this artboardId in
  match artboard with
  | None => throw "Artboard not found"
  | Some artboard => Artboard_setPage artboard (page_id this)
  end.

(** ** Predicates used in the statements *)

(** The call threw an [Error]. *)
Definition throws {A} (r : outcome A * World) : Prop :=
  exists msg, fst r = Throw msg.

(** The [_design] reference of an artboard, when set, is a Design of the
    store. *)
Definition design_ok (w : World) (a : Artboard) : Prop :=
  match _design a with
  | Some d => is_Some (designs w !! d)
  | None => True
  end.

(** Every entry of the cache of [getFlattenedLayers] holds the collection
    that the memoized function computes from the current content. *)
Definition flattened_cache_coherent (w : World) (this : ref) (a : Artboard)
    : Prop :=
  Forall
    (fun e =>
       collections w !! result e =
       Some (createFlattenedLayers (layerDataList_of (_octopus a)) None
               (Some this)
               (num_or (depth_of (options_of (args e))) Infinity)))
    (getFlattenedLayers_cache a).

(** No two entries of the cache of [getFlattenedLayers] hold the same
    collection object. *)
Definition flattened_cache_distinct (a : Artboard) : Prop :=
  NoDup (map result (getFlattenedLayers_cache a)).

(** [inner] is nested, at any level, in the layer content [outer]. *)
Inductive nested_in (inner : LayerOctopusData) : LayerOctopusData -> Prop :=
  | nested_direct outer :
      In inner (o_layers outer) -> nested_in inner outer
  | nested_deeper mid outer :
      In mid (o_layers outer) -> nested_in inner mid -> nested_in inner outer.

(** The layer content [d] sits at the 1-based nesting level [k] of the
    forest [roots]: root layers are at level 1, and the layers of a layer at
    level [k] are at level [k + 1]. *)
Inductive at_depth (roots : list LayerOctopusData)
    : Z -> LayerOctopusData -> Prop :=
  | at_depth_root d : In d roots -> at_depth roots 1 d
  | at_depth_nested k parent d :
      at_depth roots k parent -> In d (o_layers parent) ->
      at_depth roots (k + 1) d.

(** The layer ids of a layer content and of a forest, in document order. *)
Fixpoint ids_of (d : LayerOctopusData) {struct d} : list LayerId :=
  o_id d :: flat_map ids_of (o_layers d).

Definition layer_ids (roots : list LayerOctopusData) : list LayerId :=
  flat_map ids_of roots.

(** Content whose layer ids are pairwise different and not empty. *)
Definition well_formed_ids (roots : list LayerOctopusData) : Prop :=
  NoDup (layer_ids roots) /\ Forall (fun i => i <> EmptyString) (layer_ids roots).

(** [kept] has a descriptor of the asset of [x] that lists the layer ids of
    [x]. *)
Definition covers (kept : list AggregatedBitmapAssetDescriptor)
    (x : AggregatedBitmapAssetDescriptor) : Prop :=
  exists agg,
    In agg kept /\ ad_name agg = ad_name x /\
    incl (ad_layerIds x) (ad_layerIds agg).

(** [layer] is reached from [this] by [k] steps to a directly nested layer
    ([k = 0]: [this] itself); the layer objects are those that
    [_getDirectlyNestedLayers] makes. *)
Inductive reaches : Layer -> nat -> Layer -> Prop :=
  | reaches_self this : reaches this 0 this
  | reaches_nested this child k layer :
      In child (Layer__getDirectlyNestedLayers this) ->
      reaches child k layer ->
      reaches this (S k) layer.

(** The level [k] below a layer is within the depth that [options] ask for:
    a depth [n >= 1] takes the layer itself and [n - 1] levels below it, and
    anything else sets no limit. *)
Definition within_depth (options : object) (k : nat) : bool :=
  match get options "depth" with
  | PNumber (Num z) => (z <? 1) || (Z.of_nat k <? z)
  | _ => true
  end.

(** The layers whose bitmap assets [getBitmapAssets(options)] of [this] is
    to collect. *)
Definition bitmap_scope (this : Layer) (options : object) (layer : Layer)
    : Prop :=
  exists k, reaches this k layer /\ within_depth options k = true.

(** The layer uses the bitmap asset [name] under the layer id [id]. *)
Definition uses_bitmap
    (getLayerBitmapAssets : Layer -> bool -> list BitmapAssetDescriptor)
    (options : object) (layer : Layer) (name : string) (id : LayerId) : Prop :=
  exists desc,
    In desc (getLayerBitmapAssets layer (includePrerendered_of options)) /\
    bd_name desc = name /\ bd_layerId desc = id.

(** [descs] lists the layer id [id] under the asset [name]. *)
Definition lists_bitmap (descs : list AggregatedBitmapAssetDescriptor)
    (name : string) (id : LayerId) : Prop :=
  exists agg, In agg descs /\ ad_name agg = name /\ In id (ad_layerIds agg).

(** ** Sample documents *)

Definition leaf (id : LayerId) : LayerOctopusData :=
  LayerData id None "layer" [] None None.

Definition group (id : LayerId) (layers : list LayerOctopusData)
    : LayerOctopusData :=
  LayerData id None "groupLayer" layers None None.

(** A component instance layer referring to the component ["sym"]. *)
Definition instance (id : LayerId) : LayerOctopusData :=
  LayerData id None "groupLayer" [] (Some "sym") None.

Definition sample_tree : LayerOctopusData :=
  group "a" [group "b" [leaf "c"]; leaf "d"].

Definition sample_octopus : OctopusDocument :=
  Octopus None [sample_tree; instance "e"].

Definition other_octopus : OctopusDocument :=
  Octopus (Some "sym") [leaf "x"].

Definition page1 : Page :=
  {| page_id := "p1"; page_design := 0%nat; page__name := Some "Page 1" |}.

Definition page2 : Page :=
  {| page_id := "p2"; page_design := 0%nat; page__name := Some "Page 2" |}.

Definition sample_manifest (id : ArtboardId) (pageId : option PageId)
    (componentId : option ComponentId) : ArtboardManifestData :=
  {| failed := false; url := None; preview_url := None;
     artboard_original_id := id; artboard_name := Some "Board";
     is_symbol := bool_decide (is_Some componentId); symbol_id := componentId;
     page_original_id := pageId; page_name := None |}.

(** A Design with the pages ["p1"] and ["p2"] and two loaded artboards:
    ["A"] on page ["p2"], and the component ["B"] on no page. *)
Definition sample_world : World :=
  {| artboards :=
       [ {| _manifest := sample_manifest "A" (Some "p2") None;
            _octopus := Some sample_octopus;
            _design := Some 0%nat;
            getRootLayers_cache := [];
            getFlattenedLayers_cache := [] |};
         {| _manifest := sample_manifest "B" None (Some "sym");
            _octopus := Some other_octopus;
            _design := Some 0%nat;
            getRootLayers_cache := [];
            getFlattenedLayers_cache := [] |} ];
     designs :=
       [ {| design_artboards := [("A", 0%nat); ("B", 1%nat)];
            design_pages := [page1; page2] |} ];
     collections := [] |}.

(** A sample of [getLayerBitmapAssets]: the layers ["c"] and ["d"] both use
    the bitmap ["img.png"], and no other layer uses a bitmap. *)
Definition sample_getLayerBitmapAssets (layer : Layer) (includePrerendered : bool)
    : list BitmapAssetDescriptor :=
  if bool_decide (Layer_id layer = "c" \/ Layer_id layer = "d")
  then [ {| bd_layerId := Layer_id layer; bd_name := "img.png";
            bd_prerendered := false |} ]
  else [].

Definition depth_0 : object := {[ "depth" := PNumber (Num 0) ]}.
Definition depth_Infinity : object := {[ "depth" := PNumber Infinity ]}.
Definition depth_NaN : object := {[ "depth" := PNumber NaN ]}.



(** A store with one artboard, detached and without content. *)
Definition unloaded_sample_world : World :=
  {| artboards :=
       [ {| _manifest := sample_manifest "U" None None;
            _octopus := None;
            _design := None;
            getRootLayers_cache := [];
            getFlattenedLayers_cache := [] |} ];
     designs := [];
     collections := [] |}.

(** ** Further methods of Artboard, Page and Layer *)

(** [Artboard.isComponent()] *)
Definition Artboard_isComponent (this : Artboard) : bool :=
  bool_decide (is_Some (Artboard_componentId this)).

(** [Artboard.getPage()] *)
Definition Artboard_getPage (this : ref) : M (option Page) :=
  let* a := get_artboard this in
  match Artboard_pageId a with
  | None => ret None
  | Some pageId =>
      match _design a with
      | None => throw "Cannot retrieve a detached artboard page"
      | Some design =>
          let* d := get_design design in
          ret (Design_getPageById d pageId)
      end
  end.

(** [Artboard.unassignFromPage()] *)
Definition Artboard_unassignFromPage (this : ref) : M unit :=
  let* a := get_artboard this in
  let* m := Artboard__createManifest a (Some (_manifest a)) (_octopus a)
              {| p_id := Artboard_id a; p_pageId := Null;
                 p_componentId := Absent; p_name := Absent |} in
  modify_artboard this (set_manifest m).

(** [Page.unassignArtboard(artboardId)] *)
Definition Page_unassignArtboard (this : Page) (artboardId : ArtboardId)
    : M bool :=
  let* artboard := Page_getArtboardById this artboardId in
  match artboard with
  | None => ret false
  | Some artboard =>
      do Artboard_unassignFromPage artboard in
      ret true
  end.

Definition put_design (r : ref) (d : Design) : M unit :=
  fun w =>
    (Ok tt, {| artboards := artboards w;
               designs := <[r := d]> (designs w);
               collections := collections w |}).

(** Modelled from the spec: [Design.removeArtboard] is not among the
    sources; it takes the artboard with the given id out of the Design and
    "returns whether an artboard was removed". *)
Definition Design_removeArtboard (design : ref) (artboardId : ArtboardId)
    : M bool :=
  let* d := get_design design in
  match Design_getArtboardById d artboardId with
  | None => ret false
  | Some _ =>
      do put_design design
           {| design_artboards :=
                List.filter (fun e => negb (String.eqb (fst e) artboardId))
                  (design_artboards d);
              design_pages := design_pages d |} in
      ret true
  end.

(** [Page.removeArtboard(artboardId)] *)
Definition Page_removeArtboard (this : Page) (artboardId : ArtboardId)
    : M bool :=
  let* artboard := Page_getArtboardById this artboardId in
  match artboard with
  | None => ret false
  | Some _ => Design_removeArtboard (page_design this) artboardId
  end.

(** Modelled from the spec: [Design.getPageArtboards] is not among the
    sources; it returns the Design's "artboards whose [pageId] equals this
    page's id (snapshot, Design's relative order preserved)". *)
Definition Design_getPageArtboards (w : World) (d : Design) (pageId : PageId)
    : list ref :=
  List.filter
    (fun r =>
       match artboards w !! r with
       | Some a => bool_decide (Artboard_pageId a = Some pageId)
       | None => false
       end)
    (map snd (design_artboards d)).

(** [Page.getArtboards()] *)
Definition Page_getArtboards (this : Page) : M (list ref) :=
  let* d := get_design (page_design this) in
  fun w => (Ok (Design_getPageArtboards w d (page_id this)), w).

(** [array.forEach(callback)] for a callback that returns nothing. *)
Fixpoint forEach {A} (l : list A) (callback : A -> M unit) : M unit :=
  match l with
  | [] => ret tt
  | x :: l' => do callback x in forEach l' callback
  end.

(** [Page.unloadArtboards()] *)
Definition Page_unloadArtboards (this : Page) : M unit :=
  let* artboards := Page_getArtboards this in
  forEach artboards (fun artboard => Artboard_unload artboard).

(** [Layer.getParentLayerId()] *)
Definition Layer_getParentLayerId (this : Layer) : option LayerId :=
  _parentLayerId this.

(** [Layer.getParentLayer()] *)
Definition Layer_getParentLayer (this : Layer) : M (option Layer) :=
  match str_or_null (_parentLayerId this) with
  | None => ret None
  | Some parentLayerId =>
      match _artboard this with
      | None => throw "Cannot retrieve the parent layer of a detached layer"
      | Some artboard =>
          let* parentLayer := Artboard_getLayerById artboard parentLayerId in
          match parentLayer with
          | None => throw "Cannot retrieve the parent layer"
          | Some l => ret (Some l)
          end
      end
  end.

(** [Layer.getParentLayerIds()], which calls itself on the parent layer;
    [fuel] bounds the number of calls. *)
Fixpoint Layer_getParentLayerIds (fuel : nat) (this : Layer) {struct fuel}
    : M (list LayerId) :=
  match fuel with
  | O => fun w => (OutOfFuel, w)
  | S fuel' =>
      let* parentLayer := Layer_getParentLayer this in
      match parentLayer with
      | Some p =>
          let* rest := Layer_getParentLayerIds fuel' p in
          ret (Layer_id p :: rest)
      | None => ret []
      end
  end.

(** [Layer.hasNestedLayers()] *)
Definition Layer_hasNestedLayers (this : Layer) : bool :=
  match o_layers (octopus this) with
  | [] => false
  | _ :: _ => true
  end.

(** [Layer.isComponentInstance()] *)
Definition Layer_isComponentInstance (this : Layer) : bool :=
  bool_decide
    (is_Some (str_or (o_symbolID (octopus this))
                (str_or_null (o_documentId (octopus this))))).

(** [Layer.getComponentId()] *)
Definition Layer_getComponentId (this : Layer) : option ComponentId :=
  str_or_null (o_symbolID (octopus this)).

(** The ids of the layers that hold the layer content [d] in the forest
    [roots], from the layer that holds it directly up to a root layer. *)
Inductive ancestors (roots : list LayerOctopusData)
    : list LayerId -> LayerOctopusData -> Prop :=
  | ancestors_root d : In d roots -> ancestors roots [] d
  | ancestors_nested ids parent d :
      ancestors roots ids parent -> In d (o_layers parent) ->
      ancestors roots (o_id parent :: ids) d.

(** The argument lists agree position by position, an index past the end
    reading as [undefined]. *)
Definition same_arguments (a b : list arg) : Prop :=
  forall i, nth_arg a i = nth_arg b i.

(** * Properties *)

(** ** The store monad *)

Lemma bind_ok {A B} (m : M A) (f : A -> M B) w a w' :
  m w = (Ok a, w') -> bind m f w = f a w'.
Proof. intros H. unfold bind. rewrite H. reflexivity. Qed.

Lemma bind_assoc {A B C} (m : M A) (f : A -> M B) (g : B -> M C) w :
  bind (bind m f) g w = bind m (fun x => bind (f x) g) w.
Proof. unfold bind. destruct (m w) as [[a | msg | |] w']; reflexivity. Qed.

Lemma get_artboard_ok w r a :
  artboards w !! r = Some a -> get_artboard r w = (Ok a, w).
Proof. intros H. unfold get_artboard, deref. rewrite H. reflexivity. Qed.

Lemma get_design_ok w r d :
  designs w !! r = Some d -> get_design r w = (Ok d, w).
Proof. intros H. unfold get_design, deref. rewrite H. reflexivity. Qed.

Lemma get_collection_ok w r c :
  collections w !! r = Some c -> get_collection r w = (Ok c, w).
Proof. intros H. unfold get_collection, deref. rewrite H. reflexivity. Qed.

Lemma modify_artboard_ok w r a f :
  artboards w !! r = Some a ->
  modify_artboard r f w =
  (Ok tt, {| artboards := <[r := f a]> (artboards w);
             designs := designs w;
             collections := collections w |}).
Proof.
  intros H. unfold modify_artboard.
  rewrite (bind_ok _ _ _ _ _ (get_artboard_ok _ _ _ H)). reflexivity.
Qed.

Lemma lookup_updated {A} (l : list A) (r : nat) (a b : A) :
  l !! r = Some a -> <[r := b]> l !! r = Some b.
Proof.
  intros H. apply list_lookup_insert_eq. eapply lookup_lt_Some, H.
Qed.

(** [_createManifest] returns, and writes the given id, when the design
    reference of the artboard is not dangling. *)
Lemma createManifest_ok w a prev o params :
  design_ok w a ->
  exists m,
    Artboard__createManifest a prev o params w = (Ok m, w) /\
    artboard_original_id m = p_id params /\
    failed m = from_option failed false prev /\
    url m = prev ≫= url /\
    preview_url m = prev ≫= preview_url.
Proof.
  intros Hd. unfold Artboard__createManifest, design_ok in *.
  destruct (_design a) as [dr |].
  - destruct Hd as [d Hd].
    destruct (str_or_null _) as [pid |] eqn:Hp.
    + rewrite (bind_ok _ _ _ _ _
        (bind_ok _ _ _ _ _ (get_design_ok _ _ _ Hd))).
      eexists; repeat split.
    + eexists; repeat split.
  - eexists; repeat split.
Qed.

(** ** Page.addArtboard *)

Lemma createManifest_pageId w a prev o params m w' :
  Artboard__createManifest a prev o params w = (Ok m, w') ->
  page_original_id m =
  match str_or_null
          match p_pageId params with
          | Absent => prev ≫= page_original_id
          | Null => None
          | Val v => Some v
          end
  with
  | Some pid => Some pid
  | None => prev ≫= page_original_id
  end.
Proof.
  unfold Artboard__createManifest, bind, get_design, deref, ret.
  destruct (_design a) as [dr |]; [destruct (str_or_null _) as [pid |] |].
  - destruct (designs w !! dr); intros H; [| discriminate H].
    injection H as <- _. reflexivity.
  - intros H. injection H as <- _. reflexivity.
  - intros H. injection H as <- _. reflexivity.
Qed.

Lemma str_or_null_idem (s : option string) :
  str_or_null (str_or_null s) = str_or_null s.
Proof.
  destruct s as [x |]; [| reflexivity]. simpl.
  destruct (string_truthy x) eqn:E; [| reflexivity]. simpl. rewrite E.
  reflexivity.
Qed.

(** C1 (the code departs from the claim): [Page.addArtboard] looks the
    artboard up through the page's own [getArtboardById], which hides every
    artboard of the Design whose [pageId] is not this page.  So for an
    artboard that exists in the Design on another page, or on no page,
    [addArtboard] throws "Artboard not found" and leaves the store, and with
    it the artboard's [pageId], as it was; it returns only for an artboard
    that is on the page already. *)
Theorem C1_addArtboard_throws_for_artboard_of_other_page
    (w : World) (p : Page) (d : Design) (artboardId : ArtboardId)
    (r : ref) (a : Artboard) :
  designs w !! page_design p = Some d ->
  Design_getArtboardById d artboardId = Some r ->
  artboards w !! r = Some a ->
  design_ok w a ->
  (Artboard_pageId a <> Some (page_id p) ->
   Page_addArtboard p artboardId w = (Throw "Artboard not found", w)) /\
  (Artboard_pageId a = Some (page_id p) ->
   exists w' a',
     Page_addArtboard p artboardId w = (Ok tt, w') /\
     artboards w' !! r = Some a' /\
     Artboard_pageId a' = Some (page_id p)).
Proof.
  intros Hd Hr Ha Hok.
  assert (Hlookup : forall b,
            bool_decide (Artboard_pageId a = Some (page_id p)) = b ->
            Page_getArtboardById p artboardId w =
            (Ok (if b then Some r else None), w)).
  { intros b Hb. unfold Page_getArtboardById.
    rewrite (bind_ok _ _ _ _ _ (get_design_ok _ _ _ Hd)), Hr.
    rewrite (bind_ok _ _ _ _ _ (get_artboard_ok _ _ _ Ha)), Hb.
    destruct b; reflexivity. }
  split.
  - intros Hp. unfold Page_addArtboard.
    rewrite (bind_ok _ _ _ _ _
               (Hlookup false (bool_decide_eq_false_2 _ Hp))).
    reflexivity.
  - intros Hp. unfold Page_addArtboard.
    rewrite (bind_ok _ _ _ _ _
               (Hlookup true (bool_decide_eq_true_2 _ Hp))).
    unfold Artboard_setPage.
    rewrite (bind_ok _ _ _ _ _ (get_artboard_ok _ _ _ Ha)).
    destruct (createManifest_ok w a (Some (_manifest a)) (_octopus a)
                {| p_id := Artboard_id a; p_pageId := Val (page_id p);
                   p_componentId := Absent; p_name := Absent |} Hok)
      as (m & Hm & _).
    rewrite (bind_ok _ _ _ _ _ Hm).
    rewrite (modify_artboard_ok _ _ _ _ Ha).
    eexists _, (set_manifest m a). split; [reflexivity |].
    split; [apply (lookup_updated _ _ _ _ Ha) |].
    unfold Artboard_pageId in *. simpl _manifest.
    rewrite (createManifest_pageId _ _ _ _ _ _ _ Hm). cbn [p_pageId].
    assert (Htruthy : str_or_null (Some (page_id p)) = Some (page_id p)).
    { rewrite <- Hp. apply str_or_null_idem. }
    rewrite Htruthy. exact Htruthy.
Qed.

Lemma C1_addArtboard_sample :
  (designs sample_world !! page_design page1 = Some
     {| design_artboards := [("A", 0%nat); ("B", 1%nat)];
        design_pages := [page1; page2] |} /\
   Artboard_pageId <$> artboards sample_world !! 0%nat = Some (Some "p2")) /\
  Page_addArtboard page1 "A" sample_world =
  (Throw "Artboard not found", sample_world).
Proof.
  split; [split; reflexivity |].
  eapply (C1_addArtboard_throws_for_artboard_of_other_page
            sample_world page1 _ "A" 0%nat).
  - reflexivity.
  - reflexivity.
  - reflexivity.
  - simpl. eexists. reflexivity.
  - vm_compute. discriminate.
Defined.

(** ** Artboard.unload *)

(** C8: [unload()] on a loaded artboard makes [isLoaded()] false and
    [getOctopus()] nothing, and leaves the manifest, and so the id, page id,
    component id and name, as they were. *)
Theorem C8_unload_discards_content_and_retains_manifest
    (w : World) (this : ref) (a : Artboard) :
  artboards w !! this = Some a ->
  is_Some (_octopus a) ->
  exists w' a',
    Artboard_unload this w = (Ok tt, w') /\
    Artboard_isLoaded this w' = (Ok false, w') /\
    Artboard_getOctopus this w' = (Ok None, w') /\
    Artboard_getManifest this w' = (Ok (_manifest a), w') /\
    artboards w' !! this = Some a' /\
    Artboard_id a' = Artboard_id a /\
    Artboard_pageId a' = Artboard_pageId a /\
    Artboard_componentId a' = Artboard_componentId a /\
    Artboard_name a' = Artboard_name a.
Proof.
  intros Ha _.
  pose proof (lookup_updated _ _ _ (set_octopus None a) Ha) as Ha'.
  eexists _, (set_octopus None a).
  split; [apply (modify_artboard_ok _ _ _ _ Ha) |].
  unfold Artboard_isLoaded, Artboard_getOctopus, Artboard_getManifest.
  repeat split;
    try (erewrite bind_ok by (apply get_artboard_ok; exact Ha'); reflexivity).
  exact Ha'.
Qed.

Lemma C8_unload_sample :
  exists w' a',
    Artboard_unload 0%nat sample_world = (Ok tt, w') /\
    Artboard_isLoaded 0%nat w' = (Ok false, w') /\
    Artboard_getOctopus 0%nat w' = (Ok None, w') /\
    Artboard_getManifest 0%nat w' =
      (Ok (sample_manifest "A" (Some "p2") None), w') /\
    artboards w' !! 0%nat = Some a' /\
    Artboard_id a' = "A" /\
    Artboard_pageId a' = Some "p2" /\
    Artboard_componentId a' = None /\
    Artboard_name a' = Some "Board".
Proof.
  apply (C8_unload_discards_content_and_retains_manifest sample_world 0%nat
           {| _manifest := sample_manifest "A" (Some "p2") None;
              _octopus := Some sample_octopus;
              _design := Some 0%nat;
              getRootLayers_cache := [];
              getFlattenedLayers_cache := [] |}).
  - reflexivity.
  - simpl. eexists. reflexivity.
Defined.

(** ** Artboard.setManifest *)

(** C5: [setManifest(nextManifest)] throws exactly when the artboard id of
    [nextManifest] is not the artboard's id; otherwise the manifest becomes
    the one [_createManifest] derives from [nextManifest] (its [failed],
    [url] and [preview_url] as given), the id stays the same and the content
    is untouched. *)
Theorem C5_setManifest_guards_the_artboard_id
    (w : World) (this : ref) (a : Artboard)
    (nextManifest : ArtboardManifestData) :
  artboards w !! this = Some a ->
  design_ok w a ->
  (throws (Artboard_setManifest this nextManifest w) <->
   artboard_original_id nextManifest <> Artboard_id a) /\
  (artboard_original_id nextManifest = Artboard_id a ->
   exists w' a',
     Artboard_setManifest this nextManifest w = (Ok tt, w') /\
     artboards w' !! this = Some a' /\
     Artboard__createManifest a (Some nextManifest) (_octopus a)
       (only_id (Artboard_id a)) w = (Ok (_manifest a'), w) /\
     Artboard_id a' = Artboard_id a /\
     failed (_manifest a') = failed nextManifest /\
     url (_manifest a') = url nextManifest /\
     preview_url (_manifest a') = preview_url nextManifest /\
     _octopus a' = _octopus a).
Proof.
  intros Ha Hd.
  destruct (createManifest_ok w a (Some nextManifest) (_octopus a)
              (only_id (Artboard_id a)) Hd) as (m & Hm & Hid & Hf & Hu & Hp).
  assert (Hsame : artboard_original_id nextManifest = Artboard_id a ->
                  Artboard_setManifest this nextManifest w =
                  (Ok tt, {| artboards := <[this := set_manifest m a]> (artboards w);
                             designs := designs w;
                             collections := collections w |})).
  { intros E. unfold Artboard_setManifest.
    rewrite (bind_ok _ _ _ _ _ (get_artboard_ok _ _ _ Ha)).
    rewrite E, String.eqb_refl. cbn [negb].
    rewrite (bind_ok _ _ _ _ _ Hm).
    apply (modify_artboard_ok _ _ _ _ Ha). }
  split; [split |].
  - intros [msg Hthrow] E. rewrite (Hsame E) in Hthrow. discriminate.
  - intros Hne. exists "Cannot replace existing artboard ID".
    unfold Artboard_setManifest.
    rewrite (bind_ok _ _ _ _ _ (get_artboard_ok _ _ _ Ha)).
    apply String.eqb_neq in Hne. rewrite Hne. reflexivity.
  - intros E. eexists _, (set_manifest m a).
    split; [apply (Hsame E) |].
    split; [apply (lookup_updated _ _ _ _ Ha) |].
    repeat split; try assumption.
Qed.

Lemma C5_setManifest_sample :
  (throws (Artboard_setManifest 0%nat (sample_manifest "B" None None) sample_world) <->
   "B" <> "A") /\
  ("A" = "A" ->
   exists w' a',
     Artboard_setManifest 0%nat (sample_manifest "A" None None) sample_world
       = (Ok tt, w') /\
     artboards w' !! 0%nat = Some a' /\
     Artboard_id a' = "A").
Proof.
  assert (H0 : artboards sample_world !! 0%nat =
               Some {| _manifest := sample_manifest "A" (Some "p2") None;
                       _octopus := Some sample_octopus;
                       _design := Some 0%nat;
                       getRootLayers_cache := [];
                       getFlattenedLayers_cache := [] |}) by reflexivity.
  assert (Hd : design_ok sample_world
                 {| _manifest := sample_manifest "A" (Some "p2") None;
                    _octopus := Some sample_octopus;
                    _design := Some 0%nat;
                    getRootLayers_cache := [];
                    getFlattenedLayers_cache := [] |}).
  { simpl. eexists. reflexivity. }
  split.
  - apply (C5_setManifest_guards_the_artboard_id sample_world 0%nat _
             (sample_manifest "B" None None) H0 Hd).
  - intros E.
    destruct (C5_setManifest_guards_the_artboard_id sample_world 0%nat _
                (sample_manifest "A" None None) H0 Hd) as [_ Hok].
    destruct (Hok E) as (w' & a' & H1 & H2 & _ & H3 & _).
    exists w', a'. repeat split; assumption.
Defined.

(** ** Layer.getComponentArtboard *)

Lemma Design_getArtboardById_none (d : Design) (artboardId : ArtboardId) :
  (forall e, In e (design_artboards d) -> fst e <> artboardId) ->
  Design_getArtboardById d artboardId = None.
Proof.
  intros H. unfold Design_getArtboardById.
  destruct (List.find _ _) as [e |] eqn:E; [| reflexivity].
  apply find_some in E as [Hin Heq].
  apply String.eqb_eq in Heq. destruct (H e Hin Heq).
Qed.

(** C6: with neither an artboard-id nor a component-id reference in its
    content, [getComponentArtboard()] returns nothing without error.  With
    one, it throws when the layer has no artboard or the artboard has no
    Design; otherwise it returns what the Design finds by artboard id when
    that reference is set, and by component id when only that one is set,
    which is nothing when the Design has no such artboard. *)
Theorem C6_getComponentArtboard_resolves_through_the_design
    (w : World) (l : Layer) :
  let artboardRef := str_or_null (o_documentId (octopus l)) in
  let componentRef := str_or_null (o_symbolID (octopus l)) in
  (artboardRef = None -> componentRef = None ->
   Layer_getComponentArtboard l w = (Ok None, w)) /\
  (is_Some artboardRef \/ is_Some componentRef ->
   (_artboard l = None ->
    Layer_getComponentArtboard l w =
    (Throw "Cannot retrieve detached layer component artboard info", w)) /\
   (forall r a,
      _artboard l = Some r -> artboards w !! r = Some a ->
      (_design a = None ->
       Layer_getComponentArtboard l w =
       (Throw "Cannot retrieve detached artboard layer component artboard info",
        w)) /\
      (forall dr d,
         _design a = Some dr -> designs w !! dr = Some d ->
         (forall aid, artboardRef = Some aid ->
            Layer_getComponentArtboard l w =
            (Ok (Design_getArtboardById d aid), w) /\
            ((forall e, In e (design_artboards d) -> fst e <> aid) ->
             Layer_getComponentArtboard l w = (Ok None, w))) /\
         (forall cid, artboardRef = None -> componentRef = Some cid ->
            Layer_getComponentArtboard l w =
            (Ok (Design_getArtboardByComponentId w d cid), w))))).
Proof.
  intros artboardRef componentRef. split.
  - intros H1 H2. unfold Layer_getComponentArtboard.
    fold artboardRef componentRef. rewrite H1, H2. reflexivity.
  - intros Hsome.
    assert (Hshape : Layer_getComponentArtboard l w =
      match _artboard l with
      | None =>
          (Throw "Cannot retrieve detached layer component artboard info", w)
      | Some artboard =>
          (let* design := Artboard_getDesign artboard in
           match design with
           | None =>
               throw "Cannot retrieve detached artboard layer component artboard info"
           | Some design =>
               let* d := get_design design in
               match artboardRef with
               | Some aid => ret (Design_getArtboardById d aid)
               | None =>
                   match componentRef with
                   | Some cid =>
                       fun w => (Ok (Design_getArtboardByComponentId w d cid), w)
                   | None => ret None
                   end
               end
           end) w
      end).
    { unfold Layer_getComponentArtboard. fold artboardRef componentRef.
      destruct artboardRef, componentRef, (_artboard l); try reflexivity;
        destruct Hsome as [[? H] | [? H]]; discriminate H. }
    split.
    + intros Hl. rewrite Hshape, Hl. reflexivity.
    + intros r a Hl Ha. rewrite Hshape, Hl. unfold Artboard_getDesign.
      rewrite (bind_ok _ _ _ _ _
                 (bind_ok _ _ _ _ _ (get_artboard_ok _ _ _ Ha))).
      unfold ret at 1. split.
      * intros Hd. rewrite Hd. reflexivity.
      * intros dr d Hd Hdr. rewrite Hd.
        rewrite (bind_ok _ _ _ _ _ (get_design_ok _ _ _ Hdr)).
        split.
        -- intros aid Haid. rewrite Haid. split; [reflexivity |].
           intros Hnone. rewrite (Design_getArtboardById_none _ _ Hnone).
           reflexivity.
        -- intros cid Haid Hcid. rewrite Haid, Hcid. reflexivity.
Qed.

(** The layer ["e"] of the sample artboard ["A"] is an instance of the
    component ["sym"], which the Design resolves to the artboard ["B"]. *)
Lemma C6_getComponentArtboard_sample :
  Layer_getComponentArtboard (new_Layer (instance "e") None (Some 0%nat))
    sample_world = (Ok (Some 1%nat), sample_world).
Proof.
  destruct (C6_getComponentArtboard_resolves_through_the_design sample_world
              (new_Layer (instance "e") None (Some 0%nat))) as [_ H].
  destruct H as [_ H]; [right; eexists; reflexivity |].
  destruct (H 0%nat _ eq_refl eq_refl) as [_ H'].
  destruct (H' 0%nat _ eq_refl eq_refl) as [_ H''].
  apply (H'' "sym"); reflexivity.
Defined.

(** ** memoize: cache keys *)

Lemma keys_spec (o : object) (key : string) :
  In key (keys o) <-> is_Some (o !! key).
Proof.
  unfold keys. rewrite <- list_elem_of_In, list_elem_of_fmap. split.
  - intros [[k v] [-> H]]. apply elem_of_map_to_list in H. eauto.
  - intros [v H]. exists (key, v). split; [reflexivity |].
    apply elem_of_map_to_list. exact H.
Qed.

(** [a === b] holds of equal numbers other than [NaN]. *)
Lemma number_strict_eq_iff (a b : number) :
  number_strict_eq a b = true <-> a = b /\ a <> NaN.
Proof.
  destruct a as [x | |], b as [y | |]; unfold number_strict_eq;
    rewrite ?bool_decide_eq_true; split; intros H; try discriminate;
    intuition congruence.
Qed.

Lemma prim_strict_eq_iff (p q : prim) :
  prim_strict_eq p q = true <-> p = q /\ p <> PNumber NaN.
Proof.
  destruct p as [| x | x], q as [| y | y]; unfold prim_strict_eq;
    rewrite ?bool_decide_eq_true, ?number_strict_eq_iff; split; intros H;
    try discriminate; intuition congruence.
Qed.

Lemma nan_free_get (o : object) (key : string) :
  nan_free o -> get o key <> PNumber NaN.
Proof.
  intros H. unfold get. destruct (o !! key) as [v |] eqn:E; simpl.
  - apply (H key v E).
  - discriminate.
Qed.

Lemma shallowEqualObjects_refl (o : object) :
  nan_free o -> shallowEqualObjects o o 1 = true.
Proof.
  intros Hnan. unfold shallowEqualObjects. apply forallb_forall. intros key Hin.
  apply in_app_or in Hin.
  assert (Hk : is_Some (o !! key)) by (destruct Hin; apply keys_spec; assumption).
  unfold has_key. rewrite bool_decide_eq_true_2 by exact Hk.
  simpl. apply prim_strict_eq_iff. split; [reflexivity |].
  apply nan_free_get, Hnan.
Qed.

Lemma shallowEqual_refl (a : arg) :
  arg_nan_free a -> shallowEqual a a 1 = true.
Proof. destruct a; [reflexivity | apply shallowEqualObjects_refl]. Qed.

Lemma nan_free_nth_arg (a : list arg) :
  nan_free_args a <-> forall i, arg_nan_free (nth_arg a i).
Proof.
  unfold nan_free_args, nth_arg. rewrite Forall_lookup. split.
  - intros H i. destruct (a !! i) as [x |] eqn:E; simpl; [apply (H i x E) | exact I].
  - intros H i x E. specialize (H i). rewrite E in H. exact H.
Qed.

(** At depth 2, the depth of the cache of [getFlattenedLayers] and of
    [getNestedLayers], an argument list without [NaN] equals itself. *)
Lemma shallowEqualArrays_refl (a : list arg) :
  nan_free_args a -> shallowEqualArrays a a 2 = true.
Proof.
  intros Hnan. unfold shallowEqualArrays. apply forallb_forall. intros i _.
  change (2 <=? 1) with false. cbv iota.
  change (2 - 1) with 1. rewrite shallowEqual_refl; [reflexivity |].
  apply nan_free_nth_arg, Hnan.
Qed.

Lemma shallowEqualObjects_get (o o' : object) (key : string) :
  shallowEqualObjects o o' 1 = true -> get o key = get o' key.
Proof.
  unfold shallowEqualObjects. intros H.
  assert (Hall : forall k, In k (keys o ++ keys o') ->
            has_key k o = true /\ has_key k o' = true /\
            prim_strict_eq (get o k) (get o' k) = true).
  { intros k Hk. pose proof (proj1 (forallb_forall _ _) H k Hk) as Hb.
    simpl in Hb. apply andb_prop in Hb as [Hb1 Hb3].
    apply andb_prop in Hb1 as [Hb1 Hb2]. auto. }
  destruct (o !! key) as [v |] eqn:E1.
  - destruct (Hall key) as (_ & _ & Heq).
    { apply in_or_app. left. apply keys_spec. rewrite E1. eauto. }
    apply prim_strict_eq_iff in Heq. apply Heq.
  - destruct (o' !! key) as [v' |] eqn:E2.
    + destruct (Hall key) as (Hin & _ & _).
      { apply in_or_app. right. apply keys_spec. rewrite E2. eauto. }
      unfold has_key in Hin. apply bool_decide_eq_true_1 in Hin.
      rewrite E1 in Hin. destruct Hin as [? Hin]. discriminate Hin.
    + unfold get. rewrite E1, E2. reflexivity.
Qed.

(** Two argument lists that the cache of [getFlattenedLayers] takes for the
    same key ask for the same depth. *)
Lemma shallowEqualArrays_depth (a b : list arg) :
  shallowEqualArrays a b 2 = true ->
  depth_of (options_of a) = depth_of (options_of b).
Proof.
  unfold shallowEqualArrays. intros H.
  destruct (Nat.max (length a) (length b)) as [| n] eqn:Hmax.
  - assert (length a = 0%nat /\ length b = 0%nat) as [Ha Hb] by lia.
    apply nil_length_inv in Ha, Hb. subst. reflexivity.
  - pose proof (proj1 (forallb_forall _ _) H 0%nat) as H0.
    simpl in H0. specialize (H0 (or_introl eq_refl)).
    apply negb_true_iff, negb_false_iff in H0.
    change (2 - 1) with 1 in H0. unfold options_of.
    destruct (nth_arg a 0) as [| o], (nth_arg b 0) as [| o'];
      try discriminate H0; [reflexivity |].
    simpl in H0. unfold depth_of.
    rewrite (shallowEqualObjects_get o o' "depth" H0). reflexivity.
Qed.

Lemma shallowEqualObjects_depth (a b : object) (depth : Z) :
  shallowEqualObjects a b depth = shallowEqualObjects a b 1.
Proof.
  unfold shallowEqualObjects, shallowEqual_prim.
  destruct (depth <=? 1); reflexivity.
Qed.

Lemma shallowEqualObjects_all (a b : object) (key : string) :
  shallowEqualObjects a b 1 = true ->
  In key (keys a ++ keys b) ->
  has_key key a = true /\ has_key key b = true /\
  prim_strict_eq (get a key) (get b key) = true.
Proof.
  unfold shallowEqualObjects. intros H Hk.
  pose proof (proj1 (forallb_forall _ _) H key Hk) as Hb.
  simpl in Hb. apply andb_prop in Hb as [Hb1 Hb3].
  apply andb_prop in Hb1 as [Hb1 Hb2]. auto.
Qed.

(** Two option objects are the same cache key exactly when they are equal
    and hold no [NaN]. *)
Lemma shallowEqualObjects_1_iff (a b : object) :
  shallowEqualObjects a b 1 = true <-> a = b /\ nan_free a.
Proof.
  split.
  - intros H. split.
    + apply map_eq. intros key.
      pose proof (shallowEqualObjects_get a b key H) as Hget.
      unfold get in Hget.
      destruct (a !! key) as [v |] eqn:Ea, (b !! key) as [v' |] eqn:Eb;
        simpl in Hget; try congruence.
      * destruct (shallowEqualObjects_all a b key H) as (_ & Hb & _).
        { apply in_or_app. left. apply keys_spec. rewrite Ea. eauto. }
        unfold has_key in Hb. apply bool_decide_eq_true_1 in Hb.
        rewrite Eb in Hb. destruct Hb as [? Hb]. discriminate Hb.
      * destruct (shallowEqualObjects_all a b key H) as (Ha & _ & _).
        { apply in_or_app. right. apply keys_spec. rewrite Eb. eauto. }
        unfold has_key in Ha. apply bool_decide_eq_true_1 in Ha.
        rewrite Ea in Ha. destruct Ha as [? Ha]. discriminate Ha.
    + intros key v Ea.
      destruct (shallowEqualObjects_all a b key H) as (_ & _ & Heq).
      { apply in_or_app. left. apply keys_spec. rewrite Ea. eauto. }
      apply prim_strict_eq_iff in Heq as [_ Hne].
      unfold get in Hne. rewrite Ea in Hne. exact Hne.
  - intros [-> Hnan]. apply shallowEqualObjects_refl, Hnan.
Qed.

Lemma shallowEqual_1_iff (x y : arg) :
  shallowEqual x y 1 = true <-> x = y /\ arg_nan_free x.
Proof.
  destruct x as [| o], y as [| o']; simpl.
  - split; [intros _; split; [reflexivity | exact I] | reflexivity].
  - split; [discriminate | intros [H _]; discriminate H].
  - split; [discriminate | intros [H _]; discriminate H].
  - rewrite shallowEqualObjects_1_iff.
    split; intros [H1 H2]; (split; [congruence | exact H2]).
Qed.

Lemma nth_arg_beyond (a : list arg) (i : nat) :
  (length a <= i)%nat -> nth_arg a i = AUndefined.
Proof.
  intros H. unfold nth_arg. rewrite lookup_ge_None_2 by exact H. reflexivity.
Qed.

(** At depth 2 two argument lists are the same cache key exactly when they
    agree position by position, a missing position reading as [undefined],
    and hold no [NaN]. *)
Lemma shallowEqualArrays_2_iff (a b : list arg) :
  shallowEqualArrays a b 2 = true <-> same_arguments a b /\ nan_free_args a.
Proof.
  unfold shallowEqualArrays, same_arguments.
  rewrite forallb_forall, nan_free_nth_arg. change (2 <=? 1) with false.
  cbv iota. change (2 - 1) with 1. split.
  - intros H.
    assert (Hi : forall i, nth_arg a i = nth_arg b i /\
                           arg_nan_free (nth_arg a i)).
    { intros i.
      destruct (le_lt_dec (Nat.max (length a) (length b)) i) as [Hi | Hi].
      - rewrite !nth_arg_beyond by lia. split; [reflexivity | exact I].
      - apply shallowEqual_1_iff. specialize (H i).
        rewrite negb_involutive in H. apply H. apply in_seq. lia. }
    split; intros i; apply Hi.
  - intros [H1 H2] i _. rewrite negb_involutive.
    apply shallowEqual_1_iff. split; [apply H1 | apply H2].
Qed.

(** Keys that match the same cached key match each other, and matching keys
    find the same entries. *)
Lemma shallowEqualArrays_2_find (a b : list arg) :
  shallowEqualArrays a b 2 = true ->
  forall e, shallowEqualArrays a e 2 = shallowEqualArrays b e 2.
Proof.
  intros H e. apply shallowEqualArrays_2_iff in H as [Hab Ha].
  assert (Hb : nan_free_args b).
  { apply nan_free_nth_arg. intros i. rewrite <- Hab.
    apply nan_free_nth_arg, Ha. }
  apply eq_true_iff_eq. rewrite !shallowEqualArrays_2_iff.
  unfold same_arguments. split; intros [H1 H2]; (split; [| assumption]);
    intros i; rewrite <- H1; [symmetry |]; apply Hab.
Qed.

Lemma same_arguments_depth (a b : list arg) :
  same_arguments a b -> options_of a = options_of b.
Proof. intros H. unfold options_of. rewrite (H 0%nat). reflexivity. Qed.

(** ** The memoized accessors of Artboard *)

Lemma getFlattenedLayers_hit w this a args e :
  artboards w !! this = Some a ->
  find_cached 2 (getFlattenedLayers_cache a) args = Some e ->
  Artboard_getFlattenedLayers this args w = (Ok (result e), w).
Proof.
  intros Ha He. unfold Artboard_getFlattenedLayers, memoizer.
  rewrite (bind_ok _ _ _ _ _
             (bind_ok _ _ _ _ _ (get_artboard_ok _ _ _ Ha))).
  unfold ret at 1. rewrite He. reflexivity.
Qed.

Lemma getFlattenedLayers_miss w this a args :
  artboards w !! this = Some a ->
  find_cached 2 (getFlattenedLayers_cache a) args = None ->
  Artboard_getFlattenedLayers this args w =
  (Ok (length (collections w)),
   {| artboards :=
        <[this := set_getFlattenedLayers_cache
                    (getFlattenedLayers_cache a ++
                       [Entry args (length (collections w))]) a]> (artboards w);
      designs := designs w;
      collections :=
        collections w ++
        [createFlattenedLayers (layerDataList_of (_octopus a)) None (Some this)
           (num_or (depth_of (options_of args)) Infinity)] |}).
Proof.
  intros Ha He. unfold Artboard_getFlattenedLayers, memoizer.
  rewrite (bind_ok _ _ _ _ _
             (bind_ok _ _ _ _ _ (get_artboard_ok _ _ _ Ha))).
  unfold ret at 1. rewrite He.
  unfold Artboard_getFlattenedLayers_fn.
  rewrite (bind_ok _ _ _ _ _
             (bind_ok _ _ _ _ _ (get_artboard_ok _ _ _ Ha))).
  unfold new_LayerCollection, modify_artboard, bind, get_artboard, deref, ret,
    put_artboard.
  cbn [artboards designs collections]. rewrite Ha.
  cbn [artboards designs collections]. rewrite Ha. reflexivity.
Qed.

Lemma getRootLayers_hit w this a args e :
  artboards w !! this = Some a ->
  find_cached 1 (getRootLayers_cache a) args = Some e ->
  Artboard_getRootLayers this args w = (Ok (result e), w).
Proof.
  intros Ha He. unfold Artboard_getRootLayers, memoizer.
  rewrite (bind_ok _ _ _ _ _
             (bind_ok _ _ _ _ _ (get_artboard_ok _ _ _ Ha))).
  unfold ret at 1. rewrite He. reflexivity.
Qed.

Lemma getRootLayers_miss w this a args :
  artboards w !! this = Some a ->
  find_cached 1 (getRootLayers_cache a) args = None ->
  Artboard_getRootLayers this args w =
  (Ok (length (collections w)),
   {| artboards :=
        <[this := set_getRootLayers_cache
                    (getRootLayers_cache a ++
                       [Entry args (length (collections w))]) a]> (artboards w);
      designs := designs w;
      collections :=
        collections w ++
        [createLayers (layerDataList_of (_octopus a)) None (Some this)] |}).
Proof.
  intros Ha He. unfold Artboard_getRootLayers, memoizer.
  rewrite (bind_ok _ _ _ _ _
             (bind_ok _ _ _ _ _ (get_artboard_ok _ _ _ Ha))).
  unfold ret at 1. rewrite He.
  unfold Artboard_getRootLayers_fn.
  rewrite (bind_ok _ _ _ _ _
             (bind_ok _ _ _ _ _ (get_artboard_ok _ _ _ Ha))).
  unfold new_LayerCollection, modify_artboard, bind, get_artboard, deref, ret,
    put_artboard.
  cbn [artboards designs collections]. rewrite Ha.
  cbn [artboards designs collections]. rewrite Ha. reflexivity.
Qed.

(** [setOctopus] stores the content, rewrites the manifest and empties both
    caches; the collections of the store are not touched. *)
Lemma setOctopus_ok w this a nextOctopus :
  artboards w !! this = Some a ->
  design_ok w a ->
  exists m,
    Artboard_setOctopus this nextOctopus w =
    (Ok tt,
     {| artboards :=
          <[this := {| _manifest := m;
                       _octopus := Some nextOctopus;
                       _design := _design a;
                       getRootLayers_cache := [];
                       getFlattenedLayers_cache := [] |}]> (artboards w);
        designs := designs w;
        collections := collections w |}) /\
    artboard_original_id m = Artboard_id a.
Proof.
  intros Ha Hd.
  set (a1 := set_octopus (Some nextOctopus) a).
  set (w1 := {| artboards := <[this := a1]> (artboards w);
                designs := designs w; collections := collections w |}).
  assert (Ha1 : artboards w1 !! this = Some a1)
    by apply (lookup_updated _ _ _ _ Ha).
  destruct (createManifest_ok w1 a1 (Some (_manifest a1)) (Some nextOctopus)
              (only_id (Artboard_id a1)) Hd) as (m & Hm & Hid & _).
  exists m. split; [| exact Hid].
  unfold Artboard_setOctopus.
  rewrite (bind_ok _ _ _ _ _ (modify_artboard_ok _ _ _ _ Ha)). fold a1 w1.
  rewrite (bind_ok _ _ _ _ _ (get_artboard_ok _ _ _ Ha1)).
  rewrite (bind_ok _ _ _ _ _ Hm).
  rewrite (bind_ok _ _ _ _ _ (modify_artboard_ok _ _ _ _ Ha1)).
  unfold memoizer_clear.
  erewrite bind_ok by (apply modify_artboard_ok; apply (lookup_updated _ _ _ _ Ha1)).
  erewrite modify_artboard_ok
    by (simpl; apply list_lookup_insert_eq; rewrite !length_insert;
        eapply lookup_lt_Some, Ha).
  simpl. rewrite !list_insert_insert_eq. reflexivity.
Qed.

Lemma find_snoc_none {A} (f : A -> bool) (l : list A) (x : A) :
  List.find f l = None ->
  List.find f (l ++ [x]) = if f x then Some x else None.
Proof.
  induction l as [| y l IH]; simpl; [reflexivity |].
  destruct (f y); [discriminate | exact IH].
Qed.

(** What a call of [getFlattenedLayers] leaves behind: the artboard keeps its
    fields, the collections of the store only grow, and the cache answers a
    repeated call without [NaN] in its arguments with the same collection. *)
Lemma getFlattenedLayers_post w this a args :
  artboards w !! this = Some a ->
  exists c w1 a1,
    Artboard_getFlattenedLayers this args w = (Ok c, w1) /\
    artboards w1 !! this = Some a1 /\
    _manifest a1 = _manifest a /\ _octopus a1 = _octopus a /\
    _design a1 = _design a /\ designs w1 = designs w /\
    (forall i x, collections w !! i = Some x -> collections w1 !! i = Some x) /\
    (nan_free_args args ->
     exists e, find_cached 2 (getFlattenedLayers_cache a1) args = Some e /\
               result e = c) /\
    (find_cached 2 (getFlattenedLayers_cache a) args = None ->
     collections w1 !! c =
     Some (createFlattenedLayers (layerDataList_of (_octopus a)) None
             (Some this) (num_or (depth_of (options_of args)) Infinity))).
Proof.
  intros Ha.
  destruct (find_cached 2 (getFlattenedLayers_cache a) args) as [e |] eqn:He.
  - exists (result e), w, a.
    rewrite (getFlattenedLayers_hit _ _ _ _ _ Ha He).
    repeat split; eauto. discriminate.
  - rewrite (getFlattenedLayers_miss _ _ _ _ Ha He).
    eexists _, _, _.
    split; [reflexivity |].
    split; [apply (lookup_updated _ _ _ _ Ha) |].
    repeat split.
    + intros i x Hi. simpl. apply lookup_app_l_Some, Hi.
    + intros Hnan. exists (Entry args (length (collections w))).
      simpl. unfold find_cached in *. rewrite (find_snoc_none _ _ _ He).
      simpl. rewrite (shallowEqualArrays_refl _ Hnan). split; reflexivity.
    + intros _. simpl. apply list_lookup_middle. reflexivity.
Qed.

Lemma getRootLayers_post w this a args :
  artboards w !! this = Some a ->
  exists c w1 a1,
    Artboard_getRootLayers this args w = (Ok c, w1) /\
    artboards w1 !! this = Some a1 /\
    _manifest a1 = _manifest a /\ _octopus a1 = _octopus a /\
    _design a1 = _design a /\ designs w1 = designs w /\
    (forall i x, collections w !! i = Some x -> collections w1 !! i = Some x) /\
    (args = [] ->
     exists e, find_cached 1 (getRootLayers_cache a1) args = Some e /\
               result e = c) /\
    (find_cached 1 (getRootLayers_cache a) args = None ->
     collections w1 !! c =
     Some (createLayers (layerDataList_of (_octopus a)) None (Some this))).
Proof.
  intros Ha.
  destruct (find_cached 1 (getRootLayers_cache a) args) as [e |] eqn:He.
  - exists (result e), w, a.
    rewrite (getRootLayers_hit _ _ _ _ _ Ha He).
    repeat split; eauto. discriminate.
  - rewrite (getRootLayers_miss _ _ _ _ Ha He).
    eexists _, _, _.
    split; [reflexivity |].
    split; [apply (lookup_updated _ _ _ _ Ha) |].
    repeat split.
    + intros i x Hi. simpl. apply lookup_app_l_Some, Hi.
    + intros ->. eexists. simpl. unfold find_cached in *.
      rewrite (find_snoc_none _ _ _ He). simpl. split; reflexivity.
    + intros _. simpl. apply list_lookup_middle. reflexivity.
Qed.

(** ** Artboard.setOctopus and the memoized layer views *)

(** C2: a collection returned by [getRootLayers()] or
    [getFlattenedLayers(options)] before [setOctopus(nextOctopus)] holds the
    same layers in the same order after it, and after a later query; the query
    made after [setOctopus] is computed from the new content, since
    [setOctopus] empties both caches. *)
Theorem C2_setOctopus_keeps_old_collections_and_refreshes_views
    (w : World) (this : ref) (a : Artboard) (args : list arg)
    (nextOctopus : OctopusDocument) :
  artboards w !! this = Some a ->
  design_ok w a ->
  (exists c w1 w2 c' w3,
     Artboard_getFlattenedLayers this args w = (Ok c, w1) /\
     Artboard_setOctopus this nextOctopus w1 = (Ok tt, w2) /\
     Artboard_getFlattenedLayers this args w2 = (Ok c', w3) /\
     (forall layers, collections w1 !! c = Some layers ->
        collections w2 !! c = Some layers /\
        collections w3 !! c = Some layers) /\
     collections w3 !! c' =
       Some (createFlattenedLayers (doc_layers nextOctopus) None (Some this)
               (num_or (depth_of (options_of args)) Infinity))) /\
  (exists c w1 w2 c' w3,
     Artboard_getRootLayers this args w = (Ok c, w1) /\
     Artboard_setOctopus this nextOctopus w1 = (Ok tt, w2) /\
     Artboard_getRootLayers this args w2 = (Ok c', w3) /\
     (forall layers, collections w1 !! c = Some layers ->
        collections w2 !! c = Some layers /\
        collections w3 !! c = Some layers) /\
     collections w3 !! c' =
       Some (createLayers (doc_layers nextOctopus) None (Some this))).
Proof.
  intros Ha Hd. split.
  - destruct (getFlattenedLayers_post w this a args Ha)
      as (c & w1 & a1 & Hget & Ha1 & _ & _ & Hd1 & Hds & _).
    assert (Hd' : design_ok w1 a1)
      by (unfold design_ok in *; rewrite Hd1, Hds; exact Hd).
    destruct (setOctopus_ok w1 this a1 nextOctopus Ha1 Hd') as (m & Hset & _).
    set (a2 := {| _manifest := m; _octopus := Some nextOctopus;
                  _design := _design a1; getRootLayers_cache := [];
                  getFlattenedLayers_cache := [] |}) in Hset.
    set (w2 := {| artboards := <[this := a2]> (artboards w1);
                  designs := designs w1;
                  collections := collections w1 |}) in Hset.
    assert (Ha2 : artboards w2 !! this = Some a2)
      by apply (lookup_updated _ _ _ _ Ha1).
    pose proof (getFlattenedLayers_miss w2 this a2 args Ha2 eq_refl) as Hget2.
    eexists c, w1, w2, _, _.
    split; [exact Hget |]. split; [exact Hset |]. split; [exact Hget2 |].
    split.
    + intros layers Hc. split; [exact Hc |].
      simpl. apply lookup_app_l_Some, Hc.
    + simpl. apply list_lookup_middle. reflexivity.
  - destruct (getRootLayers_post w this a args Ha)
      as (c & w1 & a1 & Hget & Ha1 & _ & _ & Hd1 & Hds & _).
    assert (Hd' : design_ok w1 a1)
      by (unfold design_ok in *; rewrite Hd1, Hds; exact Hd).
    destruct (setOctopus_ok w1 this a1 nextOctopus Ha1 Hd') as (m & Hset & _).
    set (a2 := {| _manifest := m; _octopus := Some nextOctopus;
                  _design := _design a1; getRootLayers_cache := [];
                  getFlattenedLayers_cache := [] |}) in Hset.
    set (w2 := {| artboards := <[this := a2]> (artboards w1);
                  designs := designs w1;
                  collections := collections w1 |}) in Hset.
    assert (Ha2 : artboards w2 !! this = Some a2)
      by apply (lookup_updated _ _ _ _ Ha1).
    pose proof (getRootLayers_miss w2 this a2 args Ha2 eq_refl) as Hget2.
    eexists c, w1, w2, _, _.
    split; [exact Hget |]. split; [exact Hset |]. split; [exact Hget2 |].
    split.
    + intros layers Hc. split; [exact Hc |].
      simpl. apply lookup_app_l_Some, Hc.
    + simpl. apply list_lookup_middle. reflexivity.
Qed.

Lemma C2_setOctopus_sample :
  exists c w1 w2 c' w3,
    Artboard_getFlattenedLayers 0%nat [] sample_world = (Ok c, w1) /\
    Artboard_setOctopus 0%nat other_octopus w1 = (Ok tt, w2) /\
    Artboard_getFlattenedLayers 0%nat [] w2 = (Ok c', w3) /\
    map Layer_id <$> collections w3 !! c = Some ["a"; "b"; "c"; "d"; "e"] /\
    map Layer_id <$> collections w3 !! c' = Some ["x"].
Proof.
  destruct (C2_setOctopus_keeps_old_collections_and_refreshes_views
              sample_world 0%nat
              {| _manifest := sample_manifest "A" (Some "p2") None;
                 _octopus := Some sample_octopus;
                 _design := Some 0%nat;
                 getRootLayers_cache := [];
                 getFlattenedLayers_cache := [] |}
              [] other_octopus)
    as [(c & w1 & w2 & c' & w3 & H1 & H2 & H3 & H4 & H5) _].
  - reflexivity.
  - simpl. eexists. reflexivity.
  - exists c, w1, w2, c', w3.
    split; [exact H1 |]. split; [exact H2 |]. split; [exact H3 |].
    split; [| rewrite H5; reflexivity].
    vm_compute in H1. injection H1 as <- <-.
    rewrite (proj2 (H4 _ eq_refl)). reflexivity.
Defined.

(** ** Artboard.unload and the memoized layer views *)

(** C10 (as stated, refuted): an option value [NaN] is strictly equal to
    nothing, itself included, so a call with [{ depth: NaN }] is never
    answered from the cache.  On the sample artboard the call made while
    loaded returns the five layers of the content; the same call repeated
    after [unload()] makes another collection, and that one is empty. *)
Lemma C10_NaN_depth_is_computed_again :
  exists c w1 w2 c' w3,
    Artboard_getFlattenedLayers 0%nat [AObject depth_NaN] sample_world
      = (Ok c, w1) /\
    map Layer_id <$> collections w1 !! c = Some ["a"; "b"; "c"; "d"; "e"] /\
    Artboard_unload 0%nat w1 = (Ok tt, w2) /\
    Artboard_isLoaded 0%nat w2 = (Ok false, w2) /\
    Artboard_getFlattenedLayers 0%nat [AObject depth_NaN] w2 = (Ok c', w3) /\
    c' <> c /\
    collections w3 !! c = collections w1 !! c /\
    collections w3 !! c' = Some [].
Proof.
  eexists _, _, _, _, _.
  split; [vm_compute; reflexivity |].
  split; [vm_compute; reflexivity |].
  split; [vm_compute; reflexivity |].
  split; [vm_compute; reflexivity |].
  split; [vm_compute; reflexivity |].
  split; [discriminate |].
  split; vm_compute; reflexivity.
Qed.

(** C10 (amended): [unload()] does not empty the caches of [getRootLayers]
    and [getFlattenedLayers].  A call whose options hold no [NaN], repeated
    while the artboard is unloaded, returns the collection of the call made
    before [unload()], which, when that call had to compute it, holds the
    layers of the content that [unload()] discarded; meanwhile [isLoaded()]
    is false and [getOctopus()] is nothing. *)
Theorem C10_unload_leaves_the_cached_views
    (w : World) (this : ref) (a : Artboard) (args : list arg) :
  artboards w !! this = Some a ->
  nan_free_args args ->
  (exists c w1 w2,
     Artboard_getFlattenedLayers this args w = (Ok c, w1) /\
     Artboard_unload this w1 = (Ok tt, w2) /\
     Artboard_isLoaded this w2 = (Ok false, w2) /\
     Artboard_getOctopus this w2 = (Ok None, w2) /\
     Artboard_getFlattenedLayers this args w2 = (Ok c, w2) /\
     collections w2 = collections w1 /\
     (find_cached 2 (getFlattenedLayers_cache a) args = None ->
      collections w2 !! c =
      Some (createFlattenedLayers (layerDataList_of (_octopus a)) None
              (Some this) (num_or (depth_of (options_of args)) Infinity)))) /\
  (exists c w1 w2,
     Artboard_getRootLayers this [] w = (Ok c, w1) /\
     Artboard_unload this w1 = (Ok tt, w2) /\
     Artboard_isLoaded this w2 = (Ok false, w2) /\
     Artboard_getOctopus this w2 = (Ok None, w2) /\
     Artboard_getRootLayers this [] w2 = (Ok c, w2) /\
     collections w2 = collections w1 /\
     (find_cached 1 (getRootLayers_cache a) [] = None ->
      collections w2 !! c =
      Some (createLayers (layerDataList_of (_octopus a)) None (Some this)))).
Proof.
  intros Ha Hnan. split.
  - destruct (getFlattenedLayers_post w this a args Ha)
      as (c & w1 & a1 & Hget & Ha1 & _ & _ & _ & _ & _ & He & Hnew).
    destruct (He Hnan) as (e & He' & Hc). clear He.
    set (w2 := {| artboards := <[this := set_octopus None a1]> (artboards w1);
                  designs := designs w1;
                  collections := collections w1 |}).
    assert (Ha2 : artboards w2 !! this = Some (set_octopus None a1))
      by apply (lookup_updated _ _ _ _ Ha1).
    exists c, w1, w2.
    split; [exact Hget |].
    split; [apply (modify_artboard_ok _ _ _ _ Ha1) |].
    unfold Artboard_isLoaded, Artboard_getOctopus.
    repeat split;
      try (erewrite bind_ok by (apply get_artboard_ok; exact Ha2); reflexivity).
    + rewrite <- Hc. apply (getFlattenedLayers_hit _ _ _ _ _ Ha2). exact He'.
    + exact Hnew.
  - destruct (getRootLayers_post w this a [] Ha)
      as (c & w1 & a1 & Hget & Ha1 & _ & _ & _ & _ & _ & He & Hnew).
    destruct (He eq_refl) as (e & He' & Hc).
    set (w2 := {| artboards := <[this := set_octopus None a1]> (artboards w1);
                  designs := designs w1;
                  collections := collections w1 |}).
    assert (Ha2 : artboards w2 !! this = Some (set_octopus None a1))
      by apply (lookup_updated _ _ _ _ Ha1).
    exists c, w1, w2.
    split; [exact Hget |].
    split; [apply (modify_artboard_ok _ _ _ _ Ha1) |].
    unfold Artboard_isLoaded, Artboard_getOctopus.
    repeat split;
      try (erewrite bind_ok by (apply get_artboard_ok; exact Ha2); reflexivity).
    + rewrite <- Hc. apply (getRootLayers_hit _ _ _ _ _ Ha2). exact He'.
    + exact Hnew.
Qed.

Lemma C10_unload_sample :
  exists c w1 w2,
    Artboard_getFlattenedLayers 0%nat [AObject depth_0] sample_world = (Ok c, w1) /\
    Artboard_unload 0%nat w1 = (Ok tt, w2) /\
    Artboard_getOctopus 0%nat w2 = (Ok None, w2) /\
    Artboard_getFlattenedLayers 0%nat [AObject depth_0] w2 = (Ok c, w2) /\
    map Layer_id <$> collections w2 !! c = Some ["a"; "b"; "c"; "d"; "e"].
Proof.
  destruct (C10_unload_leaves_the_cached_views sample_world 0%nat
              {| _manifest := sample_manifest "A" (Some "p2") None;
                 _octopus := Some sample_octopus;
                 _design := Some 0%nat;
                 getRootLayers_cache := [];
                 getFlattenedLayers_cache := [] |}
              [AObject depth_0] eq_refl)
    as [(c & w1 & w2 & H1 & H2 & _ & H4 & H5 & _ & H7) _].
  { apply (bool_decide_unpack _). vm_compute. exact I. }
  exists c, w1, w2.
  split; [exact H1 |]. split; [exact H2 |]. split; [exact H4 |].
  split; [exact H5 |].
  rewrite (H7 eq_refl). vm_compute. reflexivity.
Defined.

(** ** Artboard.getFlattenedLayers: depth and cache keys *)

(** On a coherent cache, [getFlattenedLayers(options)] returns the flattening
    of the current content to the depth asked for, keeps the cache coherent,
    and answers the same call again, without [NaN] in its arguments, with the
    same collection. *)
Lemma getFlattenedLayers_coherent w this a args :
  artboards w !! this = Some a ->
  flattened_cache_coherent w this a ->
  exists c w1 a1,
    Artboard_getFlattenedLayers this args w = (Ok c, w1) /\
    artboards w1 !! this = Some a1 /\
    _octopus a1 = _octopus a /\
    flattened_cache_coherent w1 this a1 /\
    collections w1 !! c =
      Some (createFlattenedLayers (layerDataList_of (_octopus a)) None
              (Some this) (num_or (depth_of (options_of args)) Infinity)) /\
    (nan_free_args args ->
     Artboard_getFlattenedLayers this args w1 = (Ok c, w1)).
Proof.
  intros Ha Hco.
  destruct (find_cached 2 (getFlattenedLayers_cache a) args) as [e |] eqn:He.
  - exists (result e), w, a.
    pose proof (getFlattenedLayers_hit _ _ _ _ _ Ha He) as Hget.
    repeat split; auto.
    unfold find_cached in He. apply find_some in He as [Hin Heq].
    unfold flattened_cache_coherent in Hco.
    rewrite Forall_forall in Hco.
    rewrite (Hco e (proj2 (list_elem_of_In _ _) Hin)).
    rewrite (shallowEqualArrays_depth _ _ Heq). reflexivity.
  - pose proof (getFlattenedLayers_miss _ _ _ _ Ha He) as Hget.
    set (c := length (collections w)) in *.
    set (fresh := createFlattenedLayers (layerDataList_of (_octopus a)) None
                    (Some this) (num_or (depth_of (options_of args)) Infinity))
      in *.
    set (a1 := set_getFlattenedLayers_cache
                 (getFlattenedLayers_cache a ++ [Entry args c]) a) in *.
    set (w1 := {| artboards := <[this := a1]> (artboards w);
                  designs := designs w;
                  collections := collections w ++ [fresh] |}) in *.
    assert (Ha1 : artboards w1 !! this = Some a1)
      by apply (lookup_updated _ _ _ _ Ha).
    assert (Hc : collections w1 !! c = Some fresh)
      by (apply list_lookup_middle; reflexivity).
    exists c, w1, a1.
    split; [exact Hget |]. split; [exact Ha1 |]. split; [reflexivity |].
    split; [| split; [exact Hc |]].
    + unfold flattened_cache_coherent in *. simpl.
      apply Forall_app. split.
      * eapply Forall_impl; [exact Hco |]. intros e Hx. simpl in Hx.
        apply lookup_app_l_Some, Hx.
      * apply Forall_cons. split; [exact Hc | apply Forall_nil; exact I].
    + intros Hnan.
      apply (getFlattenedLayers_hit w1 this a1 args (Entry args c) Ha1).
      simpl. unfold find_cached in *. rewrite (find_snoc_none _ _ _ He).
      simpl. rewrite (shallowEqualArrays_refl _ Hnan). reflexivity.
Qed.

(** An artboard as the constructor or [setOctopus] leaves it has a coherent
    cache. *)
Lemma flattened_cache_coherent_empty w this a :
  getFlattenedLayers_cache a = [] -> flattened_cache_coherent w this a.
Proof.
  intros E. unfold flattened_cache_coherent. rewrite E. apply Forall_nil. exact I.
Qed.

(** [setOctopus] leaves a coherent cache. *)
Lemma setOctopus_coherent w this a nextOctopus :
  artboards w !! this = Some a ->
  design_ok w a ->
  exists w' a',
    Artboard_setOctopus this nextOctopus w = (Ok tt, w') /\
    artboards w' !! this = Some a' /\
    _octopus a' = Some nextOctopus /\
    flattened_cache_coherent w' this a'.
Proof.
  intros Ha Hd.
  destruct (setOctopus_ok w this a nextOctopus Ha Hd) as (m & Hset & _).
  eexists _, _. split; [exact Hset |].
  split; [apply (lookup_updated _ _ _ _ Ha) |].
  split; [reflexivity |].
  apply flattened_cache_coherent_empty. reflexivity.
Qed.

Lemma find_app_some {A} (f : A -> bool) (l k : list A) (x : A) :
  List.find f l = Some x -> List.find f (l ++ k) = Some x.
Proof.
  induction l as [| y l IH]; simpl; [discriminate |].
  destruct (f y); [auto | exact IH].
Qed.

Lemma NoDup_map_eq {A B} (f : A -> B) (l : list A) (x y : A) :
  NoDup (map f l) -> In x l -> In y l -> f x = f y -> x = y.
Proof.
  induction l as [| z l IH]; simpl; intros Hnd Hx Hy E; [destruct Hx |].
  apply NoDup_cons in Hnd as [Hz Hnd].
  destruct Hx as [-> | Hx], Hy as [-> | Hy]; try reflexivity.
  - exfalso. apply Hz. rewrite E. apply list_elem_of_In, in_map, Hy.
  - exfalso. apply Hz. rewrite <- E. apply list_elem_of_In, in_map, Hx.
  - apply IH; assumption.
Qed.

(** One call of [getFlattenedLayers] on a cache that is coherent and whose
    entries hold different collections: the two properties are kept, the
    collection returned holds the flattening asked for and is the result of
    an entry [e] of the cache for the same arguments; a call answered from
    the cache changes nothing, and a call that is not returns a collection
    that did not exist before and pushes its entry at the end. *)
Lemma getFlattenedLayers_inv w this a args :
  artboards w !! this = Some a ->
  flattened_cache_coherent w this a ->
  flattened_cache_distinct a ->
  exists c w1 a1 e suffix,
    Artboard_getFlattenedLayers this args w = (Ok c, w1) /\
    artboards w1 !! this = Some a1 /\
    _octopus a1 = _octopus a /\
    flattened_cache_coherent w1 this a1 /\
    flattened_cache_distinct a1 /\
    (forall i x, collections w !! i = Some x -> collections w1 !! i = Some x) /\
    collections w1 !! c =
      Some (createFlattenedLayers (layerDataList_of (_octopus a)) None
              (Some this) (num_or (depth_of (options_of args)) Infinity)) /\
    getFlattenedLayers_cache a1 = getFlattenedLayers_cache a ++ suffix /\
    In e (getFlattenedLayers_cache a1) /\ result e = c /\
    same_arguments args (MemoizeUtils.args e) /\
    (nan_free_args args ->
     find_cached 2 (getFlattenedLayers_cache a1) args = Some e) /\
    (forall e', find_cached 2 (getFlattenedLayers_cache a) args = Some e' ->
                e = e' /\ w1 = w) /\
    (find_cached 2 (getFlattenedLayers_cache a) args = None ->
     c = length (collections w)).
Proof.
  intros Ha Hco Hnd.
  destruct (find_cached 2 (getFlattenedLayers_cache a) args) as [e |] eqn:He.
  - exists (result e), w, a, e, [].
    pose proof (getFlattenedLayers_hit _ _ _ _ _ Ha He) as Hget.
    unfold find_cached in He. pose proof (find_some _ _ He) as [Hin Heq].
    split; [exact Hget |]. split; [exact Ha |]. split; [reflexivity |].
    split; [exact Hco |]. split; [exact Hnd |]. split; [auto |].
    split.
    { unfold flattened_cache_coherent in Hco. rewrite Forall_forall in Hco.
      rewrite (Hco e (proj2 (list_elem_of_In _ _) Hin)).
      rewrite (shallowEqualArrays_depth _ _ Heq). reflexivity. }
    split; [rewrite app_nil_r; reflexivity |].
    split; [exact Hin |]. split; [reflexivity |].
    split; [apply shallowEqualArrays_2_iff, Heq |].
    split; [intros _; exact He |].
    split; [| discriminate].
    intros e' E. injection E as <-. split; reflexivity.
  - pose proof (getFlattenedLayers_miss _ _ _ _ Ha He) as Hget.
    set (c := length (collections w)) in *.
    set (fresh := createFlattenedLayers (layerDataList_of (_octopus a)) None
                    (Some this) (num_or (depth_of (options_of args)) Infinity))
      in *.
    set (a1 := set_getFlattenedLayers_cache
                 (getFlattenedLayers_cache a ++ [Entry args c]) a) in *.
    set (w1 := {| artboards := <[this := a1]> (artboards w);
                  designs := designs w;
                  collections := collections w ++ [fresh] |}) in *.
    assert (Ha1 : artboards w1 !! this = Some a1)
      by apply (lookup_updated _ _ _ _ Ha).
    assert (Hc : collections w1 !! c = Some fresh)
      by (apply list_lookup_middle; reflexivity).
    exists c, w1, a1, (Entry args c), [Entry args c].
    split; [exact Hget |]. split; [exact Ha1 |]. split; [reflexivity |].
    split.
    { unfold flattened_cache_coherent in *. simpl.
      apply Forall_app. split.
      - eapply Forall_impl; [exact Hco |]. intros e Hx. simpl in Hx.
        apply lookup_app_l_Some, Hx.
      - apply Forall_cons. split; [exact Hc | apply Forall_nil; exact I]. }
    split.
    { unfold flattened_cache_distinct in *. simpl. rewrite map_app. simpl.
      apply NoDup_app. split; [exact Hnd |]. split.
      - intros x Hx Hxc. apply list_elem_of_In in Hx, Hxc.
        destruct Hxc as [<- | []]. apply in_map_iff in Hx as (e & He' & Hin).
        unfold flattened_cache_coherent in Hco. rewrite Forall_forall in Hco.
        pose proof (Hco e (proj2 (list_elem_of_In _ _) Hin)) as Hlook.
        apply lookup_lt_Some in Hlook. rewrite He' in Hlook. unfold c in Hlook.
        lia.
      - apply NoDup_singleton. }
    split; [intros i x Hi; simpl; apply lookup_app_l_Some, Hi |].
    split; [exact Hc |]. split; [reflexivity |].
    split; [simpl; apply in_or_app; right; left; reflexivity |].
    split; [reflexivity |].
    split; [intros i; reflexivity |].
    split.
    { intros Hnan. simpl. unfold find_cached in *.
      rewrite (find_snoc_none _ _ _ He). simpl.
      rewrite (shallowEqualArrays_refl _ Hnan). reflexivity. }
    split; [discriminate | reflexivity].
Qed.

(** Two calls of [getFlattenedLayers] in a row return the same collection
    object exactly when the second argument list is the same cache key as
    the first. *)
Lemma getFlattenedLayers_twice w this a args1 args2 :
  artboards w !! this = Some a ->
  flattened_cache_coherent w this a ->
  flattened_cache_distinct a ->
  exists c1 w1 a1 c2 w2 a2,
    Artboard_getFlattenedLayers this args1 w = (Ok c1, w1) /\
    artboards w1 !! this = Some a1 /\
    _octopus a1 = _octopus a /\
    flattened_cache_coherent w1 this a1 /\
    flattened_cache_distinct a1 /\
    Artboard_getFlattenedLayers this args2 w1 = (Ok c2, w2) /\
    artboards w2 !! this = Some a2 /\
    _octopus a2 = _octopus a /\
    flattened_cache_coherent w2 this a2 /\
    flattened_cache_distinct a2 /\
    collections w2 !! c1 =
      Some (createFlattenedLayers (layerDataList_of (_octopus a)) None
              (Some this) (num_or (depth_of (options_of args1)) Infinity)) /\
    collections w2 !! c2 =
      Some (createFlattenedLayers (layerDataList_of (_octopus a)) None
              (Some this) (num_or (depth_of (options_of args2)) Infinity)) /\
    (c1 = c2 <-> shallowEqualArrays args2 args1 2 = true) /\
    (nan_free_args args1 ->
     Artboard_getFlattenedLayers this args1 w2 = (Ok c1, w2)) /\
    (nan_free_args args2 ->
     Artboard_getFlattenedLayers this args2 w2 = (Ok c2, w2)).
Proof.
  intros Ha Hco Hnd.
  destruct (getFlattenedLayers_inv w this a args1 Ha Hco Hnd)
    as (c1 & w1 & a1 & e1 & s1 & Hget1 & Ha1 & Ho1 & Hco1 & Hnd1 & _ & Hc1 &
        _ & Hin1 & Hr1 & Hsame1 & Hfind1 & _ & _).
  destruct (getFlattenedLayers_inv w1 this a1 args2 Ha1 Hco1 Hnd1)
    as (c2 & w2 & a2 & e2 & s2 & Hget2 & Ha2 & Ho2 & Hco2 & Hnd2 & Hgrow &
        Hc2 & Hcache & Hin2 & Hr2 & Hsame2 & Hfind2 & Hhit & Hmiss).
  rewrite Ho1 in Hc2.
  assert (Hkey : shallowEqualArrays args2 args1 2 = true ->
                 find_cached 2 (getFlattenedLayers_cache a1) args2 = Some e1).
  { intros Heq. pose proof (shallowEqualArrays_2_find _ _ Heq) as Hext.
    apply shallowEqualArrays_2_iff in Heq as [Hsame Hnan2].
    assert (Hnan1 : nan_free_args args1).
    { apply nan_free_nth_arg. intros i. rewrite <- Hsame.
      apply nan_free_nth_arg, Hnan2. }
    rewrite <- (Hfind1 Hnan1). unfold find_cached.
    clear -Hext. induction (getFlattenedLayers_cache a1) as [| x l IH];
      simpl; [reflexivity |].
    rewrite Hext, IH. reflexivity. }
  exists c1, w1, a1, c2, w2, a2.
  split; [exact Hget1 |]. split; [exact Ha1 |]. split; [exact Ho1 |].
  split; [exact Hco1 |]. split; [exact Hnd1 |]. split; [exact Hget2 |].
  split; [exact Ha2 |]. split; [congruence |]. split; [exact Hco2 |].
  split; [exact Hnd2 |]. split; [apply Hgrow, Hc1 |]. split; [exact Hc2 |].
  split; [| split].
  - split.
    + intros Hcc.
      destruct (find_cached 2 (getFlattenedLayers_cache a1) args2)
        as [e |] eqn:He.
      * destruct (Hhit e eq_refl) as [-> _].
        unfold find_cached in He. apply find_some in He as [Hin Heq].
        assert (e1 = e) as <-.
        { apply (NoDup_map_eq result (getFlattenedLayers_cache a1));
            [exact Hnd1 | exact Hin1 | exact Hin | congruence]. }
        apply shallowEqualArrays_2_iff in Heq as [Hs2 Hn2].
        apply shallowEqualArrays_2_iff. split; [| exact Hn2].
        intros i. rewrite Hs2, Hsame1. reflexivity.
      * specialize (Hmiss eq_refl). apply lookup_lt_Some in Hc1. lia.
    + intros Heq. destruct (Hhit e1 (Hkey Heq)) as [-> _]. congruence.
  - intros Hnan. rewrite <- Hr1.
    apply (getFlattenedLayers_hit _ _ _ _ _ Ha2). rewrite Hcache.
    unfold find_cached. apply find_app_some, (Hfind1 Hnan).
  - intros Hnan. rewrite <- Hr2.
    apply (getFlattenedLayers_hit _ _ _ _ _ Ha2), (Hfind2 Hnan).
Qed.

(** C4 (as stated, refuted): on the sample artboard, [getFlattenedLayers()],
    [getFlattenedLayers({ depth: 0 })] and
    [getFlattenedLayers({ depth: Infinity })] are three different cache keys;
    called in turn, each is computed anew and returns a collection object of
    its own, and the cache ends up with three entries. *)
Lemma C4_three_spellings_are_three_cache_keys :
  shallowEqualArrays [AObject depth_0] [] 2 = false /\
  shallowEqualArrays [AObject depth_Infinity] [] 2 = false /\
  shallowEqualArrays [AObject depth_Infinity] [AObject depth_0] 2 = false /\
  exists c1 w1 c2 w2 c3 w3 a3,
    Artboard_getFlattenedLayers 0%nat [] sample_world = (Ok c1, w1) /\
    Artboard_getFlattenedLayers 0%nat [AObject depth_0] w1 = (Ok c2, w2) /\
    Artboard_getFlattenedLayers 0%nat [AObject depth_Infinity] w2 = (Ok c3, w3) /\
    c1 <> c2 /\ c2 <> c3 /\ c1 <> c3 /\
    artboards w3 !! 0%nat = Some a3 /\
    length (getFlattenedLayers_cache a3) = 3%nat.
Proof.
  split; [vm_compute; reflexivity |].
  split; [vm_compute; reflexivity |].
  split; [vm_compute; reflexivity |].
  eexists _, _, _, _, _, _, _.
  split; [vm_compute; reflexivity |].
  split; [vm_compute; reflexivity |].
  split; [vm_compute; reflexivity |].
  split; [discriminate |]. split; [discriminate |]. split; [discriminate |].
  split; [vm_compute; reflexivity |].
  reflexivity.
Qed.

Lemma unlimited_spelling (args : list arg) :
  In args [[]; [AObject depth_0]; [AObject depth_Infinity]] ->
  nan_free_args args /\
  num_or (depth_of (options_of args)) Infinity = Infinity.
Proof.
  intros [<- | [<- | [<- | []]]];
    (split; [apply (bool_decide_unpack _); vm_compute; exact I
            | vm_compute; reflexivity]).
Qed.

Lemma unlimited_spellings_keys (args args' : list arg) :
  In args [[]; [AObject depth_0]; [AObject depth_Infinity]] ->
  In args' [[]; [AObject depth_0]; [AObject depth_Infinity]] ->
  args <> args' -> shallowEqualArrays args args' 2 = false.
Proof.
  intros Hin Hin' Hne.
  destruct Hin as [<- | [<- | [<- | []]]];
    destruct Hin' as [<- | [<- | [<- | []]]];
    try (vm_compute; reflexivity); destruct (Hne eq_refl).
Qed.

(** C4 (amended): on an artboard whose cache is as the constructor,
    [setOctopus] and [getFlattenedLayers] itself leave it (coherent with the
    content, each entry with a collection of its own), [getFlattenedLayers()],
    [getFlattenedLayers({ depth: 0 })] and
    [getFlattenedLayers({ depth: Infinity })], called in any order, return
    three different collection objects, each holding the flattening of the
    content to unlimited depth, so the same layers in the same order.  The
    three spellings are three different cache keys; a repeated call with any
    of them returns the collection of its own spelling again, and the cache
    stays as described. *)
Theorem C4_three_spellings_return_the_unlimited_flattening
    (w : World) (this : ref) (a : Artboard) (args1 args2 args3 : list arg) :
  artboards w !! this = Some a ->
  flattened_cache_coherent w this a ->
  flattened_cache_distinct a ->
  Permutation [args1; args2; args3]
    [[]; [AObject depth_0]; [AObject depth_Infinity]] ->
  exists c1 w1 c2 w2 c3 w3 a3,
    Artboard_getFlattenedLayers this args1 w = (Ok c1, w1) /\
    Artboard_getFlattenedLayers this args2 w1 = (Ok c2, w2) /\
    Artboard_getFlattenedLayers this args3 w2 = (Ok c3, w3) /\
    (forall c, In c [c1; c2; c3] ->
       collections w3 !! c =
       Some (createFlattenedLayers (layerDataList_of (_octopus a)) None
               (Some this) Infinity)) /\
    c1 <> c2 /\ c1 <> c3 /\ c2 <> c3 /\
    shallowEqualArrays args2 args1 2 = false /\
    shallowEqualArrays args3 args1 2 = false /\
    shallowEqualArrays args3 args2 2 = false /\
    Artboard_getFlattenedLayers this args1 w3 = (Ok c1, w3) /\
    Artboard_getFlattenedLayers this args2 w3 = (Ok c2, w3) /\
    Artboard_getFlattenedLayers this args3 w3 = (Ok c3, w3) /\
    artboards w3 !! this = Some a3 /\
    _octopus a3 = _octopus a /\
    flattened_cache_coherent w3 this a3 /\
    flattened_cache_distinct a3.
Proof.
  intros Ha Hco Hnd Hperm.
  assert (Hin : forall args, In args [args1; args2; args3] ->
                  In args [[]; [AObject depth_0]; [AObject depth_Infinity]]).
  { intros args. apply Permutation_in, Hperm. }
  assert (Hdiff : NoDup [args1; args2; args3]).
  { rewrite Hperm.
    apply NoDup_cons. split; [rewrite list_elem_of_In; simpl; intuition discriminate |].
    apply NoDup_cons. split; [| apply NoDup_singleton].
    rewrite list_elem_of_In. intros [E | []].
    apply (f_equal (fun args => depth_of (options_of args))) in E.
    vm_compute in E. discriminate E. }
  apply NoDup_cons in Hdiff as [H1 Hdiff].
  apply NoDup_cons in Hdiff as [H2 _].
  rewrite list_elem_of_In in H1, H2.
  assert (H12 : args2 <> args1) by (intros E; apply H1; left; exact E).
  assert (H13 : args3 <> args1)
    by (intros E; apply H1; right; left; exact E).
  assert (H23 : args3 <> args2) by (intros E; apply H2; left; exact E).
  pose proof (Hin args1 (or_introl eq_refl)) as Hs1.
  pose proof (Hin args2 (or_intror (or_introl eq_refl))) as Hs2.
  pose proof (Hin args3 (or_intror (or_intror (or_introl eq_refl)))) as Hs3.
  destruct (unlimited_spelling _ Hs1) as [Hn1 Hd1].
  destruct (unlimited_spelling _ Hs2) as [Hn2 Hd2].
  destruct (unlimited_spelling _ Hs3) as [Hn3 Hd3].
  pose proof (unlimited_spellings_keys _ _ Hs2 Hs1 H12) as Hk21.
  pose proof (unlimited_spellings_keys _ _ Hs3 Hs1 H13) as Hk31.
  pose proof (unlimited_spellings_keys _ _ Hs3 Hs2 H23) as Hk32.
  destruct (getFlattenedLayers_twice w this a args1 args2 Ha Hco Hnd)
    as (c1 & w1 & a1 & c2 & w2 & a2 & Hget1 & Ha1 & Ho1 & Hco1 & Hnd1 &
        Hget2 & Ha2 & Ho2 & Hco2 & Hnd2 & _ & _ & Hiff12 & Hst1 & Hst2).
  specialize (Hst1 Hn1). specialize (Hst2 Hn2).
  destruct (getFlattenedLayers_twice w2 this a2 args2 args3 Ha2 Hco2 Hnd2)
    as (c2' & w2' & a2' & c3 & w3 & a3 & Hget2' & Ha2' & _ & _ & _ &
        Hget3 & Ha3 & Ho3 & Hco3 & Hnd3 & Hc2 & Hc3 & Hiff23 & Hst2' & Hst3).
  rewrite Hst2 in Hget2'. injection Hget2' as <- <-.
  destruct (getFlattenedLayers_twice w2 this a2 args1 args3 Ha2 Hco2 Hnd2)
    as (c1' & w2' & a2'' & c3' & w3' & a3' & Hget1' & _ & _ & _ & _ &
        Hget3' & _ & _ & _ & _ & Hc1 & _ & Hiff13 & Hst1' & _).
  rewrite Hst1 in Hget1'. injection Hget1' as <- <-.
  rewrite Hget3 in Hget3'. injection Hget3' as <- <-.
  rewrite Ho2 in Hc1, Hc2, Hc3.
  rewrite Hd1 in Hc1. rewrite Hd2 in Hc2. rewrite Hd3 in Hc3.
  exists c1, w1, c2, w2, c3, w3, a3.
  split; [exact Hget1 |]. split; [exact Hget2 |]. split; [exact Hget3 |].
  split.
  { intros c [<- | [<- | [<- | []]]]; assumption. }
  split; [intros E; apply Hiff12 in E; congruence |].
  split; [intros E; apply Hiff13 in E; congruence |].
  split; [intros E; apply Hiff23 in E; congruence |].
  split; [exact Hk21 |]. split; [exact Hk31 |]. split; [exact Hk32 |].
  split; [apply Hst1', Hn1 |]. split; [apply Hst2', Hn2 |].
  split; [apply Hst3, Hn3 |]. split; [exact Ha3 |].
  split; [congruence |]. split; assumption.
Qed.

Lemma C4_three_spellings_sample :
  exists c1 w1 c2 w2 c3 w3,
    Artboard_getFlattenedLayers 0%nat [AObject depth_0] sample_world
      = (Ok c1, w1) /\
    Artboard_getFlattenedLayers 0%nat [] w1 = (Ok c2, w2) /\
    Artboard_getFlattenedLayers 0%nat [AObject depth_Infinity] w2
      = (Ok c3, w3) /\
    c1 <> c2 /\ c1 <> c3 /\ c2 <> c3 /\
    map Layer_id <$> collections w3 !! c1 = Some ["a"; "b"; "c"; "d"; "e"] /\
    collections w3 !! c2 = collections w3 !! c1 /\
    collections w3 !! c3 = collections w3 !! c1.
Proof.
  destruct (C4_three_spellings_return_the_unlimited_flattening sample_world
              0%nat
              {| _manifest := sample_manifest "A" (Some "p2") None;
                 _octopus := Some sample_octopus;
                 _design := Some 0%nat;
                 getRootLayers_cache := [];
                 getFlattenedLayers_cache := [] |}
              [AObject depth_0] [] [AObject depth_Infinity])
    as (c1 & w1 & c2 & w2 & c3 & w3 & a3 & H1 & H2 & H3 & Hc & Hn12 & Hn13 &
        Hn23 & _).
  - reflexivity.
  - apply flattened_cache_coherent_empty. reflexivity.
  - apply NoDup_nil. exact I.
  - apply perm_swap.
  - exists c1, w1, c2, w2, c3, w3.
    split; [exact H1 |]. split; [exact H2 |]. split; [exact H3 |].
    split; [exact Hn12 |]. split; [exact Hn13 |]. split; [exact Hn23 |].
    rewrite (Hc c1), (Hc c2), (Hc c3) by (simpl; auto).
    split; [vm_compute; reflexivity |]. split; reflexivity.
Defined.

(** ** Layer.getNestedLayers *)

(** Induction on layer content, with the property known of every directly
    nested layer. *)
Lemma LayerOctopusData_tree_ind (P : LayerOctopusData -> Prop) :
  (forall d, Forall P (o_layers d) -> P d) -> forall d, P d.
Proof.
  intros H. fix IH 1. intros [i n t ls s doc]. apply H. simpl.
  induction ls as [| x ls IHls]; constructor; [apply IH | exact IHls].
Qed.

Lemma nestedLayers_eq artboard optionsDepth layerData :
  nestedLayers artboard optionsDepth layerData =
  let depth := num_or optionsDepth (Num 1) in
  if number_strict_eq depth (Num 1)
  then createLayers (o_layers layerData) (Some (o_id layerData)) artboard
  else flat_map
         (fun nested =>
            new_Layer nested (Some (o_id layerData)) artboard ::
            nestedLayers artboard (Some (num_or (Some (dec depth)) Infinity)) nested)
         (o_layers layerData).
Proof. destruct layerData; reflexivity. Qed.

Lemma depth_of_singleton (n : number) :
  depth_of {[ "depth" := PNumber n ]} = Some n.
Proof. unfold depth_of, get. rewrite lookup_singleton_eq. reflexivity. Qed.

Lemma flat_map_createLayers {B} (f : Layer -> list B) ls parentLayerId artboard :
  flat_map f (createLayers ls parentLayerId artboard) =
  flat_map (fun d => f (new_Layer d parentLayerId artboard)) ls.
Proof.
  unfold createLayers. induction ls as [| d ls IH]; simpl; [reflexivity |].
  rewrite IH. reflexivity.
Qed.

(** [getNestedLayers] as the source states it: the directly nested layers at
    depth [1], and otherwise their flattening to one level less. *)
Lemma Layer_getNestedLayers_unfold (this : Layer) (options : object) :
  Layer_getNestedLayers this options =
  let depth := num_or (depth_of options) (Num 1) in
  let nestedLayers := Layer__getDirectlyNestedLayers this in
  if number_strict_eq depth (Num 1)
  then nestedLayers
  else LayerCollection_flatten nestedLayers {[ "depth" := PNumber (dec depth) ]}.
Proof.
  unfold Layer_getNestedLayers. rewrite nestedLayers_eq. cbv zeta.
  destruct (number_strict_eq _ _); [reflexivity |].
  unfold LayerCollection_flatten, Layer__getDirectlyNestedLayers, Layer_id.
  cbv zeta. rewrite flat_map_createLayers.
  apply flat_map_ext. intros d. unfold Layer_getNestedLayers.
  rewrite !depth_of_singleton. reflexivity.
Qed.

Lemma nestedLayers_complete artboard inner outer :
  nested_in inner outer ->
  exists nested,
    In nested (nestedLayers artboard (Some Infinity) outer) /\
    octopus nested = inner.
Proof.
  induction 1 as [outer Hin | mid outer Hin _ (nested & Hn & Ho)].
  - exists (new_Layer inner (Some (o_id outer)) artboard).
    split; [| reflexivity].
    rewrite nestedLayers_eq. simpl. apply in_flat_map.
    exists inner. split; [exact Hin | left; reflexivity].
  - exists nested. split; [| exact Ho].
    rewrite nestedLayers_eq. simpl. apply in_flat_map.
    exists mid. split; [exact Hin | right; exact Hn].
Qed.

Lemma nestedLayers_sound artboard outer :
  forall optionsDepth nested,
    In nested (nestedLayers artboard optionsDepth outer) ->
    nested_in (octopus nested) outer.
Proof.
  induction outer as [outer IH] using LayerOctopusData_tree_ind.
  intros optionsDepth nested. rewrite nestedLayers_eq. cbv zeta.
  rewrite Forall_forall in IH.
  destruct (number_strict_eq _ _).
  - unfold createLayers. rewrite in_map_iff. intros (d & <- & Hd).
    apply nested_direct. exact Hd.
  - rewrite in_flat_map. intros (d & Hd & [<- | Hn]).
    + apply nested_direct. exact Hd.
    + apply (nested_deeper _ d); [exact Hd |].
      apply (IH d (proj2 (list_elem_of_In _ _) Hd) _ _ Hn).
Qed.

(** C3 (as stated, refuted): for the sample layer ["a"], whose nested group
    ["b"] holds the layer ["c"], [getNestedLayers()] and
    [getNestedLayers({ depth: 0 })] return the layers ["b"] and ["d"] only,
    while [getNestedLayers({ depth: Infinity })] returns ["c"] as well. *)
Lemma C3_unset_depth_is_not_unlimited :
  map Layer_id (Layer_getNestedLayers (new_Layer sample_tree None None) ∅)
    = ["b"; "d"] /\
  map Layer_id (Layer_getNestedLayers (new_Layer sample_tree None None) depth_0)
    = ["b"; "d"] /\
  map Layer_id
    (Layer_getNestedLayers (new_Layer sample_tree None None) depth_Infinity)
    = ["b"; "c"; "d"] /\
  Layer_getNestedLayers (new_Layer sample_tree None None) ∅ <>
  Layer_getNestedLayers (new_Layer sample_tree None None) depth_Infinity.
Proof.
  repeat split; try (vm_compute; reflexivity).
  vm_compute. discriminate.
Qed.

(** C3 (amended): [getNestedLayers()] and [getNestedLayers({ depth: 0 })]
    return the directly nested layers only, the same as [depth: 1];
    [getNestedLayers({ depth: Infinity })] returns the nested layers of every
    level, and nothing else. *)
Theorem C3_getNestedLayers_default_depth_is_one (l : Layer) :
  Layer_getNestedLayers l ∅ = Layer__getDirectlyNestedLayers l /\
  Layer_getNestedLayers l depth_0 = Layer__getDirectlyNestedLayers l /\
  Layer_getNestedLayers l {[ "depth" := PNumber (Num 1) ]} =
    Layer__getDirectlyNestedLayers l /\
  (forall inner,
     nested_in inner (octopus l) <->
     exists nested,
       In nested (Layer_getNestedLayers l depth_Infinity) /\
       octopus nested = inner).
Proof.
  split; [| split; [| split]].
  - rewrite Layer_getNestedLayers_unfold. reflexivity.
  - rewrite Layer_getNestedLayers_unfold. reflexivity.
  - rewrite Layer_getNestedLayers_unfold. reflexivity.
  - intros inner. unfold Layer_getNestedLayers, depth_Infinity.
    rewrite depth_of_singleton. split.
    + apply nestedLayers_complete.
    + intros (nested & Hin & <-). eapply nestedLayers_sound, Hin.
Qed.

(** ** Layer.getBitmapAssets *)

Lemma in_list_union (l k : list LayerId) (x : LayerId) :
  In x (list_union l k) <-> In x l \/ In x k.
Proof. rewrite <- !list_elem_of_In. apply list_elem_of_union. Qed.

Lemma merge_descriptor_names desc kept n :
  In n (map ad_name (merge_descriptor desc kept)) ->
  n = ad_name desc \/ In n (map ad_name kept).
Proof.
  induction kept as [| k kept IH]; simpl.
  - intros [<- | []]. left. reflexivity.
  - destruct (String.eqb (ad_name k) (ad_name desc)); simpl.
    + intros H. right. exact H.
    + intros [<- | H]; [right; left; reflexivity |].
      destruct (IH H) as [-> | H']; [left | right; right]; auto.
Qed.

Lemma merge_descriptor_NoDup desc kept :
  NoDup (map ad_name kept) -> NoDup (map ad_name (merge_descriptor desc kept)).
Proof.
  induction kept as [| k kept IH]; simpl; intros Hnd.
  - apply NoDup_cons. split; [apply not_elem_of_nil | apply NoDup_nil; exact I].
  - apply NoDup_cons in Hnd as [Hk Hnd].
    destruct (String.eqb (ad_name k) (ad_name desc)) eqn:E; simpl.
    + apply NoDup_cons. split; assumption.
    + apply NoDup_cons. split; [| apply IH, Hnd].
      rewrite list_elem_of_In. intros Hin.
      apply merge_descriptor_names in Hin as [Heq | Hin].
      * apply String.eqb_neq in E. congruence.
      * apply Hk. apply list_elem_of_In. exact Hin.
Qed.

Lemma merge_descriptor_covers_new desc kept : covers (merge_descriptor desc kept) desc.
Proof.
  induction kept as [| k kept (agg & Hin & Hn & Hi)]; simpl.
  - exists desc. split; [left; reflexivity |]. split; [reflexivity |].
    apply incl_refl.
  - destruct (String.eqb (ad_name k) (ad_name desc)) eqn:E.
    + eexists. split; [left; reflexivity |]. simpl.
      split; [apply String.eqb_eq, E |].
      intros i Hi'. apply in_list_union. right. exact Hi'.
    + exists agg. split; [right; exact Hin |]. split; assumption.
Qed.

Lemma merge_descriptor_covers_old desc kept x :
  covers kept x -> covers (merge_descriptor desc kept) x.
Proof.
  intros (agg & Hin & Hn & Hi).
  induction kept as [| k kept IH]; simpl; [destruct Hin |].
  destruct (String.eqb (ad_name k) (ad_name desc)) eqn:E.
  - destruct Hin as [-> | Hin].
    + eexists. split; [left; reflexivity |]. simpl. split; [exact Hn |].
      intros i Hi'. apply in_list_union. left. apply Hi, Hi'.
    + exists agg. split; [right; exact Hin |]. split; assumption.
  - destruct Hin as [-> | Hin].
    + exists agg. split; [left; reflexivity |]. split; assumption.
    + destruct (IH Hin) as (agg' & Hin' & Hn' & Hi').
      exists agg'. split; [right; exact Hin' |]. split; assumption.
Qed.

Lemma fold_merge_NoDup descs kept :
  NoDup (map ad_name kept) ->
  NoDup (map ad_name
           (fold_left (fun kept desc => merge_descriptor desc kept) descs kept)).
Proof.
  revert kept. induction descs as [| d descs IH]; simpl; intros kept H.
  - exact H.
  - apply IH, merge_descriptor_NoDup, H.
Qed.

Lemma fold_merge_covers descs kept x :
  In x descs \/ covers kept x ->
  covers (fold_left (fun kept desc => merge_descriptor desc kept) descs kept) x.
Proof.
  revert kept. induction descs as [| d descs IH]; simpl; intros kept H.
  - destruct H as [[] | H]. exact H.
  - apply IH. destruct H as [[-> | H] | H].
    + right. apply merge_descriptor_covers_new.
    + left. exact H.
    + right. apply merge_descriptor_covers_old, H.
Qed.

(** The kept descriptors have pairwise different asset names. *)
Lemma keepUnique_NoDup descs :
  NoDup (map ad_name (keepUniqueBitmapAssetDescriptors descs)).
Proof. apply fold_merge_NoDup. apply NoDup_nil. exact I. Qed.

(** Every given descriptor is covered by a kept one. *)
Lemma keepUnique_covers descs x :
  In x descs -> covers (keepUniqueBitmapAssetDescriptors descs) x.
Proof. intros H. apply fold_merge_covers. left. exact H. Qed.

Lemma merge_descriptor_sound desc kept name id :
  lists_bitmap (merge_descriptor desc kept) name id ->
  lists_bitmap [desc] name id \/ lists_bitmap kept name id.
Proof.
  unfold lists_bitmap. induction kept as [| k kept IH]; simpl.
  - intros (agg & [<- | []] & Hn & Hi). left. exists desc. simpl. auto.
  - destruct (String.eqb (ad_name k) (ad_name desc)) eqn:E.
    + apply String.eqb_eq in E.
      intros (agg & [<- | Hin] & Hn & Hi); simpl in *.
      * apply in_list_union in Hi as [Hi | Hi].
        -- right. exists k. auto.
        -- left. exists desc. split; [left; reflexivity |]. split; congruence.
      * right. exists agg. auto.
    + intros (agg & [<- | Hin] & Hn & Hi).
      * right. exists k. auto.
      * destruct IH as [H | (agg' & Hin' & Hn' & Hi')]; [eauto | left; exact H |].
        right. exists agg'. auto.
Qed.

Lemma fold_merge_sound descs kept name id :
  lists_bitmap
    (fold_left (fun kept desc => merge_descriptor desc kept) descs kept)
    name id ->
  lists_bitmap descs name id \/ lists_bitmap kept name id.
Proof.
  revert kept. induction descs as [| d descs IH]; simpl; intros kept H.
  - right. exact H.
  - destruct (IH _ H) as [(agg & Hin & Hn) | H'].
    + left. exists agg. split; [right; exact Hin | exact Hn].
    + destruct (merge_descriptor_sound _ _ _ _ H')
        as [(agg & [<- | []] & Hn) | H''].
      * left. exists d. split; [left; reflexivity | exact Hn].
      * right. exact H''.
Qed.

(** [keepUniqueBitmapAssetDescriptors] lists a layer id under an asset
    exactly when one of the given descriptors does. *)
Lemma keepUnique_lists descs name id :
  lists_bitmap (keepUniqueBitmapAssetDescriptors descs) name id <->
  lists_bitmap descs name id.
Proof.
  split.
  - intros H. destruct (fold_merge_sound _ _ _ _ H) as [H' | (agg & [] & _)].
    exact H'.
  - intros (x & Hin & Hn & Hi).
    destruct (keepUnique_covers descs x Hin) as (agg & Hagg & Hname & Hids).
    exists agg. split; [exact Hagg |]. split; [congruence | apply Hids, Hi].
Qed.

Lemma lists_bitmap_app l k name id :
  lists_bitmap (l ++ k) name id <->
  lists_bitmap l name id \/ lists_bitmap k name id.
Proof.
  unfold lists_bitmap. split.
  - intros (agg & Hin & H). apply in_app_or in Hin as [Hin | Hin];
      [left | right]; exists agg; auto.
  - intros [(agg & Hin & H) | (agg & Hin & H)]; exists agg;
      (split; [apply in_or_app; auto | exact H]).
Qed.

Lemma lists_bitmap_flat_map {A} (f : A -> list AggregatedBitmapAssetDescriptor)
    (l : list A) name id :
  lists_bitmap (flat_map f l) name id <->
  exists x, In x l /\ lists_bitmap (f x) name id.
Proof.
  unfold lists_bitmap. split.
  - intros (agg & Hin & H). apply in_flat_map in Hin as (x & Hx & Hin).
    exists x. split; [exact Hx |]. exists agg. auto.
  - intros (x & Hx & agg & Hin & H). exists agg.
    split; [apply in_flat_map; exists x; auto | exact H].
Qed.

Lemma within_depth_O (options : object) : within_depth options 0 = true.
Proof.
  unfold within_depth. destruct (get options "depth") as [| [z | |] |];
    try reflexivity.
  apply orb_true_iff. destruct (Z.ltb_spec z 1); [left; reflexivity |].
  right. apply Z.ltb_lt. simpl. lia.
Qed.

(** One level further down is within the depth exactly when the depth is
    not [1] and the level is within the depth that [getBitmapAssets] passes
    to the nested layers. *)
Lemma within_depth_S (options : object) (k : nat) :
  let depth := num_or (depth_of options) Infinity in
  within_depth options (S k) =
  negb (number_strict_eq depth (Num 1)) &&
  within_depth (<[ "depth" := PNumber (dec depth) ]> options) k.
Proof.
  cbv zeta.
  assert (E' : forall n,
            within_depth (<[ "depth" := PNumber n ]> options) k =
            match n with
            | Num z => (z <? 1) || (Z.of_nat k <? z)
            | _ => true
            end).
  { intros n. unfold within_depth, get. rewrite lookup_insert_eq.
    reflexivity. }
  rewrite E'. unfold within_depth, depth_of.
  destruct (get options "depth") as [| [z | |] |]; try reflexivity.
  destruct (Z.eq_dec z 0) as [-> | Hz]; [reflexivity |].
  assert (E : num_or (Some (Num z)) Infinity = Num z)
    by (destruct z; [congruence | reflexivity | reflexivity]).
  rewrite E. cbn [dec]. unfold number_strict_eq.
  apply eq_true_iff_eq.
  rewrite andb_true_iff, negb_true_iff, bool_decide_eq_false, !orb_true_iff,
    !Z.ltb_lt.
  split.
  - intros H. split; [intros [= ->]; lia | lia].
  - intros [H1 H2]. assert (z <> 1) by congruence. lia.
Qed.

Section LayerBitmapAssetsProperties.

Variable getLayerBitmapAssets : Layer -> bool -> list BitmapAssetDescriptor.

Lemma bitmapAssets_eq artboard options parentLayerId layerData :
  bitmapAssets getLayerBitmapAssets artboard options parentLayerId layerData =
  let this :=
    {| octopus := layerData; _artboard := artboard;
       _parentLayerId := parentLayerId |} in
  let depth := num_or (depth_of options) Infinity in
  keepUniqueBitmapAssetDescriptors
    (map aggregate_one
       (getLayerBitmapAssets this (includePrerendered_of options)) ++
     (if number_strict_eq depth (Num 1) then []
      else flat_map
             (fun nested =>
                bitmapAssets getLayerBitmapAssets artboard
                  (<[ "depth" := PNumber (dec depth) ]> options)
                  (str_or_null (Some (o_id layerData))) nested)
             (o_layers layerData))).
Proof. destruct layerData; reflexivity. Qed.

Lemma depth_of_insert (options : object) (n : number) :
  depth_of (<[ "depth" := PNumber n ]> options) = Some n.
Proof. unfold depth_of, get. rewrite lookup_insert_eq. reflexivity. Qed.

Lemma includePrerendered_of_insert (options : object) (n : number) :
  includePrerendered_of (<[ "depth" := PNumber n ]> options) =
  includePrerendered_of options.
Proof.
  unfold includePrerendered_of, get.
  rewrite lookup_insert_ne by discriminate. reflexivity.
Qed.

(** [getBitmapAssets] as the source states it. *)
Lemma Layer_getBitmapAssets_unfold (this : Layer) (options : object) :
  Layer_getBitmapAssets getLayerBitmapAssets this options =
  let layerBitmapAssetDescs :=
    map aggregate_one
      (Layer__createBitmapAssetDescriptors getLayerBitmapAssets this
         (includePrerendered_of options)) in
  let depth := num_or (depth_of options) Infinity in
  let nestedLayerBitmapAssetDescs :=
    if number_strict_eq depth (Num 1) then []
    else flat_map
           (fun nestedLayer =>
              Layer_getBitmapAssets getLayerBitmapAssets nestedLayer
                (<[ "depth" := PNumber (dec depth) ]> options))
           (Layer_getNestedLayers this {[ "depth" := PNumber (Num 1) ]}) in
  keepUniqueBitmapAssetDescriptors
    (layerBitmapAssetDescs ++ nestedLayerBitmapAssetDescs).
Proof.
  unfold Layer_getBitmapAssets. rewrite bitmapAssets_eq. cbv zeta.
  unfold Layer__createBitmapAssetDescriptors.
  destruct this as [d art par]. simpl. f_equal. f_equal.
  destruct (number_strict_eq _ _); [reflexivity |].
  unfold Layer_getNestedLayers. simpl octopus. simpl _artboard.
  rewrite nestedLayers_eq, depth_of_singleton. simpl.
  rewrite flat_map_createLayers. reflexivity.
Qed.

Lemma lists_bitmap_own (this : Layer) (options : object) name id :
  lists_bitmap
    (map aggregate_one
       (getLayerBitmapAssets this (includePrerendered_of options))) name id <->
  uses_bitmap getLayerBitmapAssets options this name id.
Proof.
  unfold lists_bitmap, uses_bitmap. split.
  - intros (agg & Hin & Hn & Hi). apply in_map_iff in Hin as (desc & <- & Hin).
    simpl in Hn, Hi. destruct Hi as [<- | []]. exists desc. auto.
  - intros (desc & Hin & Hn & Hi). exists (aggregate_one desc).
    split; [apply in_map, Hin |]. simpl. auto.
Qed.

Lemma reaches_inv (this : Layer) (k : nat) (layer : Layer) :
  reaches this k layer <->
  match k with
  | O => layer = this
  | S k' =>
      exists nested,
        In nested (o_layers (octopus this)) /\
        reaches (new_Layer nested (Some (Layer_id this)) (_artboard this))
          k' layer
  end.
Proof.
  split.
  - intros H. destruct H as [this | this child k layer Hc Hr]; [reflexivity |].
    unfold Layer__getDirectlyNestedLayers, createLayers in Hc.
    apply in_map_iff in Hc as (nested & <- & Hin). exists nested. auto.
  - destruct k as [| k'].
    + intros ->. apply reaches_self.
    + intros (nested & Hin & Hr). eapply reaches_nested; [| exact Hr].
      unfold Layer__getDirectlyNestedLayers, createLayers.
      apply in_map_iff. exists nested. split; [reflexivity | exact Hin].
Qed.

(** The descriptors [getBitmapAssets] returns list a layer id under an asset
    exactly when a layer in scope uses the asset under that id. *)
Lemma bitmapAssets_exact artboard layerData :
  forall options parentLayerId name id,
    let this :=
      {| octopus := layerData; _artboard := artboard;
         _parentLayerId := parentLayerId |} in
    lists_bitmap
      (bitmapAssets getLayerBitmapAssets artboard options parentLayerId
         layerData) name id <->
    exists layer,
      bitmap_scope this options layer /\
      uses_bitmap getLayerBitmapAssets options layer name id.
Proof.
  induction layerData as [layerData IH] using LayerOctopusData_tree_ind.
  intros options parentLayerId name id this.
  rewrite Forall_forall in IH.
  rewrite bitmapAssets_eq. cbv zeta. fold this.
  set (depth := num_or (depth_of options) Infinity).
  set (options' := <[ "depth" := PNumber (dec depth) ]> options).
  rewrite keepUnique_lists, lists_bitmap_app, lists_bitmap_own.
  assert (Hnested :
    lists_bitmap
      (if number_strict_eq depth (Num 1) then []
       else flat_map
              (fun nested =>
                 bitmapAssets getLayerBitmapAssets artboard options'
                   (str_or_null (Some (o_id layerData))) nested)
              (o_layers layerData)) name id <->
    exists k layer,
      reaches this (S k) layer /\ within_depth options (S k) = true /\
      uses_bitmap getLayerBitmapAssets options layer name id).
  { transitivity
      (number_strict_eq depth (Num 1) = false /\
       exists nested,
         In nested (o_layers layerData) /\
         exists layer,
           bitmap_scope (new_Layer nested (Some (o_id layerData)) artboard)
             options' layer /\
           uses_bitmap getLayerBitmapAssets options' layer name id).
    - destruct (number_strict_eq depth (Num 1)).
      + split; [intros (agg & [] & _) | intros [H _]; discriminate H].
      + rewrite lists_bitmap_flat_map. split.
        * intros (nested & Hin & H). split; [reflexivity |].
          exists nested. split; [exact Hin |].
          apply (IH nested (proj2 (list_elem_of_In _ _) Hin)), H.
        * intros (_ & nested & Hin & H). exists nested. split; [exact Hin |].
          apply (IH nested (proj2 (list_elem_of_In _ _) Hin)), H.
    - split.
      + intros (Hd & nested & Hin & layer & (k & Hr & Hw) & Hu).
        exists k, layer. split; [| split].
        * apply reaches_inv. exists nested. split; [exact Hin | exact Hr].
        * pose proof (within_depth_S options k) as E. cbv zeta in E.
          fold depth in E. fold options' in E. rewrite E, Hd, Hw. reflexivity.
        * unfold uses_bitmap in *. unfold options' in Hu.
          rewrite includePrerendered_of_insert in Hu. exact Hu.
      + intros (k & layer & Hr & Hw & Hu).
        apply reaches_inv in Hr as (nested & Hin & Hr).
        pose proof (within_depth_S options k) as E. cbv zeta in E.
        fold depth in E. fold options' in E. rewrite E in Hw.
        apply andb_prop in Hw as [Hd Hw]. apply negb_true_iff in Hd.
        split; [exact Hd |]. exists nested. split; [exact Hin |].
        exists layer. split; [exists k; split; [exact Hr | exact Hw] |].
        unfold uses_bitmap in *. unfold options'.
        rewrite includePrerendered_of_insert. exact Hu. }
  rewrite Hnested. split.
  - intros [Hu | (k & layer & Hr & Hw & Hu)].
    + exists this. split; [| exact Hu].
      exists 0%nat. split; [apply reaches_self | apply within_depth_O].
    + exists layer. split; [| exact Hu]. exists (S k). auto.
  - intros (layer & (k & Hr & Hw) & Hu). destruct k as [| k].
    + apply reaches_inv in Hr. subst layer. left. exact Hu.
    + right. exists k, layer. auto.
Qed.

End LayerBitmapAssetsProperties.

(** C9: [getBitmapAssets(options)] merges the bitmap assets of the layer
    itself with those of its nested layers down to the depth asked for: a
    depth [n >= 1] takes the layer and [n - 1] levels below it, and an unset
    depth (or [0], [Infinity]) every level.  The descriptors returned name
    pairwise different assets; a layer id is listed under an asset exactly
    when a layer in scope uses the asset under that id, so no layer beyond
    the depth contributes; and two layers in scope that use the same asset
    share the one descriptor of that asset, which lists both ids. *)
Theorem C9_getBitmapAssets_merges_by_asset
    (getLayerBitmapAssets : Layer -> bool -> list BitmapAssetDescriptor)
    (this : Layer) (options : object) :
  let result := Layer_getBitmapAssets getLayerBitmapAssets this options in
  NoDup (map ad_name result) /\
  (forall name id,
     lists_bitmap result name id <->
     exists layer,
       bitmap_scope this options layer /\
       uses_bitmap getLayerBitmapAssets options layer name id) /\
  (forall layer1 layer2 name id1 id2,
     bitmap_scope this options layer1 ->
     bitmap_scope this options layer2 ->
     uses_bitmap getLayerBitmapAssets options layer1 name id1 ->
     uses_bitmap getLayerBitmapAssets options layer2 name id2 ->
     exists agg,
       In agg result /\ ad_name agg = name /\
       In id1 (ad_layerIds agg) /\ In id2 (ad_layerIds agg) /\
       (forall agg', In agg' result -> ad_name agg' = name -> agg' = agg)).
Proof.
  intros result.
  assert (Hnd : NoDup (map ad_name result)).
  { unfold result, Layer_getBitmapAssets. rewrite bitmapAssets_eq.
    apply keepUnique_NoDup. }
  assert (Hexact : forall name id,
     lists_bitmap result name id <->
     exists layer,
       bitmap_scope this options layer /\
       uses_bitmap getLayerBitmapAssets options layer name id).
  { intros name id. unfold result, Layer_getBitmapAssets.
    rewrite bitmapAssets_exact. destruct this. reflexivity. }
  split; [exact Hnd |]. split; [exact Hexact |].
  intros layer1 layer2 name id1 id2 Hs1 Hs2 Hu1 Hu2.
  destruct (proj2 (Hexact name id1)) as (agg1 & Hin1 & Hn1 & Hi1); [eauto |].
  destruct (proj2 (Hexact name id2)) as (agg2 & Hin2 & Hn2 & Hi2); [eauto |].
  assert (Huniq : forall x y, In x result -> In y result ->
                              ad_name x = ad_name y -> x = y).
  { intros x y Hx Hy E. apply (NoDup_map_eq ad_name result); assumption. }
  assert (agg2 = agg1) as -> by (apply Huniq; congruence).
  exists agg1. repeat split; try assumption.
  intros agg' Hin' Hn'. apply Huniq; congruence.
Qed.

(** ** Layer.getDepth and Artboard.getLayerDepth *)

Lemma Layer_getDepth_S fuel this :
  Layer_getDepth (S fuel) this =
  match str_or_null (_parentLayerId this) with
  | None => ret 1
  | Some parentLayerId =>
      match _artboard this with
      | None => throw "Cannot determine detached layer depth"
      | Some artboard =>
          let* parentLayerDepth :=
            Artboard_getLayerDepth fuel artboard parentLayerId in
          match parentLayerDepth with
          | None => throw "Cannot determine parent layer depth"
          | Some d => ret (1 + d)
          end
      end
  end.
Proof. reflexivity. Qed.

Lemma Artboard_getLayerDepth_S fuel this layerId :
  Artboard_getLayerDepth (S fuel) this layerId =
  let* layer := Artboard_getLayerById this layerId in
  match layer with
  | Some l => let* d := Layer_getDepth fuel l in ret (Some d)
  | None => ret None
  end.
Proof. reflexivity. Qed.

Lemma str_or_null_truthy (s : string) :
  s <> EmptyString -> str_or_null (Some s) = Some s.
Proof.
  intros H. unfold str_or_null, string_truthy.
  apply String.eqb_neq in H. rewrite H. reflexivity.
Qed.

Lemma createFlattenedLayer_eq artboard parentLayerId d :
  createFlattenedLayer artboard Infinity parentLayerId d =
  new_Layer d parentLayerId artboard ::
  flat_map (createFlattenedLayer artboard Infinity (Some (o_id d))) (o_layers d).
Proof. destruct d; reflexivity. Qed.

Lemma ids_of_eq d : ids_of d = o_id d :: flat_map ids_of (o_layers d).
Proof. destruct d; reflexivity. Qed.

Lemma flattened_layer_ids artboard d :
  forall parentLayerId,
    map Layer_id (createFlattenedLayer artboard Infinity parentLayerId d) =
    ids_of d.
Proof.
  induction d as [d IH] using LayerOctopusData_tree_ind. intros parentLayerId.
  rewrite createFlattenedLayer_eq, ids_of_eq. simpl. f_equal.
  induction IH as [| x ls Hx _ IHls]; simpl; [reflexivity |].
  rewrite map_app, Hx, IHls. reflexivity.
Qed.

(** The ids of the flattened layers are the ids of the content, in document
    order. *)
Lemma flattened_forest_ids roots parentLayerId artboard :
  map Layer_id (createFlattenedLayers roots parentLayerId artboard Infinity) =
  layer_ids roots.
Proof.
  unfold createFlattenedLayers, layer_ids.
  induction roots as [| d roots IH]; simpl; [reflexivity |].
  rewrite map_app, flattened_layer_ids, IH. reflexivity.
Qed.

Lemma flattened_root roots parentLayerId artboard d :
  In d roots ->
  In (new_Layer d parentLayerId artboard)
     (createFlattenedLayers roots parentLayerId artboard Infinity).
Proof.
  intros H. unfold createFlattenedLayers. apply in_flat_map.
  exists d. split; [exact H |]. rewrite createFlattenedLayer_eq. left.
  reflexivity.
Qed.

Lemma flattened_nested_tree artboard parent pp d :
  In d (o_layers parent) ->
  forall t parentLayerId,
    In (new_Layer parent pp artboard)
       (createFlattenedLayer artboard Infinity parentLayerId t) ->
    In (new_Layer d (Some (o_id parent)) artboard)
       (createFlattenedLayer artboard Infinity parentLayerId t).
Proof.
  intros Hd. induction t as [t IH] using LayerOctopusData_tree_ind.
  intros parentLayerId. rewrite createFlattenedLayer_eq.
  rewrite Forall_forall in IH. intros [Heq | Hin].
  - injection Heq as -> _. right. apply in_flat_map.
    exists d. split; [exact Hd |]. rewrite createFlattenedLayer_eq. left.
    reflexivity.
  - right. apply in_flat_map in Hin as (x & Hx & Hin).
    apply in_flat_map. exists x. split; [exact Hx |].
    apply (IH x (proj2 (list_elem_of_In _ _) Hx)), Hin.
Qed.

(** A layer at some nesting level of the content is among the flattened
    layers; its parent layer id is unset at level 1 and the id of the layer
    that holds it otherwise. *)
Lemma at_depth_flattened roots artboard k d :
  at_depth roots k d ->
  exists pp,
    In (new_Layer d pp artboard)
       (createFlattenedLayers roots None artboard Infinity) /\
    1 <= k /\
    (k = 1 -> pp = None) /\
    (1 < k -> exists parent,
       at_depth roots (k - 1) parent /\ In d (o_layers parent) /\
       pp = Some (o_id parent)).
Proof.
  induction 1 as [d Hd | k parent d Hp (pp & Hin & Hk & _) Hd].
  - exists None. split; [apply flattened_root, Hd |].
    split; [lia |]. split; [reflexivity | lia].
  - exists (Some (o_id parent)). split.
    + unfold createFlattenedLayers in *. apply in_flat_map in Hin.
      destruct Hin as (t & Ht & Hin). apply in_flat_map. exists t.
      split; [exact Ht |]. eapply flattened_nested_tree; eassumption.
    + split; [lia |]. split; [lia |]. intros _. exists parent.
      replace (k + 1 - 1) with k by lia. auto.
Qed.

Lemma at_depth_id roots k d :
  at_depth roots k d -> In (o_id d) (layer_ids roots).
Proof.
  intros H. destruct (at_depth_flattened roots None k d H) as (pp & Hin & _).
  rewrite <- (flattened_forest_ids roots None None).
  apply (in_map Layer_id) in Hin. exact Hin.
Qed.

Lemma getLayerById_unique (layers : LayerCollection) (l : Layer) :
  NoDup (map Layer_id layers) -> In l layers ->
  LayerCollection_getLayerById layers (Layer_id l) = Some l.
Proof.
  unfold LayerCollection_getLayerById.
  induction layers as [| x layers IH]; simpl; intros Hnd Hin; [destruct Hin |].
  apply NoDup_cons in Hnd as [Hx Hnd].
  destruct Hin as [-> | Hin].
  - rewrite String.eqb_refl. reflexivity.
  - destruct (String.eqb (Layer_id x) (Layer_id l)) eqn:E.
    + apply String.eqb_eq in E. exfalso. apply Hx. rewrite E.
      apply list_elem_of_In, in_map, Hin.
    + apply IH; assumption.
Qed.

Lemma getLayerById_absent (layers : LayerCollection) (layerId : LayerId) :
  ~ In layerId (map Layer_id layers) ->
  LayerCollection_getLayerById layers layerId = None.
Proof.
  unfold LayerCollection_getLayerById. intros H.
  destruct (List.find _ _) as [l |] eqn:E; [| reflexivity].
  apply find_some in E as [Hin Heq]. apply String.eqb_eq in Heq.
  destruct H. rewrite <- Heq. apply in_map, Hin.
Qed.

Section StableWorld.

(** A store in which [getFlattenedLayers()] of the artboard [this] is
    answered from the cache, with the flattening of well-formed [roots]. *)
Variables (w1 : World) (this c : ref) (roots : list LayerOctopusData).

Hypothesis Hstable : Artboard_getFlattenedLayers this [] w1 = (Ok c, w1).
Hypothesis Hc :
  collections w1 !! c =
  Some (createFlattenedLayers roots None (Some this) Infinity).
Hypothesis Hwf : well_formed_ids roots.

Lemma getLayerById_stable layerId :
  Artboard_getLayerById this layerId w1 =
  (Ok (LayerCollection_getLayerById
         (createFlattenedLayers roots None (Some this) Infinity) layerId), w1).
Proof.
  unfold Artboard_getLayerById. rewrite (bind_ok _ _ _ _ _ Hstable).
  rewrite (bind_ok _ _ _ _ _ (get_collection_ok _ _ _ Hc)). reflexivity.
Qed.

Lemma getLayerById_flattened l :
  In l (createFlattenedLayers roots None (Some this) Infinity) ->
  Artboard_getLayerById this (Layer_id l) w1 = (Ok (Some l), w1).
Proof.
  intros Hin. rewrite getLayerById_stable, getLayerById_unique;
    [reflexivity | | exact Hin].
  rewrite flattened_forest_ids. apply Hwf.
Qed.

Lemma getDepth_stable k d :
  at_depth roots k d ->
  forall pp fuel,
    In (new_Layer d pp (Some this))
       (createFlattenedLayers roots None (Some this) Infinity) ->
    (Z.to_nat (2 * k - 1) <= fuel)%nat ->
    Layer_getDepth fuel (new_Layer d pp (Some this)) w1 = (Ok k, w1).
Proof.
  induction 1 as [d Hd | k parent d Hp IH Hd]; intros pp fuel Hin Hfuel.
  - destruct fuel as [| fuel]; [simpl in Hfuel; lia |].
    assert (Hpp : str_or_null pp = None).
    { pose proof (getLayerById_flattened _ Hin) as H1.
      pose proof (getLayerById_flattened _
                    (flattened_root roots None (Some this) d Hd)) as H2.
      change (Layer_id (new_Layer d None (Some this)))
        with (Layer_id (new_Layer d pp (Some this))) in H2.
      rewrite H1 in H2. injection H2 as H2. exact H2. }
    rewrite Layer_getDepth_S. unfold new_Layer. cbn [_parentLayerId].
    rewrite Hpp. reflexivity.
  - destruct (at_depth_flattened roots (Some this) k parent Hp)
      as (ppp & Hpin & Hk & _).
    pose proof (flattened_nested_tree (Some this) parent ppp d Hd) as Hnest.
    assert (Hin' : In (new_Layer d (Some (o_id parent)) (Some this))
                      (createFlattenedLayers roots None (Some this) Infinity)).
    { unfold createFlattenedLayers in *. apply in_flat_map in Hpin.
      destruct Hpin as (t & Ht & Hpin). apply in_flat_map. exists t.
      split; [exact Ht |]. apply Hnest, Hpin. }
    assert (Hsame : new_Layer d pp (Some this) =
                    new_Layer d (Some (o_id parent)) (Some this)).
    { pose proof (getLayerById_flattened _ Hin) as H1.
      pose proof (getLayerById_flattened _ Hin') as H2.
      change (Layer_id (new_Layer d (Some (o_id parent)) (Some this)))
        with (Layer_id (new_Layer d pp (Some this))) in H2.
      rewrite H1 in H2. congruence. }
    rewrite Hsame.
    assert (Hne : o_id parent <> EmptyString).
    { destruct Hwf as [_ Hne]. rewrite Forall_forall in Hne.
      apply Hne, list_elem_of_In, (at_depth_id roots k), Hp. }
    destruct fuel as [| fuel]; [lia |].
    destruct fuel as [| fuel]; [lia |].
    rewrite Layer_getDepth_S. unfold new_Layer. cbn [_parentLayerId _artboard].
    rewrite !(str_or_null_truthy _ Hne). cbv match.
    rewrite Artboard_getLayerDepth_S.
    pose proof (getLayerById_flattened _ Hpin) as Hfind.
    change (Layer_id (new_Layer parent ppp (Some this)))
      with (o_id parent) in Hfind.
    rewrite bind_assoc, (bind_ok _ _ _ _ _ Hfind).
    rewrite bind_assoc, (bind_ok _ _ _ _ _ (IH ppp fuel Hpin ltac:(lia))).
    unfold ret. rewrite Z.add_comm. reflexivity.
Qed.

Lemma getLayerDepth_stable k d fuel :
  at_depth roots k d ->
  (Z.to_nat (2 * k) <= fuel)%nat ->
  Artboard_getLayerDepth fuel this (o_id d) w1 = (Ok (Some k), w1).
Proof.
  intros Hd Hfuel.
  destruct (at_depth_flattened roots (Some this) k d Hd) as (pp & Hin & Hk & _).
  destruct fuel as [| fuel]; [lia |].
  rewrite Artboard_getLayerDepth_S.
  pose proof (getLayerById_flattened _ Hin) as Hfind.
  change (Layer_id (new_Layer d pp (Some this))) with (o_id d) in Hfind.
  rewrite (bind_ok _ _ _ _ _ Hfind).
  rewrite (bind_ok _ _ _ _ _ (getDepth_stable k d Hd pp fuel Hin ltac:(lia))).
  reflexivity.
Qed.

Lemma getLayerDepth_absent layerId fuel :
  ~ In layerId (layer_ids roots) ->
  Artboard_getLayerDepth (S fuel) this layerId w1 = (Ok None, w1).
Proof.
  intros H. rewrite Artboard_getLayerDepth_S.
  rewrite (bind_ok _ _ _ _ _ (getLayerById_stable _)).
  rewrite getLayerById_absent; [reflexivity |].
  rewrite flattened_forest_ids. exact H.
Qed.

End StableWorld.

(** The first [getLayerById] on a coherent cache leaves a store in which
    [getFlattenedLayers()] is answered from the cache. *)
Lemma getLayerById_coherent w this a layerId :
  artboards w !! this = Some a ->
  flattened_cache_coherent w this a ->
  exists c w1,
    Artboard_getLayerById this layerId w =
    (Ok (LayerCollection_getLayerById
           (createFlattenedLayers (layerDataList_of (_octopus a)) None
              (Some this) Infinity) layerId), w1) /\
    Artboard_getFlattenedLayers this [] w1 = (Ok c, w1) /\
    collections w1 !! c =
      Some (createFlattenedLayers (layerDataList_of (_octopus a)) None
              (Some this) Infinity).
Proof.
  intros Ha Hco.
  destruct (getFlattenedLayers_coherent w this a [] Ha Hco)
    as (c & w1 & a1 & Hget & _ & _ & _ & Hc & Hagain).
  change (num_or (depth_of (options_of [])) Infinity) with Infinity in Hc.
  specialize (Hagain (Forall_nil_2 _)).
  exists c, w1. split; [| split; assumption].
  unfold Artboard_getLayerById. rewrite (bind_ok _ _ _ _ _ Hget).
  rewrite (bind_ok _ _ _ _ _ (get_collection_ok _ _ _ Hc)). reflexivity.
Qed.




(** In the sample layer ["a"], the layers ["c"] and ["d"] use the same
    bitmap: one descriptor lists both.  At depth 2 the layer ["c"], two
    levels below ["a"], is out of scope, and at depth 1 only ["a"] itself is
    looked at, which uses no bitmap. *)
Lemma C9_getBitmapAssets_sample :
  Layer_getBitmapAssets sample_getLayerBitmapAssets
    (new_Layer sample_tree None None) ∅ =
  [ {| ad_name := "img.png"; ad_prerendered := false;
       ad_layerIds := ["c"; "d"] |} ] /\
  Layer_getBitmapAssets sample_getLayerBitmapAssets
    (new_Layer sample_tree None None) {[ "depth" := PNumber (Num 2) ]} =
  [ {| ad_name := "img.png"; ad_prerendered := false;
       ad_layerIds := ["d"] |} ] /\
  Layer_getBitmapAssets sample_getLayerBitmapAssets
    (new_Layer sample_tree None None) {[ "depth" := PNumber (Num 1) ]} = [] /\
  NoDup (map ad_name
           (Layer_getBitmapAssets sample_getLayerBitmapAssets
              (new_Layer sample_tree None None) ∅)) /\
  (lists_bitmap
     (Layer_getBitmapAssets sample_getLayerBitmapAssets
        (new_Layer sample_tree None None) ∅) "img.png" "c" <->
   exists layer,
     bitmap_scope (new_Layer sample_tree None None) ∅ layer /\
     uses_bitmap sample_getLayerBitmapAssets ∅ layer "img.png" "c").
Proof.
  split; [vm_compute; reflexivity |].
  split; [vm_compute; reflexivity |].
  split; [vm_compute; reflexivity |].
  destruct (C9_getBitmapAssets_merges_by_asset sample_getLayerBitmapAssets
              (new_Layer sample_tree None None) ∅) as (Hnd & Hexact & _).
  split; [exact Hnd | apply Hexact].
Defined.

(** * Further properties *)

(** ** memoize-utils: what counts as the same cache key *)

(** [shallowEqualObjects], at any depth, holds exactly of two option objects
    with the same keys and strictly equal values: equal objects that hold no
    [NaN], which is strictly equal to nothing. *)
Theorem shallowEqualObjects_iff_same_object (a b : object) (depth : Z) :
  shallowEqualObjects a b depth = true <-> a = b /\ nan_free a.
Proof. rewrite shallowEqualObjects_depth. apply shallowEqualObjects_1_iff. Qed.

(** At depth 2, the depth of the caches of [getFlattenedLayers] and
    [getNestedLayers], two argument lists are the same cache key exactly when
    they agree position by position: both [undefined] (or missing), or option
    objects with the same keys and strictly equal values, so without [NaN].
    So [f()] and [f(undefined)] share an entry, [f()] and [f({})] do not, and
    [f({ depth: NaN })] matches no entry, its own included. *)
Theorem shallowEqualArrays_iff_same_arguments (a b : list arg) :
  shallowEqualArrays a b 2 = true <-> same_arguments a b /\ nan_free_args a.
Proof. apply shallowEqualArrays_2_iff. Qed.

Lemma shallowEqualArrays_undefined_sample :
  shallowEqualArrays [] [AUndefined] 2 = true /\
  shallowEqualArrays [] [AObject ∅] 2 = false /\
  shallowEqualArrays [AObject depth_NaN] [AObject depth_NaN] 2 = false.
Proof. repeat split; vm_compute; reflexivity. Qed.

(** ** memoize: entries are kept side by side *)

(** [getFlattenedLayers] keeps one cache entry per cache key, side by side.
    On a cache as the constructor, [setOctopus] and [getFlattenedLayers]
    leave it (coherent with the content, each entry with a collection of its
    own), after a call with [args1] and then one with [args2]: each
    collection returned holds the flattening to the depth that its own
    arguments ask for; the two calls return the same collection object
    exactly when [args2] is the same cache key as [args1]; and a repeated
    call with either argument list, when it holds no [NaN], returns the
    collection object of its first call and changes nothing in the store. *)
Theorem getFlattenedLayers_caches_side_by_side
    (w : World) (this : ref) (a : Artboard) (args1 args2 : list arg) :
  artboards w !! this = Some a ->
  flattened_cache_coherent w this a ->
  flattened_cache_distinct a ->
  exists c1 w1 c2 w2,
    Artboard_getFlattenedLayers this args1 w = (Ok c1, w1) /\
    Artboard_getFlattenedLayers this args2 w1 = (Ok c2, w2) /\
    collections w2 !! c1 =
      Some (createFlattenedLayers (layerDataList_of (_octopus a)) None
              (Some this) (num_or (depth_of (options_of args1)) Infinity)) /\
    collections w2 !! c2 =
      Some (createFlattenedLayers (layerDataList_of (_octopus a)) None
              (Some this) (num_or (depth_of (options_of args2)) Infinity)) /\
    (c1 = c2 <-> shallowEqualArrays args2 args1 2 = true) /\
    (nan_free_args args1 ->
     Artboard_getFlattenedLayers this args1 w2 = (Ok c1, w2)) /\
    (nan_free_args args2 ->
     Artboard_getFlattenedLayers this args2 w2 = (Ok c2, w2)).
Proof.
  intros Ha Hco Hnd.
  destruct (getFlattenedLayers_twice w this a args1 args2 Ha Hco Hnd)
    as (c1 & w1 & a1 & c2 & w2 & a2 & Hget1 & _ & _ & _ & _ & Hget2 & _ & _ &
        _ & _ & Hc1 & Hc2 & Hiff & Hst1 & Hst2).
  exists c1, w1, c2, w2. repeat split; try assumption; apply Hiff.
Qed.

Lemma getFlattenedLayers_caches_side_by_side_sample :
  exists c1 w1 c2 w2,
    Artboard_getFlattenedLayers 0%nat [] sample_world = (Ok c1, w1) /\
    Artboard_getFlattenedLayers 0%nat
      [AObject {[ "depth" := PNumber (Num 1) ]}] w1 = (Ok c2, w2) /\
    c1 <> c2 /\
    map Layer_id <$> collections w2 !! c1 = Some ["a"; "b"; "c"; "d"; "e"] /\
    map Layer_id <$> collections w2 !! c2 = Some ["a"; "e"] /\
    Artboard_getFlattenedLayers 0%nat [] w2 = (Ok c1, w2) /\
    Artboard_getFlattenedLayers 0%nat
      [AObject {[ "depth" := PNumber (Num 1) ]}] w2 = (Ok c2, w2).
Proof.
  destruct (getFlattenedLayers_caches_side_by_side sample_world 0%nat
              {| _manifest := sample_manifest "A" (Some "p2") None;
                 _octopus := Some sample_octopus;
                 _design := Some 0%nat;
                 getRootLayers_cache := [];
                 getFlattenedLayers_cache := [] |}
              [] [AObject {[ "depth" := PNumber (Num 1) ]}])
    as (c1 & w1 & c2 & w2 & H1 & H2 & Hc1 & Hc2 & Hiff & Hst1 & Hst2).
  - reflexivity.
  - apply flattened_cache_coherent_empty. reflexivity.
  - apply NoDup_nil. exact I.
  - exists c1, w1, c2, w2.
    split; [exact H1 |]. split; [exact H2 |].
    split; [intros E; apply Hiff in E; vm_compute in E; discriminate E |].
    split; [rewrite Hc1; vm_compute; reflexivity |].
    split; [rewrite Hc2; vm_compute; reflexivity |].
    split; [apply Hst1 | apply Hst2];
      apply (bool_decide_unpack _); vm_compute; exact I.
Defined.

(** ** Artboard: the manifest written by _createManifest *)

Lemma str_or_none (x : option string) : str_or x None = str_or_null x.
Proof. unfold str_or. destruct (str_or_null x); reflexivity. Qed.

(** The fields of the manifest that [_createManifest] returns. *)
Lemma createManifest_fields w a prev o params m w' :
  Artboard__createManifest a prev o params w = (Ok m, w') ->
  let pageId :=
    str_or_null
      match p_pageId params with
      | Absent => prev ≫= page_original_id
      | Null => None
      | Val v => Some v
      end in
  let componentId :=
    match p_componentId params with
    | Absent => str_or (o ≫= doc_symbolID) (prev ≫= symbol_id)
    | Null => None
    | Val v => Some v
    end in
  let name :=
    match p_name params with
    | Absent => prev ≫= artboard_name
    | Null => None
    | Val v => Some v
    end in
  w' = w /\
  artboard_original_id m = p_id params /\
  artboard_name m = str_or_null name /\
  symbol_id m = str_or_null componentId /\
  is_symbol m = bool_decide (is_Some (str_or_null componentId)) /\
  failed m = from_option failed false prev /\
  url m = prev ≫= url /\
  preview_url m = prev ≫= preview_url /\
  page_original_id m =
    match pageId with
    | Some pid => Some pid
    | None => prev ≫= page_original_id
    end /\
  page_name m =
    match pageId with
    | Some pid =>
        str_or_null
          (str_or
             (match _design a with
              | Some dr =>
                  designs w !! dr ≫= (fun d => Design_getPageById d pid)
              | None => None
              end ≫= page__name)
             (if bool_decide (Some pid = (prev ≫= page_original_id))
              then prev ≫= page_name
              else None))
    | None => prev ≫= page_name
    end.
Proof.
  unfold Artboard__createManifest, bind, get_design, deref, ret.
  destruct (_design a) as [dr |]; [destruct (str_or_null _) as [pid |] |].
  - destruct (designs w !! dr); intros H; [| discriminate H].
    injection H as <- <-. repeat split. apply str_or_none.
  - intros H. injection H as <- <-. repeat split.
  - intros H. injection H as <- <-. repeat split. cbn [page_name].
    case_match; [apply str_or_none | reflexivity].
Qed.

Lemma str_or_null_some (s : option string) (x : string) :
  str_or_null s = Some x -> str_or_null (Some x) = Some x.
Proof. intros H. rewrite <- H. apply str_or_null_idem. Qed.

Lemma str_or_null_str_or (a b : option string) :
  str_or_null (str_or a b) =
  match str_or_null a with
  | Some x => Some x
  | None => str_or_null b
  end.
Proof.
  unfold str_or. destruct (str_or_null a) as [x |] eqn:E; [| reflexivity].
  apply (str_or_null_some _ _ E).
Qed.

Lemma manifest_eq (m m' : ArtboardManifestData) :
  failed m = failed m' -> url m = url m' -> preview_url m = preview_url m' ->
  artboard_original_id m = artboard_original_id m' ->
  artboard_name m = artboard_name m' ->
  is_symbol m = is_symbol m' -> symbol_id m = symbol_id m' ->
  page_original_id m = page_original_id m' -> page_name m = page_name m' ->
  m = m'.
Proof. destruct m, m'. simpl. intros. subst. reflexivity. Qed.

(** A manifest that [_createManifest] derived from the content [o] and the
    id alone is derived to itself again: the normalisation is idempotent. *)
Lemma createManifest_idempotent w a prev o id m :
  design_ok w a ->
  Artboard__createManifest a prev o (only_id id) w = (Ok m, w) ->
  Artboard__createManifest a (Some m) o (only_id id) w = (Ok m, w).
Proof.
  intros Hd H1.
  destruct (createManifest_ok w a (Some m) o (only_id id) Hd) as (m' & H2 & _).
  rewrite H2. f_equal. f_equal.
  apply createManifest_fields in H1, H2. cbv zeta in H1, H2.
  cbn [p_pageId p_componentId p_name p_id only_id] in H1, H2.
  destruct H1 as (_ & Hid & Hname & Hsym & Hiss & Hf & Hu & Hp & Hpid & Hpn).
  destruct H2 as (_ & Hid' & Hname' & Hsym' & Hiss' & Hf' & Hu' & Hp' & Hpid' & Hpn').
  cbn [mbind option_bind from_option] in Hname', Hsym', Hiss', Hf', Hu', Hp',
    Hpid', Hpn'.
  assert (Es : symbol_id m' = symbol_id m).
  { rewrite Hsym', str_or_null_str_or, Hsym, str_or_null_str_or.
    destruct (str_or_null (o ≫= doc_symbolID));
      [reflexivity | apply str_or_null_idem]. }
  assert (Ep : str_or_null (page_original_id m) =
               str_or_null (prev ≫= page_original_id)).
  { rewrite Hpid.
    destruct (str_or_null (prev ≫= page_original_id)) as [pid |] eqn:E;
      [apply (str_or_null_some _ _ E) | exact E]. }
  apply manifest_eq.
  - congruence.
  - congruence.
  - congruence.
  - congruence.
  - rewrite Hname', Hname. apply str_or_null_idem.
  - rewrite Hiss', <- Hsym', Es, Hsym. symmetry. exact Hiss.
  - exact Es.
  - rewrite Hpid', Ep, Hpid.
    destruct (str_or_null (prev ≫= page_original_id)); reflexivity.
  - rewrite Hpn', Ep, Hpn.
    destruct (str_or_null (prev ≫= page_original_id)) as [pid |] eqn:E;
      [| reflexivity].
    rewrite Hpid.
    rewrite bool_decide_eq_true_2 by reflexivity.
    match goal with
    | |- str_or_null (str_or ?PN (str_or_null (str_or ?PN ?Y))) = _ =>
        rewrite (str_or_null_str_or PN (str_or_null (str_or PN Y))),
          str_or_null_idem, (str_or_null_str_or PN Y);
        destruct (str_or_null PN); reflexivity
    end.
Qed.

(** [_createManifest] reads the [_design] field of the artboard and the
    Designs of the store, and nothing else of either. *)
Lemma createManifest_indep w w1 a a1 prev o params :
  _design a1 = _design a -> designs w1 = designs w ->
  Artboard__createManifest a1 prev o params w1 =
  (fst (Artboard__createManifest a prev o params w), w1).
Proof.
  intros Hd Hds.
  unfold Artboard__createManifest, bind, get_design, deref, ret.
  rewrite Hd.
  destruct (_design a) as [dr |]; [| reflexivity].
  destruct (str_or_null _); [| reflexivity].
  cbv beta. rewrite Hds.
  destruct (designs w !! dr); reflexivity.
Qed.

Lemma world_insert_id w this a :
  artboards w !! this = Some a ->
  {| artboards := <[this := a]> (artboards w);
     designs := designs w;
     collections := collections w |} = w.
Proof. intros H. destruct w. simpl in *. rewrite list_insert_id by exact H. reflexivity. Qed.

(** The shape shared by [setPage] and [unassignFromPage]: the manifest is
    derived again from the current one and written back. *)
Lemma rewrite_manifest_ok w this a (params : Artboard -> ManifestParams) :
  artboards w !! this = Some a ->
  design_ok w a ->
  exists m,
    Artboard__createManifest a (Some (_manifest a)) (_octopus a) (params a) w
      = (Ok m, w) /\
    (let* a0 := get_artboard this in
     let* m0 := Artboard__createManifest a0 (Some (_manifest a0)) (_octopus a0)
                  (params a0) in
     modify_artboard this (set_manifest m0)) w =
    (Ok tt, {| artboards := <[this := set_manifest m a]> (artboards w);
               designs := designs w;
               collections := collections w |}).
Proof.
  intros Ha Hd.
  destruct (createManifest_ok w a (Some (_manifest a)) (_octopus a) (params a)
              Hd) as (m & Hm & _).
  exists m. split; [exact Hm |].
  rewrite (bind_ok _ _ _ _ _ (get_artboard_ok _ _ _ Ha)).
  rewrite (bind_ok _ _ _ _ _ Hm).
  apply (modify_artboard_ok _ _ _ _ Ha).
Qed.

Lemma setManifest_ok w this a nextManifest :
  artboards w !! this = Some a ->
  design_ok w a ->
  artboard_original_id nextManifest = Artboard_id a ->
  exists m,
    Artboard__createManifest a (Some nextManifest) (_octopus a)
      (only_id (Artboard_id a)) w = (Ok m, w) /\
    Artboard_setManifest this nextManifest w =
    (Ok tt, {| artboards := <[this := set_manifest m a]> (artboards w);
               designs := designs w;
               collections := collections w |}).
Proof.
  intros Ha Hd E.
  destruct (createManifest_ok w a (Some nextManifest) (_octopus a)
              (only_id (Artboard_id a)) Hd) as (m & Hm & _).
  exists m. split; [exact Hm |].
  unfold Artboard_setManifest.
  rewrite (bind_ok _ _ _ _ _ (get_artboard_ok _ _ _ Ha)).
  rewrite E, String.eqb_refl. cbn [negb].
  rewrite (bind_ok _ _ _ _ _ Hm).
  apply (modify_artboard_ok _ _ _ _ Ha).
Qed.

Lemma setOctopus_manifest w this a nextOctopus :
  artboards w !! this = Some a ->
  design_ok w a ->
  exists m,
    Artboard__createManifest a (Some (_manifest a)) (Some nextOctopus)
      (only_id (Artboard_id a)) w = (Ok m, w) /\
    Artboard_setOctopus this nextOctopus w =
    (Ok tt,
     {| artboards :=
          <[this := {| _manifest := m;
                       _octopus := Some nextOctopus;
                       _design := _design a;
                       getRootLayers_cache := [];
                       getFlattenedLayers_cache := [] |}]> (artboards w);
        designs := designs w;
        collections := collections w |}).
Proof.
  intros Ha Hd.
  destruct (createManifest_ok w a (Some (_manifest a)) (Some nextOctopus)
              (only_id (Artboard_id a)) Hd) as (m & Hm & _).
  exists m. split; [exact Hm |].
  set (a1 := set_octopus (Some nextOctopus) a).
  set (w1 := {| artboards := <[this := a1]> (artboards w);
                designs := designs w; collections := collections w |}).
  assert (Ha1 : artboards w1 !! this = Some a1)
    by apply (lookup_updated _ _ _ _ Ha).
  assert (Hm1 : Artboard__createManifest a1 (Some (_manifest a1))
                  (Some nextOctopus) (only_id (Artboard_id a1)) w1 = (Ok m, w1)).
  { rewrite (createManifest_indep w w1 a a1) by reflexivity.
    change (_manifest a1) with (_manifest a).
    change (Artboard_id a1) with (Artboard_id a). rewrite Hm. reflexivity. }
  unfold Artboard_setOctopus.
  rewrite (bind_ok _ _ _ _ _ (modify_artboard_ok _ _ _ _ Ha)). fold a1 w1.
  rewrite (bind_ok _ _ _ _ _ (get_artboard_ok _ _ _ Ha1)).
  rewrite (bind_ok _ _ _ _ _ Hm1).
  rewrite (bind_ok _ _ _ _ _ (modify_artboard_ok _ _ _ _ Ha1)).
  unfold memoizer_clear.
  erewrite bind_ok by (apply modify_artboard_ok; apply (lookup_updated _ _ _ _ Ha1)).
  erewrite modify_artboard_ok
    by (simpl; apply list_lookup_insert_eq; rewrite !length_insert;
        eapply lookup_lt_Some, Ha).
  simpl. rewrite !list_insert_insert_eq. reflexivity.
Qed.

(** ** Artboard.setManifest after setManifest or setOctopus *)

(** Right after [setManifest] or [setOctopus], writing back the manifest
    that [getManifest()] returns changes nothing: the manifest is already in
    the form [_createManifest] gives it. *)
Theorem setManifest_of_getManifest_changes_nothing
    (w : World) (this : ref) (a : Artboard) :
  artboards w !! this = Some a ->
  design_ok w a ->
  (forall nextManifest w1,
     Artboard_setManifest this nextManifest w = (Ok tt, w1) ->
     exists m1,
       Artboard_getManifest this w1 = (Ok m1, w1) /\
       Artboard_setManifest this m1 w1 = (Ok tt, w1)) /\
  (forall nextOctopus w1,
     Artboard_setOctopus this nextOctopus w = (Ok tt, w1) ->
     exists m1,
       Artboard_getManifest this w1 = (Ok m1, w1) /\
       Artboard_setManifest this m1 w1 = (Ok tt, w1)).
Proof.
  intros Ha Hd.
  assert (Hback : forall prev o m a1 w1,
            Artboard__createManifest a prev o (only_id (Artboard_id a)) w
              = (Ok m, w) ->
            artboards w1 !! this = Some a1 ->
            _manifest a1 = m -> _octopus a1 = o -> _design a1 = _design a ->
            designs w1 = designs w ->
            Artboard_getManifest this w1 = (Ok m, w1) /\
            Artboard_setManifest this m w1 = (Ok tt, w1)).
  { intros prev o m a1 w1 Hm Ha1 Em Eo Ed Eds.
    assert (Hid : artboard_original_id m = Artboard_id a)
      by apply (createManifest_fields _ _ _ _ _ _ _ Hm).
    assert (Hd1 : design_ok w1 a1)
      by (unfold design_ok in *; rewrite Ed, Eds; exact Hd).
    split.
    - unfold Artboard_getManifest.
      rewrite (bind_ok _ _ _ _ _ (get_artboard_ok _ _ _ Ha1)), Em. reflexivity.
    - assert (Hid1 : Artboard_id a1 = Artboard_id a)
        by (unfold Artboard_id at 1; rewrite Em; exact Hid).
      destruct (setManifest_ok w1 this a1 m Ha1 Hd1) as (m' & Hm' & Hset);
        [congruence |].
      rewrite Hset. f_equal.
      rewrite (createManifest_indep w w1 a a1) in Hm' by assumption.
      rewrite Eo, Hid1, (createManifest_idempotent _ _ _ _ _ _ Hd Hm) in Hm'.
      injection Hm' as <-.
      replace (set_manifest m a1) with a1
        by (destruct a1; simpl in *; subst; reflexivity).
      apply (world_insert_id _ _ _ Ha1). }
  split.
  - intros nextManifest w1 Hset.
    assert (E : artboard_original_id nextManifest = Artboard_id a).
    { destruct (String.eqb (artboard_original_id nextManifest) (Artboard_id a))
        eqn:E; [apply String.eqb_eq, E |].
      unfold Artboard_setManifest in Hset.
      rewrite (bind_ok _ _ _ _ _ (get_artboard_ok _ _ _ Ha)), E in Hset.
      discriminate Hset. }
    destruct (setManifest_ok w this a nextManifest Ha Hd E) as (m & Hm & Hset').
    rewrite Hset' in Hset. injection Hset as <-.
    exists m. apply (Hback _ _ _ (set_manifest m a) _ Hm);
      try reflexivity. apply (lookup_updated _ _ _ _ Ha).
  - intros nextOctopus w1 Hset.
    destruct (setOctopus_manifest w this a nextOctopus Ha Hd) as (m & Hm & Hset').
    rewrite Hset' in Hset. injection Hset as <-.
    exists m.
    apply (Hback _ _ _
             {| _manifest := m; _octopus := Some nextOctopus;
                _design := _design a; getRootLayers_cache := [];
                getFlattenedLayers_cache := [] |} _ Hm);
      try reflexivity.
    apply (lookup_updated _ _ _ _ Ha).
Qed.

Lemma setManifest_of_getManifest_sample :
  exists w1 m1,
    Artboard_setOctopus 0%nat other_octopus sample_world = (Ok tt, w1) /\
    Artboard_getManifest 0%nat w1 = (Ok m1, w1) /\
    symbol_id m1 = Some "sym" /\
    Artboard_setManifest 0%nat m1 w1 = (Ok tt, w1).
Proof.
  destruct (setManifest_of_getManifest_changes_nothing sample_world 0%nat
              {| _manifest := sample_manifest "A" (Some "p2") None;
                 _octopus := Some sample_octopus;
                 _design := Some 0%nat;
                 getRootLayers_cache := [];
                 getFlattenedLayers_cache := [] |})
    as [_ H].
  - reflexivity.
  - simpl. eexists. reflexivity.
  - destruct (H other_octopus _ eq_refl) as (m1 & Hget & Hset).
    eexists _, m1. split; [reflexivity |]. split; [exact Hget |].
    split; [| exact Hset].
    vm_compute in Hget. injection Hget as <-. reflexivity.
Defined.

(** ** Artboard.setOctopus, setPage, unassignFromPage and getPage *)

Lemma componentId_after (o : option ComponentId) (prev : option ComponentId) :
  str_or_null (str_or_null (str_or o prev)) =
  match str_or_null o with
  | Some s => Some s
  | None => str_or_null prev
  end.
Proof. rewrite str_or_null_idem. apply str_or_null_str_or. Qed.

(** [setOctopus(nextOctopus)] loads the content and keeps the id, the page id
    and the name.  The component id becomes the [symbolID] of the new content
    when it has one, and stays as it was otherwise; the [is_symbol] flag of
    the manifest agrees with [isComponent()]. *)
Theorem setOctopus_takes_the_component_id_of_the_content
    (w : World) (this : ref) (a : Artboard) (nextOctopus : OctopusDocument) :
  artboards w !! this = Some a ->
  design_ok w a ->
  exists w' a',
    Artboard_setOctopus this nextOctopus w = (Ok tt, w') /\
    artboards w' !! this = Some a' /\
    Artboard_isLoaded this w' = (Ok true, w') /\
    Artboard_getOctopus this w' = (Ok (Some nextOctopus), w') /\
    Artboard_id a' = Artboard_id a /\
    Artboard_pageId a' = Artboard_pageId a /\
    Artboard_name a' = Artboard_name a /\
    Artboard_componentId a' =
      match str_or_null (doc_symbolID nextOctopus) with
      | Some s => Some s
      | None => Artboard_componentId a
      end /\
    is_symbol (_manifest a') = Artboard_isComponent a'.
Proof.
  intros Ha Hd.
  destruct (setOctopus_manifest w this a nextOctopus Ha Hd) as (m & Hm & Hset).
  apply createManifest_fields in Hm. cbv zeta in Hm.
  cbn [p_pageId p_componentId p_name p_id only_id mbind option_bind] in Hm.
  destruct Hm as (_ & Hid & Hname & Hsym & Hiss & _ & _ & _ & Hpid & _).
  set (a' := {| _manifest := m; _octopus := Some nextOctopus;
                _design := _design a; getRootLayers_cache := [];
                getFlattenedLayers_cache := [] |}) in *.
  set (w' := {| artboards := <[this := a']> (artboards w);
                designs := designs w; collections := collections w |}) in *.
  assert (Ha' : artboards w' !! this = Some a')
    by apply (lookup_updated _ _ _ _ Ha).
  exists w', a'. split; [exact Hset |]. split; [exact Ha' |].
  unfold Artboard_isLoaded, Artboard_getOctopus.
  rewrite !(bind_ok _ _ _ _ _ (get_artboard_ok _ _ _ Ha')).
  split; [reflexivity |]. split; [reflexivity |].
  unfold Artboard_id, Artboard_pageId, Artboard_name, Artboard_componentId,
    Artboard_isComponent, Artboard_componentId.
  cbn [_manifest a'].
  split; [exact Hid |]. split; [| split; [| split]].
  - rewrite Hpid.
    destruct (str_or_null (page_original_id (_manifest a))) as [pid |] eqn:E;
      [apply (str_or_null_some _ _ E) | exact E].
  - rewrite Hname. apply str_or_null_idem.
  - rewrite Hsym. apply componentId_after.
  - rewrite Hiss, Hsym, str_or_null_idem. reflexivity.
Qed.

Lemma setOctopus_component_sample :
  exists w' a',
    Artboard_setOctopus 0%nat other_octopus sample_world = (Ok tt, w') /\
    artboards w' !! 0%nat = Some a' /\
    Artboard_id a' = "A" /\ Artboard_pageId a' = Some "p2" /\
    Artboard_componentId a' = Some "sym".
Proof.
  destruct (setOctopus_takes_the_component_id_of_the_content sample_world
              0%nat
              {| _manifest := sample_manifest "A" (Some "p2") None;
                 _octopus := Some sample_octopus;
                 _design := Some 0%nat;
                 getRootLayers_cache := [];
                 getFlattenedLayers_cache := [] |} other_octopus)
    as (w' & a' & H1 & H2 & _ & _ & H3 & H4 & _ & H5 & _).
  - reflexivity.
  - simpl. eexists. reflexivity.
  - exists w', a'. repeat split; assumption.
Defined.

(** [setPage(nextPageId)] with a non-empty page id makes it the artboard's
    page id, and takes the page name from the page of that id in the Design
    when that page has a name; with the empty string it leaves the page id as
    it was.  Either way the id, the name, the content and both caches stay. *)
Theorem setPage_sets_the_page_id
    (w : World) (this : ref) (a : Artboard) (nextPageId : PageId) :
  artboards w !! this = Some a ->
  design_ok w a ->
  exists w' a',
    Artboard_setPage this nextPageId w = (Ok tt, w') /\
    artboards w' !! this = Some a' /\
    collections w' = collections w /\ designs w' = designs w /\
    Artboard_id a' = Artboard_id a /\
    Artboard_name a' = Artboard_name a /\
    _octopus a' = _octopus a /\ _design a' = _design a /\
    getRootLayers_cache a' = getRootLayers_cache a /\
    getFlattenedLayers_cache a' = getFlattenedLayers_cache a /\
    (nextPageId <> EmptyString -> Artboard_pageId a' = Some nextPageId) /\
    (nextPageId = EmptyString -> Artboard_pageId a' = Artboard_pageId a) /\
    (forall dr d p n,
       nextPageId <> EmptyString ->
       _design a = Some dr -> designs w !! dr = Some d ->
       Design_getPageById d nextPageId = Some p ->
       str_or_null (page__name p) = Some n ->
       page_name (_manifest a') = Some n).
Proof.
  intros Ha Hd.
  destruct (rewrite_manifest_ok w this a
              (fun a0 => {| p_id := Artboard_id a0; p_pageId := Val nextPageId;
                            p_componentId := Absent; p_name := Absent |}) Ha Hd)
    as (m & Hm & Hset).
  apply createManifest_fields in Hm. cbv zeta in Hm.
  cbn [p_pageId p_componentId p_name p_id mbind option_bind] in Hm.
  destruct Hm as (_ & Hid & Hname & _ & _ & _ & _ & _ & Hpid & Hpn).
  eexists _, (set_manifest m a). split; [exact Hset |].
  split; [apply (lookup_updated _ _ _ _ Ha) |].
  unfold Artboard_id, Artboard_name, Artboard_pageId. cbn [_manifest set_manifest].
  repeat split; try reflexivity.
  - exact Hid.
  - rewrite Hname. apply str_or_null_idem.
  - intros Hne. rewrite Hpid, (str_or_null_truthy _ Hne).
    apply (str_or_null_truthy _ Hne).
  - intros ->. rewrite Hpid. reflexivity.
  - intros dr d p n Hne Hdr Hds Hp Hn.
    rewrite Hpn, (str_or_null_truthy _ Hne), Hdr, Hds. simpl.
    rewrite Hp. simpl. rewrite str_or_null_str_or, Hn. reflexivity.
Qed.

Lemma setPage_sample :
  exists w' a',
    Artboard_setPage 0%nat "p1" sample_world = (Ok tt, w') /\
    artboards w' !! 0%nat = Some a' /\
    Artboard_pageId a' = Some "p1" /\
    page_name (_manifest a') = Some "Page 1".
Proof.
  destruct (setPage_sets_the_page_id sample_world 0%nat
              {| _manifest := sample_manifest "A" (Some "p2") None;
                 _octopus := Some sample_octopus;
                 _design := Some 0%nat;
                 getRootLayers_cache := [];
                 getFlattenedLayers_cache := [] |} "p1")
    as (w' & a' & H1 & H2 & _ & _ & _ & _ & _ & _ & _ & _ & H3 & _ & H4).
  - reflexivity.
  - simpl. eexists. reflexivity.
  - exists w', a'. split; [exact H1 |]. split; [exact H2 |]. split.
    + apply H3. discriminate.
    + eapply (H4 0%nat _ page1 "Page 1"); try reflexivity. discriminate.
Defined.

(** [unassignFromPage()] passes a null page id to [_createManifest], which
    then carries the page id of the previous manifest over: the artboard's
    page id is what it was.  So [Page.unassignArtboard(id)] returns false and
    changes nothing for an artboard that is not on the page, and returns true
    for one that is, which the page still holds afterwards. *)
Theorem unassignArtboard_leaves_the_page_id
    (w : World) (p : Page) (d : Design) (artboardId : ArtboardId)
    (r : ref) (a : Artboard) :
  designs w !! page_design p = Some d ->
  Design_getArtboardById d artboardId = Some r ->
  artboards w !! r = Some a ->
  design_ok w a ->
  (exists w' a',
     Artboard_unassignFromPage r w = (Ok tt, w') /\
     artboards w' !! r = Some a' /\
     Artboard_pageId a' = Artboard_pageId a) /\
  (Artboard_pageId a <> Some (page_id p) ->
   Page_unassignArtboard p artboardId w = (Ok false, w)) /\
  (Artboard_pageId a = Some (page_id p) ->
   exists w',
     Page_unassignArtboard p artboardId w = (Ok true, w') /\
     Page_getArtboardById p artboardId w' = (Ok (Some r), w')).
Proof.
  intros Hds Hr Ha Hd.
  destruct (rewrite_manifest_ok w r a
              (fun a0 => {| p_id := Artboard_id a0; p_pageId := Null;
                            p_componentId := Absent; p_name := Absent |}) Ha Hd)
    as (m & Hm & Hset).
  apply createManifest_fields in Hm. cbv zeta in Hm.
  cbn [p_pageId p_componentId p_name p_id mbind option_bind str_or_null] in Hm.
  destruct Hm as (_ & _ & _ & _ & _ & _ & _ & _ & Hpid & _).
  set (w' := {| artboards := <[r := set_manifest m a]> (artboards w);
                designs := designs w; collections := collections w |}) in *.
  assert (Ha' : artboards w' !! r = Some (set_manifest m a))
    by apply (lookup_updated _ _ _ _ Ha).
  assert (Hsame : Artboard_pageId (set_manifest m a) = Artboard_pageId a).
  { unfold Artboard_pageId. cbn [_manifest set_manifest]. rewrite Hpid.
    reflexivity. }
  assert (Hlookup : forall w0 a0 b,
            designs w0 !! page_design p = Some d ->
            artboards w0 !! r = Some a0 ->
            bool_decide (Artboard_pageId a0 = Some (page_id p)) = b ->
            Page_getArtboardById p artboardId w0 =
            (Ok (if b then Some r else None), w0)).
  { intros w0 a0 b Hds0 Ha0 Hb. unfold Page_getArtboardById.
    rewrite (bind_ok _ _ _ _ _ (get_design_ok _ _ _ Hds0)), Hr.
    rewrite (bind_ok _ _ _ _ _ (get_artboard_ok _ _ _ Ha0)), Hb.
    destruct b; reflexivity. }
  split; [| split].
  - exists w', (set_manifest m a). split; [exact Hset |]. split; assumption.
  - intros Hp. unfold Page_unassignArtboard.
    rewrite (bind_ok _ _ _ _ _
               (Hlookup w a false Hds Ha (bool_decide_eq_false_2 _ Hp))).
    reflexivity.
  - intros Hp. exists w'. split.
    + unfold Page_unassignArtboard.
      rewrite (bind_ok _ _ _ _ _
                 (Hlookup w a true Hds Ha (bool_decide_eq_true_2 _ Hp))).
      unfold Artboard_unassignFromPage in Hset |- *.
      rewrite (bind_ok _ _ _ _ _ Hset). reflexivity.
    + apply (Hlookup w' (set_manifest m a) true Hds Ha').
      apply bool_decide_eq_true_2. rewrite Hsame. exact Hp.
Qed.

Lemma unassignArtboard_sample :
  exists w',
    Page_unassignArtboard page2 "A" sample_world = (Ok true, w') /\
    Page_getArtboardById page2 "A" w' = (Ok (Some 0%nat), w').
Proof.
  eapply (unassignArtboard_leaves_the_page_id sample_world page2 _ "A" 0%nat).
  - reflexivity.
  - reflexivity.
  - reflexivity.
  - simpl. eexists. reflexivity.
  - reflexivity.
Defined.

(** [getPage()] is nothing for an artboard without a page id.  After
    [setPage(pageId)] with a non-empty id, [getPage()] returns what the
    Design finds for that id, which is nothing when the Design has no such
    page, and throws when the artboard has no Design. *)
Theorem getPage_after_setPage
    (w : World) (this : ref) (a : Artboard) (pageId : PageId) :
  artboards w !! this = Some a ->
  design_ok w a ->
  pageId <> EmptyString ->
  (Artboard_pageId a = None -> Artboard_getPage this w = (Ok None, w)) /\
  exists w',
    Artboard_setPage this pageId w = (Ok tt, w') /\
    (_design a = None ->
     Artboard_getPage this w' =
     (Throw "Cannot retrieve a detached artboard page", w')) /\
    (forall dr d,
       _design a = Some dr -> designs w !! dr = Some d ->
       Artboard_getPage this w' = (Ok (Design_getPageById d pageId), w')).
Proof.
  intros Ha Hd Hne. split.
  - intros Hnone. unfold Artboard_getPage.
    rewrite (bind_ok _ _ _ _ _ (get_artboard_ok _ _ _ Ha)), Hnone. reflexivity.
  - destruct (rewrite_manifest_ok w this a
                (fun a0 => {| p_id := Artboard_id a0; p_pageId := Val pageId;
                              p_componentId := Absent; p_name := Absent |})
                Ha Hd) as (m & Hm & Hset).
    apply createManifest_fields in Hm. cbv zeta in Hm.
    cbn [p_pageId p_componentId p_name p_id mbind option_bind] in Hm.
    destruct Hm as (_ & _ & _ & _ & _ & _ & _ & _ & Hpid & _).
    rewrite (str_or_null_truthy _ Hne) in Hpid.
    set (w' := {| artboards := <[this := set_manifest m a]> (artboards w);
                  designs := designs w; collections := collections w |}) in *.
    assert (Ha' : artboards w' !! this = Some (set_manifest m a))
      by apply (lookup_updated _ _ _ _ Ha).
    assert (Hp : Artboard_pageId (set_manifest m a) = Some pageId).
    { unfold Artboard_pageId. cbn [_manifest set_manifest]. rewrite Hpid.
      apply (str_or_null_truthy _ Hne). }
    exists w'. split; [exact Hset |]. unfold Artboard_getPage.
    rewrite !(bind_ok _ _ _ _ _ (get_artboard_ok _ _ _ Ha')), Hp.
    cbn [_design set_manifest]. split.
    + intros ->. reflexivity.
    + intros dr d -> Hds.
      assert (Hds' : designs w' !! dr = Some d) by exact Hds.
      rewrite (bind_ok _ _ _ _ _ (get_design_ok _ _ _ Hds')). reflexivity.
Qed.

Lemma getPage_after_setPage_sample :
  exists w',
    Artboard_setPage 0%nat "p1" sample_world = (Ok tt, w') /\
    Artboard_getPage 0%nat w' = (Ok (Some page1), w').
Proof.
  destruct (getPage_after_setPage sample_world 0%nat
              {| _manifest := sample_manifest "A" (Some "p2") None;
                 _octopus := Some sample_octopus;
                 _design := Some 0%nat;
                 getRootLayers_cache := [];
                 getFlattenedLayers_cache := [] |} "p1")
    as (_ & w' & H1 & _ & H2).
  - reflexivity.
  - simpl. eexists. reflexivity.
  - discriminate.
  - exists w'. split; [exact H1 |]. apply (H2 0%nat _ eq_refl eq_refl).
Defined.

(** ** The Artboard constructor *)

(** [new Artboard(id, octopus, params)] never throws.  The new object has the
    id given, the content given and empty caches, and every artboard already
    in the store is left as it is.  Without a [componentId] parameter the
    component id is the [symbolID] of the content when it has one, and that
    of the given manifest otherwise; a non-empty [pageId] parameter and a
    [name] parameter are taken as they are. *)
Theorem new_Artboard_builds_the_artboard_asked_for
    (w : World) (id : ArtboardId) (octopus : option OctopusDocument)
    (manifest : option ArtboardManifestData) (pageId : param PageId)
    (componentId : param ComponentId) (name : param string)
    (design : option ref) :
  exists w' a',
    new_Artboard id octopus manifest pageId componentId name design w =
      (Ok (length (artboards w)), w') /\
    artboards w' !! length (artboards w) = Some a' /\
    (forall r x, artboards w !! r = Some x -> artboards w' !! r = Some x) /\
    designs w' = designs w /\ collections w' = collections w /\
    Artboard_id a' = id /\ _octopus a' = octopus /\ _design a' = design /\
    getRootLayers_cache a' = [] /\ getFlattenedLayers_cache a' = [] /\
    is_symbol (_manifest a') = Artboard_isComponent a' /\
    (componentId = Absent ->
     Artboard_componentId a' =
     match str_or_null (octopus ≫= doc_symbolID) with
     | Some s => Some s
     | None => str_or_null (manifest ≫= symbol_id)
     end) /\
    (forall v, componentId = Val v ->
       Artboard_componentId a' = str_or_null (Some v)) /\
    (forall v, pageId = Val v -> v <> EmptyString ->
       Artboard_pageId a' = Some v) /\
    (forall v, name = Val v -> Artboard_name a' = str_or_null (Some v)).
Proof.
  set (blank :=
    {| _manifest := Manifest false None None EmptyString None false None None None;
       _octopus := None; _design := None;
       getRootLayers_cache := []; getFlattenedLayers_cache := [] |}).
  set (params := {| p_id := id; p_pageId := pageId;
                    p_componentId := componentId; p_name := name |}).
  destruct (createManifest_ok w blank manifest octopus params I)
    as (m & Hm & _).
  pose proof (createManifest_fields _ _ _ _ _ _ _ Hm) as Hf. cbv zeta in Hf.
  cbn [p_pageId p_componentId p_name p_id params] in Hf.
  destruct Hf as (_ & Hid & Hname & Hsym & Hiss & _ & _ & _ & Hpid & _).
  eexists _, {| _manifest := m; _octopus := octopus; _design := design;
                getRootLayers_cache := []; getFlattenedLayers_cache := [] |}.
  split.
  { unfold new_Artboard. fold blank. fold params.
    rewrite (bind_ok _ _ _ _ _ Hm). reflexivity. }
  cbn [artboards designs collections].
  split; [apply list_lookup_middle; reflexivity |].
  split; [intros r x Hr; apply lookup_app_l_Some, Hr |].
  unfold Artboard_id, Artboard_componentId, Artboard_pageId, Artboard_name,
    Artboard_isComponent, Artboard_componentId.
  cbn [_manifest _octopus _design getRootLayers_cache getFlattenedLayers_cache].
  repeat split; try reflexivity.
  - exact Hid.
  - rewrite Hiss, Hsym, str_or_null_idem. reflexivity.
  - intros ->. rewrite Hsym. apply componentId_after.
  - intros v ->. rewrite Hsym. apply str_or_null_idem.
  - intros v -> Hne. rewrite Hpid, (str_or_null_truthy _ Hne).
    apply (str_or_null_truthy _ Hne).
  - intros v ->. rewrite Hname. apply str_or_null_idem.
Qed.

(** An artboard built from content with a [symbolID], as in the test "should
    return an added master component artboard by component ID". *)
Lemma new_Artboard_component_sample :
  exists w' a',
    new_Artboard "C" (Some other_octopus) None Absent Absent Absent
      (Some 0%nat) sample_world = (Ok 2%nat, w') /\
    artboards w' !! 2%nat = Some a' /\
    Artboard_componentId a' = Some "sym".
Proof.
  destruct (new_Artboard_builds_the_artboard_asked_for sample_world "C"
              (Some other_octopus) None Absent Absent Absent (Some 0%nat))
    as (w' & a' & H1 & H2 & _ & _ & _ & _ & _ & _ & _ & _ & _ & H3 & _).
  exists w', a'. split; [exact H1 |]. split; [exact H2 |].
  apply (H3 eq_refl).
Defined.

(** ** The cache of getFlattenedLayers stays coherent *)

Lemma getRootLayers_step w this a args :
  artboards w !! this = Some a ->
  exists c w1 a1,
    Artboard_getRootLayers this args w = (Ok c, w1) /\
    artboards w1 !! this = Some a1 /\
    _octopus a1 = _octopus a /\ _design a1 = _design a /\
    getFlattenedLayers_cache a1 = getFlattenedLayers_cache a /\
    designs w1 = designs w /\
    (forall i x, collections w !! i = Some x -> collections w1 !! i = Some x).
Proof.
  intros Ha.
  destruct (find_cached 1 (getRootLayers_cache a) args) as [e |] eqn:He.
  - exists (result e), w, a.
    rewrite (getRootLayers_hit _ _ _ _ _ Ha He). repeat split; auto.
  - rewrite (getRootLayers_miss _ _ _ _ Ha He).
    eexists _, _, _. split; [reflexivity |].
    split; [apply (lookup_updated _ _ _ _ Ha) |].
    repeat split. intros i x Hi. simpl. apply lookup_app_l_Some, Hi.
Qed.

Lemma coherent_transfer w w1 this a a1 :
  flattened_cache_coherent w this a ->
  _octopus a1 = _octopus a ->
  getFlattenedLayers_cache a1 = getFlattenedLayers_cache a ->
  (forall i x, collections w !! i = Some x -> collections w1 !! i = Some x) ->
  flattened_cache_coherent w1 this a1.
Proof.
  unfold flattened_cache_coherent. intros Hco Ho Hc Hgrow.
  rewrite Ho, Hc. eapply Forall_impl; [exact Hco |].
  intros e He. apply Hgrow, He.
Qed.

(** The cache of [getFlattenedLayers] holds only flattenings of the current
    content (it is coherent) after [setOctopus], and stays so through
    [getFlattenedLayers], [getRootLayers], [setManifest] and [setPage].
    ([unload()] is the operation that breaks it.) *)
Theorem flattened_cache_stays_coherent
    (w : World) (this : ref) (a : Artboard) :
  artboards w !! this = Some a ->
  design_ok w a ->
  (forall nextOctopus,
     exists w' a',
       Artboard_setOctopus this nextOctopus w = (Ok tt, w') /\
       artboards w' !! this = Some a' /\ design_ok w' a' /\
       flattened_cache_coherent w' this a') /\
  (flattened_cache_coherent w this a ->
   (forall args,
      exists c w' a',
        Artboard_getFlattenedLayers this args w = (Ok c, w') /\
        artboards w' !! this = Some a' /\ design_ok w' a' /\
        flattened_cache_coherent w' this a') /\
   (forall args,
      exists c w' a',
        Artboard_getRootLayers this args w = (Ok c, w') /\
        artboards w' !! this = Some a' /\ design_ok w' a' /\
        flattened_cache_coherent w' this a') /\
   (forall nextManifest,
      artboard_original_id nextManifest = Artboard_id a ->
      exists w' a',
        Artboard_setManifest this nextManifest w = (Ok tt, w') /\
        artboards w' !! this = Some a' /\ design_ok w' a' /\
        flattened_cache_coherent w' this a') /\
   (forall nextPageId,
      exists w' a',
        Artboard_setPage this nextPageId w = (Ok tt, w') /\
        artboards w' !! this = Some a' /\ design_ok w' a' /\
        flattened_cache_coherent w' this a')).
Proof.
  intros Ha Hd. split.
  - intros nextOctopus.
    destruct (setOctopus_manifest w this a nextOctopus Ha Hd) as (m & _ & Hset).
    eexists _, _. split; [exact Hset |].
    split; [apply (lookup_updated _ _ _ _ Ha) |].
    split; [exact Hd |].
    apply flattened_cache_coherent_empty. reflexivity.
  - intros Hco. split; [| split; [| split]].
    + intros args.
      destruct (getFlattenedLayers_coherent w this a args Ha Hco)
        as (c & w1 & a1 & Hget & Ha1 & _ & Hco1 & _).
      destruct (getFlattenedLayers_post w this a args Ha)
        as (c' & w1' & a1' & Hget' & Ha1' & _ & _ & Hd1 & Hds & _).
      rewrite Hget in Hget'. injection Hget' as <- <-.
      rewrite Ha1 in Ha1'. injection Ha1' as <-.
      exists c, w1, a1. repeat split; try assumption.
      unfold design_ok in *. rewrite Hd1, Hds. exact Hd.
    + intros args.
      destruct (getRootLayers_step w this a args Ha)
        as (c & w1 & a1 & Hget & Ha1 & Ho & Hd1 & Hc & Hds & Hgrow).
      exists c, w1, a1. repeat split; try assumption.
      * unfold design_ok in *. rewrite Hd1, Hds. exact Hd.
      * apply (coherent_transfer w w1 this a a1); assumption.
    + intros nextManifest E.
      destruct (setManifest_ok w this a nextManifest Ha Hd E) as (m & _ & Hset).
      eexists _, (set_manifest m a). split; [exact Hset |].
      split; [apply (lookup_updated _ _ _ _ Ha) |]. split; [exact Hd |].
      apply (coherent_transfer w _ this a); auto.
    + intros nextPageId.
      destruct (rewrite_manifest_ok w this a
                  (fun a0 => {| p_id := Artboard_id a0;
                                p_pageId := Val nextPageId;
                                p_componentId := Absent; p_name := Absent |})
                  Ha Hd) as (m & _ & Hset).
      eexists _, (set_manifest m a). split; [exact Hset |].
      split; [apply (lookup_updated _ _ _ _ Ha) |]. split; [exact Hd |].
      apply (coherent_transfer w _ this a); auto.
Qed.

Lemma flattened_cache_stays_coherent_sample :
  exists c w' a',
    Artboard_getFlattenedLayers 0%nat [AObject depth_0] sample_world
      = (Ok c, w') /\
    artboards w' !! 0%nat = Some a' /\
    flattened_cache_coherent w' 0%nat a'.
Proof.
  destruct (flattened_cache_stays_coherent sample_world 0%nat
              {| _manifest := sample_manifest "A" (Some "p2") None;
                 _octopus := Some sample_octopus;
                 _design := Some 0%nat;
                 getRootLayers_cache := [];
                 getFlattenedLayers_cache := [] |})
    as [_ H].
  - reflexivity.
  - simpl. eexists. reflexivity.
  - destruct H as [H _];
      [apply flattened_cache_coherent_empty; reflexivity |].
    destruct (H [AObject depth_0]) as (c & w' & a' & H1 & H2 & _ & H3).
    exists c, w', a'. auto.
Defined.

(** ** An artboard without content *)

(** On an artboard that has no content and a coherent cache, as the
    constructor leaves it when given no content, [getFlattenedLayers(options)]
    returns an empty collection, [getLayerById] finds nothing and
    [getLayerDepth] is nothing. *)
Theorem unloaded_artboard_has_no_layers
    (w : World) (this : ref) (a : Artboard) :
  artboards w !! this = Some a ->
  _octopus a = None ->
  flattened_cache_coherent w this a ->
  (forall args,
     exists c w',
       Artboard_getFlattenedLayers this args w = (Ok c, w') /\
       collections w' !! c = Some []) /\
  (forall layerId,
     exists w', Artboard_getLayerById this layerId w = (Ok None, w')) /\
  (forall layerId fuel,
     exists w',
       Artboard_getLayerDepth (S fuel) this layerId w = (Ok None, w')).
Proof.
  intros Ha Ho Hco.
  assert (Hby : forall layerId,
            exists w', Artboard_getLayerById this layerId w = (Ok None, w')).
  { intros layerId.
    destruct (getLayerById_coherent w this a layerId Ha Hco)
      as (c & w1 & Hfind & _).
    rewrite Ho in Hfind. exists w1. exact Hfind. }
  split; [| split].
  - intros args.
    destruct (getFlattenedLayers_coherent w this a args Ha Hco)
      as (c & w1 & a1 & Hget & _ & _ & _ & Hc & _).
    rewrite Ho in Hc. exists c, w1. split; [exact Hget | exact Hc].
  - exact Hby.
  - intros layerId fuel. destruct (Hby layerId) as (w' & H).
    exists w'. rewrite Artboard_getLayerDepth_S, (bind_ok _ _ _ _ _ H).
    reflexivity.
Qed.

Lemma unloaded_artboard_sample :
  exists w',
    Artboard_getLayerById 0%nat "a" unloaded_sample_world = (Ok None, w').
Proof.
  destruct (unloaded_artboard_has_no_layers unloaded_sample_world 0%nat
              {| _manifest := sample_manifest "U" None None;
                 _octopus := None;
                 _design := None;
                 getRootLayers_cache := [];
                 getFlattenedLayers_cache := [] |}) as (_ & H & _).
  - reflexivity.
  - reflexivity.
  - apply flattened_cache_coherent_empty. reflexivity.
  - apply (H "a").
Defined.

(** ** Layer: component instances *)

(** A layer for which [isComponentInstance()] is false has no component
    artboard, and asking for it never throws, attached or not; a layer for
    which [getComponentArtboard()] returns an artboard is a component
    instance.  [getComponentId()] is set exactly when the layer refers to its
    component by [symbolID]. *)
Theorem getComponentArtboard_needs_a_component_instance
    (w : World) (l : Layer) :
  (Layer_isComponentInstance l = false ->
   Layer_getComponentArtboard l w = (Ok None, w)) /\
  (forall r w',
     Layer_getComponentArtboard l w = (Ok (Some r), w') ->
     Layer_isComponentInstance l = true) /\
  (is_Some (Layer_getComponentId l) -> Layer_isComponentInstance l = true).
Proof.
  assert (Hfalse : Layer_isComponentInstance l = false ->
                   str_or_null (o_documentId (octopus l)) = None /\
                   str_or_null (o_symbolID (octopus l)) = None).
  { unfold Layer_isComponentInstance, str_or. intros H.
    apply bool_decide_eq_false_1 in H.
    destruct (str_or_null (o_symbolID (octopus l))) as [s |].
    - destruct H. eauto.
    - destruct (str_or_null (o_documentId (octopus l))) as [s |];
        [destruct H; eauto | auto]. }
  assert (Hnone : Layer_isComponentInstance l = false ->
                  Layer_getComponentArtboard l w = (Ok None, w)).
  { intros H. destruct (Hfalse H) as [H1 H2].
    unfold Layer_getComponentArtboard. rewrite H1, H2. reflexivity. }
  split; [exact Hnone |]. split.
  - intros r w' H. destruct (Layer_isComponentInstance l) eqn:E;
      [reflexivity |]. rewrite (Hnone eq_refl) in H. discriminate H.
  - intros [s Hs]. destruct (Layer_isComponentInstance l) eqn:E;
      [reflexivity |]. destruct (Hfalse eq_refl) as [_ H2].
    unfold Layer_getComponentId in Hs. congruence.
Qed.

(** ** Layer: nested layers *)

Lemma num_or_num (n : Z) (d : number) : n <> 0 -> num_or (Some (Num n)) d = Num n.
Proof. intros H. simpl. destruct n; [destruct (H eq_refl) | |]; reflexivity. Qed.

Lemma strict_eq_num (n : Z) :
  number_strict_eq (Num n) (Num 1) = bool_decide (n = 1).
Proof.
  unfold number_strict_eq. apply bool_decide_ext. split; congruence.
Qed.

(** [hasNestedLayers()] is true exactly when [getNestedLayers(options)]
    returns a layer, whatever the options. *)
Theorem hasNestedLayers_iff_getNestedLayers_nonempty
    (l : Layer) (options : object) :
  Layer_hasNestedLayers l = true <-> Layer_getNestedLayers l options <> [].
Proof.
  unfold Layer_hasNestedLayers, Layer_getNestedLayers.
  rewrite nestedLayers_eq. cbv zeta.
  destruct (o_layers (octopus l)) as [| d ds];
    destruct (number_strict_eq _ _); simpl; split;
    solve [discriminate | congruence | reflexivity].
Qed.

Lemma nestedLayers_monotone artboard layerData :
  forall n m,
    1 <= n ->
    (match m with Num z => n <= z | Infinity => True | NaN => False end) ->
    incl (nestedLayers artboard (Some (Num n)) layerData)
         (nestedLayers artboard (Some m) layerData).
Proof.
  induction layerData as [layerData IH] using LayerOctopusData_tree_ind.
  rewrite Forall_forall in IH.
  intros n m Hn Hm layer. rewrite !nestedLayers_eq. cbv zeta.
  rewrite (num_or_num n) by lia.
  assert (Em : num_or (Some m) (Num 1) = m).
  { destruct m as [z | |]; [apply num_or_num; lia | reflexivity |].
    destruct Hm. }
  rewrite Em, strict_eq_num.
  assert (Hhead : forall nested rest,
            In nested (o_layers layerData) ->
            In (new_Layer nested (Some (o_id layerData)) artboard)
               (flat_map
                  (fun nested =>
                     new_Layer nested (Some (o_id layerData)) artboard ::
                     rest nested) (o_layers layerData))).
  { intros nested rest Hin. apply in_flat_map. exists nested.
    split; [exact Hin | left; reflexivity]. }
  destruct (bool_decide (n = 1)) eqn:En.
  - unfold createLayers. rewrite in_map_iff. intros (nested & <- & Hin).
    destruct (number_strict_eq m (Num 1)).
    + apply in_map_iff. exists nested. split; [reflexivity | exact Hin].
    + apply Hhead, Hin.
  - apply bool_decide_eq_false_1 in En.
    assert (Em1 : number_strict_eq m (Num 1) = false).
    { destruct m as [z | |]; [| reflexivity | destruct Hm].
      rewrite strict_eq_num. apply bool_decide_eq_false_2. lia. }
    rewrite Em1, !in_flat_map. intros (nested & Hin & Hl).
    exists nested. split; [exact Hin |].
    destruct Hl as [<- | Hl]; [left; reflexivity | right].
    cbn [dec] in Hl. rewrite (num_or_num (n - 1)) in Hl by lia.
    assert (Hm' : num_or (Some (dec m)) Infinity = dec m).
    { destruct m as [z | |]; [apply num_or_num; lia | reflexivity |].
      destruct Hm. }
    rewrite Hm'.
    apply (IH nested (proj2 (list_elem_of_In _ _) Hin) (n - 1) (dec m));
      [lia | destruct m; simpl; [lia | exact I | exact Hm] | exact Hl].
Qed.

(** A larger depth never loses a layer: every layer that
    [getNestedLayers({ depth: n })] returns, for [n] at least 1, is returned
    for every depth from [n] on and for [Infinity].  (A depth [NaN] is read
    as the default depth 1.) *)
Theorem getNestedLayers_grows_with_the_depth (l : Layer) (n : Z) (m : number) :
  1 <= n ->
  match m with Num z => n <= z | Infinity => True | NaN => n = 1 end ->
  incl (Layer_getNestedLayers l {[ "depth" := PNumber (Num n) ]})
       (Layer_getNestedLayers l {[ "depth" := PNumber m ]}).
Proof.
  intros Hn Hm. unfold Layer_getNestedLayers. rewrite !depth_of_singleton.
  destruct m as [z | |].
  - apply nestedLayers_monotone; assumption.
  - apply nestedLayers_monotone; assumption.
  - subst n. rewrite !nestedLayers_eq. apply incl_refl.
Qed.

Lemma getNestedLayers_grows_sample :
  incl (Layer_getNestedLayers (new_Layer sample_tree None None)
          {[ "depth" := PNumber (Num 1) ]})
       (Layer_getNestedLayers (new_Layer sample_tree None None)
          {[ "depth" := PNumber (Num 2) ]}).
Proof.
  apply (getNestedLayers_grows_with_the_depth _ 1 (Num 2)); lia.
Defined.

(** ** Layer: the chain of parent layers *)

Lemma Layer_getParentLayerIds_S fuel this :
  Layer_getParentLayerIds (S fuel) this =
  let* parentLayer := Layer_getParentLayer this in
  match parentLayer with
  | Some p =>
      let* rest := Layer_getParentLayerIds fuel p in
      ret (Layer_id p :: rest)
  | None => ret []
  end.
Proof. reflexivity. Qed.

Lemma ancestors_at_depth roots ids d :
  ancestors roots ids d -> at_depth roots (1 + Z.of_nat (length ids)) d.
Proof.
  induction 1 as [d Hd | ids parent d _ IH Hd].
  - apply at_depth_root, Hd.
  - replace (1 + Z.of_nat (length (o_id parent :: ids)))
      with (1 + Z.of_nat (length ids) + 1) by (simpl length; lia).
    apply (at_depth_nested _ _ parent); assumption.
Qed.

Section ParentChain.

Variables (w1 : World) (this c : ref) (roots : list LayerOctopusData).

Hypothesis Hstable : Artboard_getFlattenedLayers this [] w1 = (Ok c, w1).
Hypothesis Hc :
  collections w1 !! c =
  Some (createFlattenedLayers roots None (Some this) Infinity).
Hypothesis Hwf : well_formed_ids roots.

Lemma flattened_layer_unique d pp pp' :
  In (new_Layer d pp (Some this))
     (createFlattenedLayers roots None (Some this) Infinity) ->
  In (new_Layer d pp' (Some this))
     (createFlattenedLayers roots None (Some this) Infinity) ->
  new_Layer d pp (Some this) = new_Layer d pp' (Some this).
Proof.
  intros H1 H2.
  pose proof (getLayerById_flattened w1 this c roots Hstable Hc Hwf _ H1) as E1.
  pose proof (getLayerById_flattened w1 this c roots Hstable Hc Hwf _ H2) as E2.
  change (Layer_id (new_Layer d pp' (Some this)))
    with (Layer_id (new_Layer d pp (Some this))) in E2.
  rewrite E1 in E2. congruence.
Qed.

Lemma getParentLayer_of_root d pp :
  In d roots ->
  In (new_Layer d pp (Some this))
     (createFlattenedLayers roots None (Some this) Infinity) ->
  Layer_getParentLayer (new_Layer d pp (Some this)) w1 = (Ok None, w1).
Proof.
  intros Hd Hin.
  rewrite (flattened_layer_unique d pp None Hin
             (flattened_root roots None (Some this) d Hd)).
  reflexivity.
Qed.

Lemma getParentLayer_of_nested k parent d pp :
  at_depth roots k parent -> In d (o_layers parent) ->
  In (new_Layer d pp (Some this))
     (createFlattenedLayers roots None (Some this) Infinity) ->
  exists ppp,
    In (new_Layer parent ppp (Some this))
       (createFlattenedLayers roots None (Some this) Infinity) /\
    Layer_getParentLayer (new_Layer d pp (Some this)) w1 =
    (Ok (Some (new_Layer parent ppp (Some this))), w1).
Proof.
  intros Hp Hd Hin.
  destruct (at_depth_flattened roots (Some this) k parent Hp)
    as (ppp & Hpin & _).
  assert (Hin' : In (new_Layer d (Some (o_id parent)) (Some this))
                    (createFlattenedLayers roots None (Some this) Infinity)).
  { unfold createFlattenedLayers in *. apply in_flat_map in Hpin.
    destruct Hpin as (t & Ht & Hpin). apply in_flat_map. exists t.
    split; [exact Ht |].
    apply (flattened_nested_tree (Some this) parent ppp d Hd), Hpin. }
  assert (Hne : o_id parent <> EmptyString).
  { destruct Hwf as [_ Hne]. rewrite Forall_forall in Hne.
    apply Hne, list_elem_of_In, (at_depth_id roots k), Hp. }
  exists ppp. split; [exact Hpin |].
  rewrite (flattened_layer_unique d pp _ Hin Hin').
  unfold Layer_getParentLayer, new_Layer at 1 2.
  cbn [_parentLayerId _artboard].
  rewrite !(str_or_null_truthy _ Hne).
  pose proof (getLayerById_flattened w1 this c roots Hstable Hc Hwf _ Hpin)
    as Hfind.
  change (Layer_id (new_Layer parent ppp (Some this)))
    with (o_id parent) in Hfind.
  rewrite (bind_ok _ _ _ _ _ Hfind). reflexivity.
Qed.

Lemma getParentLayerIds_stable ids d :
  ancestors roots ids d ->
  forall pp fuel,
    In (new_Layer d pp (Some this))
       (createFlattenedLayers roots None (Some this) Infinity) ->
    (length ids < fuel)%nat ->
    Layer_getParentLayerIds fuel (new_Layer d pp (Some this)) w1 = (Ok ids, w1).
Proof.
  induction 1 as [d Hd | ids parent d Hp IH Hd]; intros pp fuel Hin Hfuel;
    (destruct fuel as [| fuel]; [simpl in Hfuel; lia |]);
    rewrite Layer_getParentLayerIds_S.
  - rewrite (bind_ok _ _ _ _ _ (getParentLayer_of_root d pp Hd Hin)).
    reflexivity.
  - destruct (getParentLayer_of_nested _ parent d pp
                (ancestors_at_depth _ _ _ Hp) Hd Hin) as (ppp & Hpin & Hpar).
    rewrite (bind_ok _ _ _ _ _ Hpar).
    rewrite (bind_ok _ _ _ _ _ (IH ppp fuel Hpin ltac:(simpl in Hfuel; lia))).
    reflexivity.
Qed.

End ParentChain.

(** On an artboard whose cache is coherent and whose layer ids are pairwise
    different and not empty, [getParentLayerIds()] of a layer of the artboard
    lists the ids of the layers that hold it, from the nearest up to the root
    layer, and [getDepth()] is one more than their number.  (Given fuel that
    covers the chain.)  For any layer, [getParentLayer()] is nothing when it
    has no parent layer id, and throws when it has one and no artboard. *)
Theorem getParentLayerIds_lists_the_ancestors
    (w : World) (this : ref) (a : Artboard) :
  artboards w !! this = Some a ->
  flattened_cache_coherent w this a ->
  well_formed_ids (layerDataList_of (_octopus a)) ->
  (forall ids d,
     ancestors (layerDataList_of (_octopus a)) ids d ->
     exists l w1,
       Artboard_getLayerById this (o_id d) w = (Ok (Some l), w1) /\
       octopus l = d /\
       forall fuel,
         (length ids < fuel)%nat ->
         Layer_getParentLayerIds fuel l w1 = (Ok ids, w1) /\
         Layer_getDepth (2 * fuel) l w1 =
           (Ok (1 + Z.of_nat (length ids)), w1)) /\
  (forall l w0,
     Layer_isRootLayer l = true ->
     Layer_getParentLayer l w0 = (Ok None, w0) /\
     forall fuel, Layer_getParentLayerIds (S fuel) l w0 = (Ok [], w0)) /\
  (forall l w0,
     Layer_isRootLayer l = false -> _artboard l = None ->
     Layer_getParentLayer l w0 =
     (Throw "Cannot retrieve the parent layer of a detached layer", w0)).
Proof.
  intros Ha Hco Hwf. split; [| split].
  - intros ids d Hanc.
    pose proof (ancestors_at_depth _ _ _ Hanc) as Hd.
    destruct (at_depth_flattened _ (Some this) _ d Hd) as (pp & Hin & _).
    destruct (getLayerById_coherent w this a (o_id d) Ha Hco)
      as (c & w1 & Hfind & Hstable & Hc).
    rewrite (getLayerById_unique _ (new_Layer d pp (Some this))) in Hfind;
      [| rewrite flattened_forest_ids; apply Hwf | exact Hin].
    exists (new_Layer d pp (Some this)), w1.
    split; [exact Hfind |]. split; [reflexivity |].
    intros fuel Hfuel. split.
    + apply (getParentLayerIds_stable w1 this c _ Hstable Hc Hwf ids d Hanc);
        assumption.
    + apply (getDepth_stable w1 this c _ Hstable Hc Hwf _ d Hd); [exact Hin |].
      lia.
  - intros l w0 Hroot.
    assert (Hp : str_or_null (_parentLayerId l) = None).
    { unfold Layer_isRootLayer in Hroot.
      destruct (str_or_null (_parentLayerId l)); [| reflexivity].
      rewrite bool_decide_eq_true_2 in Hroot by eauto. discriminate. }
    assert (Hnone : Layer_getParentLayer l w0 = (Ok None, w0))
      by (unfold Layer_getParentLayer; rewrite Hp; reflexivity).
    split; [exact Hnone |]. intros fuel.
    rewrite Layer_getParentLayerIds_S, (bind_ok _ _ _ _ _ Hnone).
    reflexivity.
  - intros l w0 Hroot Hdet. unfold Layer_getParentLayer, Layer_isRootLayer in *.
    destruct (str_or_null (_parentLayerId l)).
    + rewrite Hdet. reflexivity.
    + rewrite bool_decide_eq_false_2 in Hroot; [discriminate |].
      intros [? H]. discriminate H.
Qed.

Lemma getParentLayerIds_sample :
  exists l w1,
    Artboard_getLayerById 0%nat "c" sample_world = (Ok (Some l), w1) /\
    Layer_getParentLayerIds 3 l w1 = (Ok ["b"; "a"], w1) /\
    Layer_getDepth 6 l w1 = (Ok 3, w1).
Proof.
  destruct (getParentLayerIds_lists_the_ancestors sample_world 0%nat
              {| _manifest := sample_manifest "A" (Some "p2") None;
                 _octopus := Some sample_octopus;
                 _design := Some 0%nat;
                 getRootLayers_cache := [];
                 getFlattenedLayers_cache := [] |})
    as (H & _).
  - reflexivity.
  - apply flattened_cache_coherent_empty. reflexivity.
  - split.
    + apply (bool_decide_unpack _). vm_compute. exact I.
    + apply (bool_decide_unpack _). vm_compute. exact I.
  - destruct (H ["b"; "a"] (leaf "c")) as (l & w1 & H1 & _ & H2).
    + apply (ancestors_nested _ ["a"] (group "b" [leaf "c"])).
      * apply (ancestors_nested _ [] sample_tree).
        -- apply ancestors_root. left. reflexivity.
        -- left. reflexivity.
      * left. reflexivity.
    + exists l, w1. split; [exact H1 |].
      apply (H2 3%nat). simpl. lia.
Defined.

(** ** Page.removeArtboard and Page.unloadArtboards *)

Lemma find_filter_removed {A} (key : A -> string) (id : string) (l : list A) :
  List.find (fun e => String.eqb (key e) id)
    (List.filter (fun e => negb (String.eqb (key e) id)) l) = None.
Proof.
  induction l as [| x l IH]; simpl; [reflexivity |].
  destruct (String.eqb (key x) id) eqn:E; simpl; [exact IH |].
  rewrite E. exact IH.
Qed.

Lemma find_filter_other {A} (key : A -> string) (id other : string) (l : list A) :
  other <> id ->
  List.find (fun e => String.eqb (key e) other)
    (List.filter (fun e => negb (String.eqb (key e) id)) l) =
  List.find (fun e => String.eqb (key e) other) l.
Proof.
  intros Hne. induction l as [| x l IH]; simpl; [reflexivity |].
  destruct (String.eqb (key x) id) eqn:E; simpl.
  - apply String.eqb_eq in E.
    assert (E' : String.eqb (key x) other = false)
      by (apply String.eqb_neq; congruence).
    rewrite E'. exact IH.
  - destruct (String.eqb (key x) other); [reflexivity | exact IH].
Qed.

(** [Page.removeArtboard(id)] returns false and changes nothing unless the
    Design has an artboard of that id on this page.  When it has, the call
    returns true; afterwards neither the page nor the Design finds the id,
    every other id is found as before, and the artboard objects themselves
    are untouched. *)
Theorem removeArtboard_removes_only_from_its_own_page
    (w : World) (p : Page) (d : Design) (artboardId : ArtboardId) :
  designs w !! page_design p = Some d ->
  (Design_getArtboardById d artboardId = None ->
   Page_removeArtboard p artboardId w = (Ok false, w)) /\
  (forall r a,
     Design_getArtboardById d artboardId = Some r ->
     artboards w !! r = Some a ->
     (Artboard_pageId a <> Some (page_id p) ->
      Page_removeArtboard p artboardId w = (Ok false, w)) /\
     (Artboard_pageId a = Some (page_id p) ->
      exists w' d',
        Page_removeArtboard p artboardId w = (Ok true, w') /\
        artboards w' = artboards w /\
        designs w' !! page_design p = Some d' /\
        Design_getArtboardById d' artboardId = None /\
        (forall other, other <> artboardId ->
           Design_getArtboardById d' other = Design_getArtboardById d other) /\
        Page_getArtboardById p artboardId w' = (Ok None, w'))).
Proof.
  intros Hd. split.
  - intros Hnone. unfold Page_removeArtboard, Page_getArtboardById.
    rewrite bind_assoc, (bind_ok _ _ _ _ _ (get_design_ok _ _ _ Hd)), Hnone.
    reflexivity.
  - intros r a Hr Ha.
    assert (Hlookup : forall b,
              bool_decide (Artboard_pageId a = Some (page_id p)) = b ->
              Page_getArtboardById p artboardId w =
              (Ok (if b then Some r else None), w)).
    { intros b Hb. unfold Page_getArtboardById.
      rewrite (bind_ok _ _ _ _ _ (get_design_ok _ _ _ Hd)), Hr.
      rewrite (bind_ok _ _ _ _ _ (get_artboard_ok _ _ _ Ha)), Hb.
      destruct b; reflexivity. }
    split.
    + intros Hp. unfold Page_removeArtboard.
      rewrite (bind_ok _ _ _ _ _
                 (Hlookup false (bool_decide_eq_false_2 _ Hp))).
      reflexivity.
    + intros Hp.
      set (d' := {| design_artboards :=
                      List.filter
                        (fun e => negb (String.eqb (fst e) artboardId))
                        (design_artboards d);
                    design_pages := design_pages d |}).
      set (w' := {| artboards := artboards w;
                    designs := <[page_design p := d']> (designs w);
                    collections := collections w |}).
      assert (Hd' : designs w' !! page_design p = Some d')
        by apply (lookup_updated _ _ _ _ Hd).
      assert (Hgone : Design_getArtboardById d' artboardId = None).
      { unfold Design_getArtboardById, d'. cbn [design_artboards].
        rewrite find_filter_removed. reflexivity. }
      exists w', d'. split; [| split; [reflexivity |]].
      * unfold Page_removeArtboard.
        rewrite (bind_ok _ _ _ _ _
                   (Hlookup true (bool_decide_eq_true_2 _ Hp))).
        unfold Design_removeArtboard.
        rewrite (bind_ok _ _ _ _ _ (get_design_ok _ _ _ Hd)), Hr.
        reflexivity.
      * split; [exact Hd' |]. split; [exact Hgone |]. split.
        -- intros other Hne. unfold Design_getArtboardById, d'.
           cbn [design_artboards].
           rewrite (find_filter_other fst artboardId other _ Hne). reflexivity.
        -- unfold Page_getArtboardById.
           rewrite (bind_ok _ _ _ _ _ (get_design_ok _ _ _ Hd')), Hgone.
           reflexivity.
Qed.

Lemma removeArtboard_sample :
  Page_removeArtboard page1 "A" sample_world = (Ok false, sample_world) /\
  exists w',
    Page_removeArtboard page2 "A" sample_world = (Ok true, w') /\
    Page_getArtboardById page2 "A" w' = (Ok None, w').
Proof.
  split.
  - eapply (removeArtboard_removes_only_from_its_own_page sample_world page1
              _ "A" eq_refl); try reflexivity.
    vm_compute. discriminate.
  - destruct (removeArtboard_removes_only_from_its_own_page sample_world page2
                _ "A" eq_refl) as [_ H].
    destruct (H 0%nat _ eq_refl eq_refl) as [_ H'].
    destruct (H' eq_refl) as (w' & d' & H1 & _ & _ & _ & _ & H2).
    exists w'. split; assumption.
Defined.

Lemma forEach_unload (l : list ref) :
  forall w,
    (forall r, In r l -> is_Some (artboards w !! r)) ->
    exists w',
      forEach l (fun artboard => Artboard_unload artboard) w = (Ok tt, w') /\
      designs w' = designs w /\ collections w' = collections w /\
      forall r a,
        artboards w !! r = Some a ->
        (In r l -> artboards w' !! r = Some (set_octopus None a)) /\
        (~ In r l -> artboards w' !! r = Some a).
Proof.
  induction l as [| r0 l IH]; intros w Hvalid.
  - exists w. repeat split; auto. intros [].
  - destruct (Hvalid r0 (or_introl eq_refl)) as [a0 Ha0].
    set (w0 := {| artboards := <[r0 := set_octopus None a0]> (artboards w);
                  designs := designs w; collections := collections w |}).
    assert (Hstep : Artboard_unload r0 w = (Ok tt, w0))
      by apply (modify_artboard_ok _ _ _ _ Ha0).
    destruct (IH w0) as (w' & Hrun & Hds & Hcs & Hall).
    { intros r Hr. cbn [artboards w0].
      apply list_lookup_insert_is_Some. apply Hvalid. right. exact Hr. }
    exists w'. cbn [forEach]. rewrite (bind_ok _ _ _ _ _ Hstep).
    split; [exact Hrun |]. split; [exact Hds |]. split; [exact Hcs |].
    intros r a Ha. destruct (decide (r = r0)) as [-> | Hne].
    + assert (a = a0) as -> by congruence.
      destruct (Hall r0 (set_octopus None a0)
                  (lookup_updated _ _ _ _ Ha0)) as [Hin Hout].
      split.
      * intros _. destruct (in_dec Nat.eq_dec r0 l) as [Hl | Hl]; auto.
      * intros Hn. destruct Hn. left. reflexivity.
    + assert (Ha' : artboards w0 !! r = Some a).
      { cbn [artboards w0]. rewrite list_lookup_insert_ne by congruence.
        exact Ha. }
      destruct (Hall r a Ha') as [Hin Hout]. split.
      * intros [-> | Hl]; [destruct (Hne eq_refl) | auto].
      * intros Hn. apply Hout. intros Hl. apply Hn. right. exact Hl.
Qed.

(** [Page.unloadArtboards()] unloads exactly the artboards that
    [getArtboards()] lists: each of them loses its content and keeps its
    manifest, design and caches, and every other artboard of the store, and
    every Design and collection, is left as it is. *)
Theorem unloadArtboards_unloads_the_artboards_of_the_page
    (w : World) (p : Page) (d : Design) :
  designs w !! page_design p = Some d ->
  exists w',
    Page_getArtboards p w =
      (Ok (Design_getPageArtboards w d (page_id p)), w) /\
    Page_unloadArtboards p w = (Ok tt, w') /\
    designs w' = designs w /\ collections w' = collections w /\
    forall r a,
      artboards w !! r = Some a ->
      (In r (Design_getPageArtboards w d (page_id p)) ->
       artboards w' !! r = Some (set_octopus None a) /\
       Artboard_isLoaded r w' = (Ok false, w') /\
       Artboard_getManifest r w' = (Ok (_manifest a), w')) /\
      (~ In r (Design_getPageArtboards w d (page_id p)) ->
       artboards w' !! r = Some a).
Proof.
  intros Hd.
  assert (Hlist : Page_getArtboards p w =
                  (Ok (Design_getPageArtboards w d (page_id p)), w)).
  { unfold Page_getArtboards.
    rewrite (bind_ok _ _ _ _ _ (get_design_ok _ _ _ Hd)). reflexivity. }
  destruct (forEach_unload (Design_getPageArtboards w d (page_id p)) w)
    as (w' & Hrun & Hds & Hcs & Hall).
  { intros r Hr. unfold Design_getPageArtboards in Hr.
    apply filter_In in Hr as [_ Hr].
    destruct (artboards w !! r); [eauto | discriminate]. }
  exists w'. split; [exact Hlist |]. split.
  { unfold Page_unloadArtboards. rewrite (bind_ok _ _ _ _ _ Hlist).
    exact Hrun. }
  split; [exact Hds |]. split; [exact Hcs |].
  intros r a Ha. destruct (Hall r a Ha) as [Hin Hout]. split; [| exact Hout].
  intros Hr. pose proof (Hin Hr) as Ha'. split; [exact Ha' |].
  unfold Artboard_isLoaded, Artboard_getManifest.
  rewrite !(bind_ok _ _ _ _ _ (get_artboard_ok _ _ _ Ha')).
  split; reflexivity.
Qed.

Lemma unloadArtboards_sample :
  exists w',
    Page_unloadArtboards page2 sample_world = (Ok tt, w') /\
    Artboard_isLoaded 0%nat w' = (Ok false, w') /\
    Artboard_isLoaded 1%nat w' = (Ok true, w').
Proof.
  destruct (unloadArtboards_unloads_the_artboards_of_the_page sample_world
              page2 _ eq_refl) as (w' & _ & H1 & _ & _ & H2).
  exists w'. split; [exact H1 |]. split.
  - destruct (H2 0%nat _ eq_refl) as [Hin _].
    apply Hin. vm_compute. left. reflexivity.
  - destruct (H2 1%nat _ eq_refl) as [_ Hout].
    assert (Hkept : artboards w' !! 1%nat = artboards sample_world !! 1%nat).
    { apply Hout. vm_compute. intros [H | []]. discriminate H. }
    unfold Artboard_isLoaded.
    rewrite (bind_ok _ _ _ _ _ (get_artboard_ok _ _ _ Hkept)). reflexivity.
Defined.

(** ** Root layers and nested layers: artboard and parent links *)

(** When [getRootLayers()] computes its collection, it holds one layer per
    entry of the content's layer list, in order; each is attached to this
    artboard, is a root layer, has no parent layer and has depth 1. *)
Theorem getRootLayers_returns_root_layers_of_the_artboard
    (w : World) (this : ref) (a : Artboard) (args : list arg) :
  artboards w !! this = Some a ->
  find_cached 1 (getRootLayers_cache a) args = None ->
  exists c w1 layers,
    Artboard_getRootLayers this args w = (Ok c, w1) /\
    collections w1 !! c = Some layers /\
    map octopus layers = layerDataList_of (_octopus a) /\
    forall l,
      In l layers ->
      _artboard l = Some this /\
      Layer_isRootLayer l = true /\
      Layer_getParentLayerId l = None /\
      forall fuel w0, Layer_getDepth (S fuel) l w0 = (Ok 1, w0).
Proof.
  intros Ha He. rewrite (getRootLayers_miss _ _ _ _ Ha He).
  eexists _, _, _. split; [reflexivity |].
  split; [simpl; apply list_lookup_middle; reflexivity |]. split.
  - unfold createLayers. rewrite map_map. simpl. apply map_id.
  - intros l Hl. unfold createLayers in Hl. apply in_map_iff in Hl.
    destruct Hl as (d & <- & _). repeat split.
Qed.

Lemma getRootLayers_sample :
  exists c w1 layers,
    Artboard_getRootLayers 0%nat [] sample_world = (Ok c, w1) /\
    collections w1 !! c = Some layers /\
    map Layer_id layers = ["a"; "e"].
Proof.
  destruct (getRootLayers_returns_root_layers_of_the_artboard sample_world
              0%nat
              {| _manifest := sample_manifest "A" (Some "p2") None;
                 _octopus := Some sample_octopus;
                 _design := Some 0%nat;
                 getRootLayers_cache := [];
                 getFlattenedLayers_cache := [] |} [] eq_refl eq_refl)
    as (c & w1 & layers & H1 & H2 & H3 & _).
  exists c, w1, layers. split; [exact H1 |]. split; [exact H2 |].
  unfold Layer_id. rewrite <- map_map, H3. reflexivity.
Defined.

Lemma nestedLayers_links artboard outer :
  forall optionsDepth nested,
    In nested (nestedLayers artboard optionsDepth outer) ->
    _artboard nested = artboard /\
    exists parent,
      (parent = outer \/ nested_in parent outer) /\
      In (octopus nested) (o_layers parent) /\
      _parentLayerId nested = str_or_null (Some (o_id parent)).
Proof.
  induction outer as [outer IH] using LayerOctopusData_tree_ind.
  rewrite Forall_forall in IH.
  intros optionsDepth nested. rewrite nestedLayers_eq. cbv zeta.
  assert (Hdirect : forall d,
            In d (o_layers outer) ->
            _artboard (new_Layer d (Some (o_id outer)) artboard) = artboard /\
            exists parent,
              (parent = outer \/ nested_in parent outer) /\
              In (octopus (new_Layer d (Some (o_id outer)) artboard))
                 (o_layers parent) /\
              _parentLayerId (new_Layer d (Some (o_id outer)) artboard) =
              str_or_null (Some (o_id parent))).
  { intros d Hd. split; [reflexivity |]. exists outer. auto. }
  destruct (number_strict_eq _ _).
  - unfold createLayers. rewrite in_map_iff. intros (d & <- & Hd).
    apply Hdirect, Hd.
  - rewrite in_flat_map. intros (d & Hd & [<- | Hn]).
    + apply Hdirect, Hd.
    + destruct (IH d (proj2 (list_elem_of_In _ _) Hd) _ _ Hn)
        as (Hart & parent & Hpar & Hin & Hid).
      split; [exact Hart |]. exists parent. split; [| auto].
      right. destruct Hpar as [-> | Hpar].
      * apply nested_direct, Hd.
      * apply (nested_deeper _ d); assumption.
Qed.

(** Every layer that [getNestedLayers(options)] returns is attached to the
    artboard of the layer asked, and its parent layer id is the id of the
    layer, the asked one or one nested in it, that holds it directly. *)
Theorem getNestedLayers_links_each_layer_to_its_parent
    (l : Layer) (options : object) (nested : Layer) :
  In nested (Layer_getNestedLayers l options) ->
  _artboard nested = _artboard l /\
  exists parent,
    (parent = octopus l \/ nested_in parent (octopus l)) /\
    In (octopus nested) (o_layers parent) /\
    Layer_getParentLayerId nested = str_or_null (Some (o_id parent)).
Proof. apply nestedLayers_links. Qed.

Lemma getNestedLayers_links_sample :
  _artboard (new_Layer (leaf "c") (Some "b") (Some 0%nat)) = Some 0%nat /\
  exists parent,
    (parent = sample_tree \/ nested_in parent sample_tree) /\
    In (leaf "c") (o_layers parent) /\
    Layer_getParentLayerId (new_Layer (leaf "c") (Some "b") (Some 0%nat)) =
    str_or_null (Some (o_id parent)).
Proof.
  apply (getNestedLayers_links_each_layer_to_its_parent
           (new_Layer sample_tree None (Some 0%nat)) depth_Infinity
           (new_Layer (leaf "c") (Some "b") (Some 0%nat))).
  vm_compute. right. left. reflexivity.
Defined.
